(** * AI Observability Toolkit: trace correlation and analytics

    A shallow embedding of the toolkit's Python sources
    ([src/utils.py], [src/config.py], [src/tracers/context.py],
    [src/tracers/observability_callback.py], [src/storage/*.py],
    [src/metrics/latency_tracker.py], [src/metrics/error_detector.py])
    and the properties its specification states about them.

    Python [float] is IEEE 754 binary64, which is Rocq's primitive [float];
    Python [int] is [Z]; [str] is [string]; [dict] with string keys is
    [gmap string _]; an exception that a Python primitive raises is the
    [Raise] outcome of the result type [res]. *)

From Stdlib Require Import ZArith List String Ascii Floats Lia.
From stdpp Require Import gmap strings list fin_maps.

Set Warnings "-inexact-float,-register-all".
#[local] Open Scope Z_scope.

(* ===================================================================== *)
(** ** Python runtime: exceptions, numbers, sequences                     *)
(* ===================================================================== *)
Module Py.

(** The exception classes raised by the primitives used below.  Every one
    of them derives from Python's [Exception]. *)
Inductive exn : Type :=
| KeyError | IndexError | AttributeError | TypeError | ValueError
| OverflowError | ZeroDivisionError
| OperationalError | IntegrityError.

Inductive res (A : Type) : Type :=
| Ok (a : A)
| Raise (e : exn).
Arguments Ok {A} a.
Arguments Raise {A} e.

#[export] Instance res_ret : MRet res := fun _ a => Ok a.
#[export] Instance res_bind : MBind res := fun _ _ f m =>
  match m with
  | Ok a => f a
  | Raise e => Raise e
  end.

Definition returns {A} (r : res A) : Prop := exists a, r = Ok a.

(** [float(z)] and the implicit conversion of an [int] operand in mixed
    arithmetic: the nearest binary64 value (ties to even); OverflowError
    when the integer is too large for a float. *)
Definition nearest_float (z : Z) : float :=
  SF2Prim (binary_normalize prec emax z 0 false).

Definition float_of_int (z : Z) : res float :=
  let x := nearest_float z in
  if is_infinity x then Raise OverflowError else Ok x.

(** [int(x)]: truncation toward zero; ValueError on NaN, OverflowError on
    an infinity. *)
Definition int_of_float (x : float) : res Z :=
  match Prim2SF x with
  | S754_nan => Raise ValueError
  | S754_infinity _ => Raise OverflowError
  | S754_zero _ => Ok 0
  | S754_finite s m e =>
      let a := if 0 <=? e then Z.shiftl (Zpos m) e
               else Z.shiftr (Zpos m) (- e) in
      Ok (if s then - a else a)
  end.

(** [math.floor(x)], the mathematical floor the specification speaks of. *)
Definition floor_of_float (x : float) : res Z :=
  match Prim2SF x with
  | S754_nan => Raise ValueError
  | S754_infinity _ => Raise OverflowError
  | S754_zero _ => Ok 0
  | S754_finite s m e =>
      let n := if s then Zneg m else Zpos m in
      Ok (if 0 <=? e then Z.shiftl n e else n / 2 ^ (- e))
  end.

(** [x / y] on floats: ZeroDivisionError when [y == 0.0] (either sign). *)
Definition float_truediv (x y : float) : res float :=
  if PrimFloat.eqb y 0%float then Raise ZeroDivisionError
  else Ok (x / y)%float.

(** [a / b] on ints (true division): the exact quotient rounded once to
    the nearest float.  Operands below 2^53 convert exactly, so there the
    quotient is the IEEE division of the converted operands; larger
    operands are divided exactly.  OverflowError when the rounded
    quotient is not finite. *)
Definition spec_of_int (z : Z) : spec_float :=
  match z with
  | Z0 => S754_zero false
  | Zpos p => S754_finite false p 0
  | Zneg p => S754_finite true p 0
  end.

Definition int_truediv (a b : Z) : res float :=
  if b =? 0 then Raise ZeroDivisionError
  else if (Z.abs a <? 2 ^ 53) && (Z.abs b <? 2 ^ 53)
  then Ok (nearest_float a / nearest_float b)%float
  else
    let q := SF2Prim (SFdiv prec emax (spec_of_int a) (spec_of_int b)) in
    if is_infinity q then Raise OverflowError else Ok q.

(** [x ** 2] on a float: the rounded square, OverflowError when a finite
    operand overflows.  [x ** 0.5] on a non-negative (or NaN) float: the
    rounded square root.  CPython hands both to the C library's [pow],
    which is not bound to round correctly: on some operands its result
    is one unit in the last place away from the rounded product taken
    here. *)
Definition float_pow2 (x : float) : res float :=
  let y := (x * x)%float in
  if is_infinity y && negb (is_infinity x) then Raise OverflowError
  else Ok y.

Definition float_pow_half (x : float) : float := PrimFloat.sqrt x.

(** [sum(xs)] with the default start [0], accumulated left to right. *)
Definition sum (xs : list float) : float :=
  fold_left PrimFloat.add xs 0%float.

(** [x > y], [x >= y], [x < y] on floats (all false on NaN). *)
Definition float_gt (x y : float) : bool := PrimFloat.ltb y x.
Definition float_ge (x y : float) : bool := PrimFloat.leb y x.
Definition float_lt (x y : float) : bool := PrimFloat.ltb x y.

(** Truthiness of a float: [0.0], [-0.0] are false; NaN is true. *)
Definition float_truthy (x : float) : bool := negb (PrimFloat.eqb x 0%float).

(** [xs[i]] with Python's negative indices; IndexError out of range. *)
Definition index {A} (xs : list A) (i : Z) : res A :=
  let n := Z.of_nat (length xs) in
  let j := if i <? 0 then i + n else i in
  if (j <? 0) || (n <=? j) then Raise IndexError
  else match xs !! Z.to_nat j with
       | Some x => Ok x
       | None => Raise IndexError
       end.

(** [xs.pop()]: removes and returns the last item; IndexError when empty. *)
Definition list_pop {A} (xs : list A) : res (A * list A) :=
  match last xs with
  | Some x => Ok (x, removelast xs)
  | None => Raise IndexError
  end.

(** [text[:n]] on a string. *)
Definition slice_to (text : string) (n : Z) : string :=
  let len := Z.of_nat (String.length text) in
  let stop := if n <? 0 then Z.max 0 (len + n) else Z.min n len in
  substring 0 (Z.to_nat stop) text.

(** [range(n)] as a list of ints (empty when [n <= 0]). *)
Definition range (n : Z) : list Z :=
  map Z.of_nat (seq 0 (Z.to_nat n)).

(** A Python value carried opaquely (metadata values, payloads). *)
Inductive pyval : Type :=
| PNone
| PBool (b : bool)
| PInt (z : Z)
| PStr (s : string)
| PList (l : list pyval)
| PDict (d : list (string * pyval)).

(** Statements over a mutable object [S]: a statement returns or raises,
    and in both cases the mutations made so far remain. *)
Definition ST (S A : Type) : Type := S -> res A * S.

#[export] Instance ST_ret {S} : MRet (ST S) := fun _ a s => (Ok a, s).
#[export] Instance ST_bind {S} : MBind (ST S) := fun _ _ f m s =>
  match m s with
  | (Ok a, s') => f a s'
  | (Raise e, s') => (Raise e, s')
  end.

Definition raise {S A} (e : exn) : ST S A := fun s => (Raise e, s).
Definition gets {S A} (f : S -> A) : ST S A := fun s => (Ok (f s), s).
Definition modify {S} (f : S -> S) : ST S unit := fun s => (Ok tt, f s).
Definition lift {S A} (r : res A) : ST S A := fun s => (r, s).
Definition pass {S} : ST S unit := fun s => (Ok tt, s).

(** [d[k]] and [del d[k]] on a dict: KeyError when the key is absent. *)
Definition dict_getitem {V} (d : gmap string V) (k : string) : res V :=
  match d !! k with
  | Some v => Ok v
  | None => Raise KeyError
  end.

Definition dict_delitem {V} (d : gmap string V) (k : string)
  : res (gmap string V) :=
  match d !! k with
  | Some _ => Ok (delete k d)
  | None => Raise KeyError
  end.

End Py.
Import Py.

(* ===================================================================== *)
(** ** src/utils.py                                                       *)
(* ===================================================================== *)
Module Utils.

Definition calculate_duration_ms (start_time end_time : float) : float :=
  ((end_time - start_time) * 1000)%float.

Definition truncate_string (text : string) (max_length : Z) : string :=
  if Z.of_nat (String.length text) <=? max_length then text
  else (slice_to text (max_length - 3) ++ "...")%string.

(** A string that ends with the three-dot marker. *)
Definition ends_with_ellipsis (s : string) : Prop :=
  exists prefix : string, s = (prefix ++ "...")%string.

(** [numerator / denominator if denominator != 0 else default], at the
    annotated type [float]. *)
Definition safe_divide_default (numerator denominator default : float)
  : res float :=
  if negb (PrimFloat.eqb denominator 0%float)
  then float_truediv numerator denominator
  else Ok default.

Definition safe_divide (numerator denominator : float) : res float :=
  safe_divide_default numerator denominator 0%float.

End Utils.

(* ===================================================================== *)
(** ** src/config.py                                                      *)
(* ===================================================================== *)
Module Config.

Record pricing : Type := Pricing { input : float; output : float }.

Definition GROQ_PRICING_items : list (string * pricing) :=
  [ ("llama3-8b-8192"%string, Pricing 0.05 0.08);
    ("llama3-70b-8192"%string, Pricing 0.59 0.79);
    ("llama-3.1-8b-instant"%string, Pricing 0.05 0.08);
    ("llama-3.1-70b-versatile"%string, Pricing 0.59 0.79);
    ("llama-3.2-1b-preview"%string, Pricing 0.04 0.04);
    ("llama-3.2-3b-preview"%string, Pricing 0.06 0.06);
    ("llama-3.2-11b-vision-preview"%string, Pricing 0.18 0.18);
    ("llama-3.2-90b-vision-preview"%string, Pricing 0.90 0.90);
    ("llama-3.3-70b-versatile"%string, Pricing 0.59 0.79);
    ("mixtral-8x7b-32768"%string, Pricing 0.24 0.24);
    ("gemma-7b-it"%string, Pricing 0.07 0.07);
    ("gemma2-9b-it"%string, Pricing 0.20 0.20) ].

Definition GROQ_PRICING : gmap string pricing :=
  list_to_map GROQ_PRICING_items.

Definition DEFAULT_PRICING : pricing := Pricing 0.10 0.10.

(** [GROQ_PRICING.get(model, DEFAULT_PRICING)] *)
Definition pricing_for (model : string) : pricing :=
  default DEFAULT_PRICING (GROQ_PRICING !! model).

Definition calculate_cost (model : string) (input_tokens output_tokens : Z)
  : res float :=
  let pricing := pricing_for model in
  i ← int_truediv input_tokens 1000000;
  let input_cost := (i * input pricing)%float in
  o ← int_truediv output_tokens 1000000;
  let output_cost := (o * output pricing)%float in
  mret (input_cost + output_cost)%float.

Definition MAX_PROMPT_LENGTH : Z := 10000.
Definition MAX_RESPONSE_LENGTH : Z := 10000.

End Config.

(* ===================================================================== *)
(** ** src/tracers/context.py                                             *)
(* ===================================================================== *)
Module Context.

(** A frame of the stack: the dict built by [push_trace]. *)
Record frame : Type :=
  Frame { trace_id : string; trace_type : string; name : string;
          start_time : float; parent_trace_id : option string;
          metadata : gmap string pyval }.

(** [self._local] as seen by one thread of execution: each attribute is
    missing ([None]) until it is first assigned. *)
Record TraceContext : Type :=
  Local { stack : option (list frame);
          session_id : option (option string) }.

Definition set_stack (st : list frame) (c : TraceContext) : TraceContext :=
  Local (Some st) (session_id c).
Definition set_session (sid : option string) (c : TraceContext)
  : TraceContext :=
  Local (stack c) (Some sid).

(** [self._local.stack]: AttributeError while the attribute is missing. *)
Definition the_stack : ST TraceContext (list frame) := fun c =>
  match stack c with
  | Some st => (Ok st, c)
  | None => (Raise AttributeError, c)
  end.

Definition the_session : ST TraceContext (option string) := fun c =>
  match session_id c with
  | Some sid => (Ok sid, c)
  | None => (Raise AttributeError, c)
  end.

Definition _ensure_stack : ST TraceContext unit := fun c =>
  match stack c with
  | None => (Ok tt, set_stack [] c)
  | Some _ => (Ok tt, c)
  end.

Definition _ensure_session : ST TraceContext unit := fun c =>
  match session_id c with
  | None => (Ok tt, set_session None c)
  | Some _ => (Ok tt, c)
  end.

Definition get_current_trace_id : ST TraceContext (option string) :=
  _ensure_stack;;
  st ← the_stack;
  match st with
  | [] => mret None
  | _ => top ← lift (index st (-1)); mret (Some (trace_id top))
  end.

Definition push_trace (trace_id trace_type name : string)
  (start_time : float) (metadata : option (gmap string pyval))
  : ST TraceContext unit :=
  _ensure_stack;;
  parent ← get_current_trace_id;
  let trace_context :=
    Frame trace_id trace_type name start_time parent (default ∅ metadata) in
  st ← the_stack;
  modify (set_stack (st ++ [trace_context])).

Definition pop_trace : ST TraceContext (option frame) :=
  _ensure_stack;;
  st ← the_stack;
  match st with
  | [] => mret None
  | _ =>
      '(top, rest) ← lift (list_pop st);
      modify (set_stack rest);;
      mret (Some top)
  end.

Definition get_current_trace : ST TraceContext (option frame) :=
  _ensure_stack;;
  st ← the_stack;
  match st with
  | [] => mret None
  | _ => top ← lift (index st (-1)); mret (Some top)
  end.

Definition get_parent_trace_id : ST TraceContext (option string) :=
  trace ← get_current_trace;
  match trace with
  | Some t => mret (parent_trace_id t)
  | None => mret None
  end.

Definition set_session_id (sid : string) : ST TraceContext unit :=
  _ensure_session;;
  modify (set_session (Some sid)).

Definition get_session_id : ST TraceContext (option string) :=
  _ensure_session;;
  the_session.

Definition clear : ST TraceContext unit :=
  modify (fun _ => Local (Some []) (Some None)).

Definition get_stack_depth : ST TraceContext Z :=
  _ensure_stack;;
  st ← the_stack;
  mret (Z.of_nat (length st)).

(** The frames currently open on the path, bottom first. *)
Definition frames (c : TraceContext) : list frame := default [] (stack c).

(** The trace id on top of the stack, if any. *)
Definition top_trace_id (c : TraceContext) : option string :=
  trace_id <$> last (frames c).

End Context.

(* ===================================================================== *)
(** ** src/storage/database.py, src/storage/repositories.py               *)
(* ===================================================================== *)
Module Storage.

Inductive status : Type := pending | success | error.

#[export] Instance status_eq_dec : EqDecision status.
Proof. solve_decision. Defined.

(** Rows of the tables [traces], [llm_calls] and [events]. *)
Record TraceRow : Type :=
  { t_trace_id : string; t_parent_trace_id : option string;
    t_session_id : option string; t_trace_type : string; t_name : string;
    t_start_time : float; t_end_time : option float;
    t_duration_ms : option float; t_status : status;
    t_error_message : option string;
    t_metadata : option (gmap string pyval) }.

Record LLMCallRow : Type :=
  { l_trace_id : string; l_model : string; l_provider : string;
    l_prompt : string; l_system_prompt : option string;
    l_response : string; l_input_tokens : Z; l_output_tokens : Z;
    l_total_tokens : Z; l_cost_usd : float }.

Record EventRow : Type :=
  { e_trace_id : string; e_event_type : string; e_event_name : string;
    e_timestamp : float; e_data : option pyval }.

(** The database: [traces] keyed by its primary key [trace_id]; the other
    two tables in insertion (rowid) order.  [faults] tells, for each
    statement executed so far and to come, whether the engine fails it
    (locked or unreachable file, failed binding, full disk). *)
Record Database : Type :=
  { traces : gmap string TraceRow;
    llm_calls : list LLMCallRow;
    events : list EventRow;
    faults : nat -> bool;
    executed : nat }.

Definition set_traces (f : gmap string TraceRow -> gmap string TraceRow)
  (d : Database) : Database :=
  {| traces := f (traces d); llm_calls := llm_calls d; events := events d;
     faults := faults d; executed := executed d |}.
Definition add_llm_call (r : LLMCallRow) (d : Database) : Database :=
  {| traces := traces d; llm_calls := llm_calls d ++ [r];
     events := events d; faults := faults d; executed := executed d |}.
Definition add_event (r : EventRow) (d : Database) : Database :=
  {| traces := traces d; llm_calls := llm_calls d; events := events d ++ [r];
     faults := faults d; executed := executed d |}.
Definition count_statement (d : Database) : Database :=
  {| traces := traces d; llm_calls := llm_calls d; events := events d;
     faults := faults d; executed := S (executed d) |}.

(** [cursor.execute] inside [get_cursor]: a failing statement raises and
    is rolled back, so the tables are unchanged. *)
Definition execute : ST Database unit := fun d =>
  if faults d (executed d) then (Raise OperationalError, count_statement d)
  else (Ok tt, count_statement d).

(** [FOREIGN KEY (..) REFERENCES traces(trace_id)] under
    [PRAGMA foreign_keys=1]: when the statement has run, a non-NULL
    reference must name a row of [traces]. *)
Definition references_trace (d : Database) (ref : option string) : bool :=
  match ref with
  | None => true
  | Some t => bool_decide (is_Some (traces d !! t))
  end.

(** The tuple [params] of [create_trace]: the new row, [pending]. *)
Definition trace_params (trace_id trace_type name : string)
  (start_time : float) (session_id parent_trace_id : option string)
  (metadata : gmap string pyval) : TraceRow :=
  {| t_trace_id := trace_id; t_parent_trace_id := parent_trace_id;
     t_session_id := session_id; t_trace_type := trace_type;
     t_name := name; t_start_time := start_time; t_end_time := None;
     t_duration_ms := None; t_status := pending;
     t_error_message := None;
     t_metadata := if bool_decide (metadata = ∅) then None
                   else Some metadata |}.

Definition create_trace (trace_id trace_type name : string)
  (start_time : float) (session_id parent_trace_id : option string)
  (metadata : gmap string pyval) : ST Database string :=
  let params :=
    trace_params trace_id trace_type name start_time session_id
      parent_trace_id metadata in
  execute;;
  d ← gets id;
  (if bool_decide (is_Some (traces d !! trace_id))
   then raise IntegrityError
   else
     let d' := set_traces <[trace_id := params]> d in
     if references_trace d' parent_trace_id
     then modify (fun _ => d')
     else raise IntegrityError);;
  mret trace_id.

Definition complete (end_time duration_ms : float) (st : status)
  (error_message : option string) (r : TraceRow) : TraceRow :=
  {| t_trace_id := t_trace_id r; t_parent_trace_id := t_parent_trace_id r;
     t_session_id := t_session_id r; t_trace_type := t_trace_type r;
     t_name := t_name r; t_start_time := t_start_time r;
     t_end_time := Some end_time; t_duration_ms := Some duration_ms;
     t_status := st; t_error_message := error_message;
     t_metadata := t_metadata r |}.

Definition update_trace_completion (trace_id : string)
  (end_time start_time : float) (st : status)
  (error_message : option string) : ST Database unit :=
  let duration_ms := Utils.calculate_duration_ms start_time end_time in
  execute;;
  modify (set_traces (alter (complete end_time duration_ms st error_message)
                        trace_id)).

Definition create_llm_call (trace_id model prompt response : string)
  (input_tokens output_tokens total_tokens : Z) (cost_usd : float)
  (system_prompt : option string) (provider : string) : ST Database unit :=
  let params :=
    {| l_trace_id := trace_id; l_model := model; l_provider := provider;
       l_prompt := prompt; l_system_prompt := system_prompt;
       l_response := response; l_input_tokens := input_tokens;
       l_output_tokens := output_tokens; l_total_tokens := total_tokens;
       l_cost_usd := cost_usd |} in
  execute;;
  d ← gets id;
  if bool_decide (trace_id ∈ l_trace_id <$> llm_calls d)
  then raise IntegrityError
  else if references_trace d (Some trace_id)
  then modify (add_llm_call params)
  else raise IntegrityError.

Definition create_event (trace_id event_type event_name : string)
  (timestamp : float) (data : option pyval) : ST Database unit :=
  let params :=
    {| e_trace_id := trace_id; e_event_type := event_type;
       e_event_name := event_name; e_timestamp := timestamp;
       e_data := data |} in
  execute;;
  d ← gets id;
  if references_trace d (Some trace_id)
  then modify (add_event params)
  else raise IntegrityError.

End Storage.

(* ===================================================================== *)
(** ** src/tracers/observability_callback.py                              *)
(* ===================================================================== *)
Module Callback.
Import Context Storage.

(** Arguments the host framework passes to the callbacks. *)
Record Serialized : Type :=
  { ser_name : option string; ser_id : option (list string) }.

Record TokenUsage : Type :=
  { prompt_tokens : option Z; completion_tokens : option Z;
    total_tokens : option Z }.

Record LLMOutput : Type :=
  { token_usage : option TokenUsage; model_name : option string;
    model : option string }.

Record Generation : Type := { text : string }.

Record LLMResult : Type :=
  { llm_output : option LLMOutput;
    generations : list (list Generation);
    prompts : option (list string) }.

Record AgentAction : Type :=
  { tool : string; tool_input : pyval; action_log : string }.

Record AgentFinish : Type :=
  { return_values : pyval; finish_log : string }.

(** What the process reads from its environment: the results of
    [uuid.uuid4()] and of [time.time()], call after call. *)
Record World : Type :=
  { uuid4 : nat -> string; uuid4_calls : nat;
    time_time : nat -> float; time_calls : nat }.

(** The handler object together with what it reaches: the calling
    thread's trace context, the database behind its repositories, the
    flags of [src/config.py] read from the environment at import, and
    the lines it has printed. *)
Record ObservabilityCallback : Type :=
  { context : TraceContext;
    db : Database;
    global_metadata : gmap string pyval;
    _run_id_to_trace_id : gmap string string;
    _run_start_times : gmap string float;
    ENABLE_PROMPT_LOGGING : bool;
    ENABLE_RESPONSE_LOGGING : bool;
    world : World;
    printed : list exn }.

Abbreviation M := (ST ObservabilityCallback).

Definition with_context (f : TraceContext -> TraceContext)
  (s : ObservabilityCallback) : ObservabilityCallback :=
  {| context := f (context s); db := db s;
     global_metadata := global_metadata s;
     _run_id_to_trace_id := _run_id_to_trace_id s;
     _run_start_times := _run_start_times s;
     ENABLE_PROMPT_LOGGING := ENABLE_PROMPT_LOGGING s;
     ENABLE_RESPONSE_LOGGING := ENABLE_RESPONSE_LOGGING s;
     world := world s; printed := printed s |}.
Definition with_db (f : Database -> Database)
  (s : ObservabilityCallback) : ObservabilityCallback :=
  {| context := context s; db := f (db s);
     global_metadata := global_metadata s;
     _run_id_to_trace_id := _run_id_to_trace_id s;
     _run_start_times := _run_start_times s;
     ENABLE_PROMPT_LOGGING := ENABLE_PROMPT_LOGGING s;
     ENABLE_RESPONSE_LOGGING := ENABLE_RESPONSE_LOGGING s;
     world := world s; printed := printed s |}.
Definition with_run_ids (f : gmap string string -> gmap string string)
  (s : ObservabilityCallback) : ObservabilityCallback :=
  {| context := context s; db := db s;
     global_metadata := global_metadata s;
     _run_id_to_trace_id := f (_run_id_to_trace_id s);
     _run_start_times := _run_start_times s;
     ENABLE_PROMPT_LOGGING := ENABLE_PROMPT_LOGGING s;
     ENABLE_RESPONSE_LOGGING := ENABLE_RESPONSE_LOGGING s;
     world := world s; printed := printed s |}.
Definition with_start_times (f : gmap string float -> gmap string float)
  (s : ObservabilityCallback) : ObservabilityCallback :=
  {| context := context s; db := db s;
     global_metadata := global_metadata s;
     _run_id_to_trace_id := _run_id_to_trace_id s;
     _run_start_times := f (_run_start_times s);
     ENABLE_PROMPT_LOGGING := ENABLE_PROMPT_LOGGING s;
     ENABLE_RESPONSE_LOGGING := ENABLE_RESPONSE_LOGGING s;
     world := world s; printed := printed s |}.
Definition with_world (f : World -> World)
  (s : ObservabilityCallback) : ObservabilityCallback :=
  {| context := context s; db := db s;
     global_metadata := global_metadata s;
     _run_id_to_trace_id := _run_id_to_trace_id s;
     _run_start_times := _run_start_times s;
     ENABLE_PROMPT_LOGGING := ENABLE_PROMPT_LOGGING s;
     ENABLE_RESPONSE_LOGGING := ENABLE_RESPONSE_LOGGING s;
     world := f (world s); printed := printed s |}.
Definition print (e : exn) (s : ObservabilityCallback)
  : ObservabilityCallback :=
  {| context := context s; db := db s;
     global_metadata := global_metadata s;
     _run_id_to_trace_id := _run_id_to_trace_id s;
     _run_start_times := _run_start_times s;
     ENABLE_PROMPT_LOGGING := ENABLE_PROMPT_LOGGING s;
     ENABLE_RESPONSE_LOGGING := ENABLE_RESPONSE_LOGGING s;
     world := world s; printed := printed s ++ [e] |}.

(** Calls into [self.context] and into the repositories. *)
Definition on_context {A} (c : ST TraceContext A) : M A := fun s =>
  let '(r, c') := c (context s) in (r, with_context (fun _ => c') s).
Definition on_db {A} (c : ST Database A) : M A := fun s =>
  let '(r, d') := c (db s) in (r, with_db (fun _ => d') s).

(** [generate_trace_id()] and [get_current_timestamp()] of src/utils.py:
    each call consumes one result of the world. *)
Definition draw_uuid (w : World) : World :=
  {| uuid4 := uuid4 w; uuid4_calls := S (uuid4_calls w);
     time_time := time_time w; time_calls := time_calls w |}.
Definition read_clock (w : World) : World :=
  {| uuid4 := uuid4 w; uuid4_calls := uuid4_calls w;
     time_time := time_time w; time_calls := S (time_calls w) |}.

Definition generate_trace_id : M string := fun s =>
  let w := world s in
  (Ok (uuid4 w (uuid4_calls w)), with_world draw_uuid s).

Definition get_current_timestamp : M float := fun s =>
  let w := world s in
  (Ok (time_time w (time_calls w)), with_world read_clock s).

(** A run id is carried as [str(run_id)]. *)
Definition _get_or_create_trace_id (run_id : string) : M string :=
  let run_id_str := run_id in
  known ← gets _run_id_to_trace_id;
  (if bool_decide (known !! run_id_str = None)
   then t ← generate_trace_id;
        modify (with_run_ids <[run_id_str := t]>)
   else pass);;
  ids ← gets _run_id_to_trace_id;
  lift (dict_getitem ids run_id_str).

(** [try: func() except Exception as e: print(...)] *)
Definition _safe_execute (func : M unit) : M unit := fun s =>
  match func s with
  | (Ok _, s') => (Ok tt, s')
  | (Raise e, s') => (Ok tt, print e s')
  end.

(** [self._get_or_create_trace_id(parent_run_id) if parent_run_id
     else self.context.get_current_trace_id()] *)
Definition resolve_parent (parent_run_id : option string)
  : M (option string) :=
  match parent_run_id with
  | Some p => t ← _get_or_create_trace_id p; mret (Some t)
  | None => on_context get_current_trace_id
  end.

(** [serialized.get("name", serialized.get("id", ["unknown"])[-1])];
    [serialized] may be [None]. *)
Definition name_or_last_id (serialized : option Serialized) : res string :=
  match serialized with
  | None => Raise AttributeError
  | Some d =>
      fallback ← index (default ["unknown"%string] (ser_id d)) (-1);
      mret (default fallback (ser_name d))
  end.

(** [serialized.get("name", "unknown_tool")] *)
Definition name_or_unknown_tool (serialized : option Serialized)
  : res string :=
  match serialized with
  | None => Raise AttributeError
  | Some d => mret (default "unknown_tool"%string (ser_name d))
  end.

(** [{**self.global_metadata}], updated with a non-empty [metadata], with
    a non-empty [tags] stored under ["tags"]. *)
Definition combine_metadata (global_metadata : gmap string pyval)
  (metadata : option (gmap string pyval)) (tags : option (list string))
  : gmap string pyval :=
  let combined := global_metadata in
  let combined :=
    match metadata with
    | Some m => if bool_decide (m = ∅) then combined else m ∪ combined
    | None => combined
    end in
  match tags with
  | Some (t :: ts) => <["tags"%string := PList (PStr <$> (t :: ts))]> combined
  | _ => combined
  end.

(** [{key: value} if flag else {}], passed as [data]. *)
Definition payload (flag : bool) (key : string) (value : pyval) : pyval :=
  if flag then PDict [(key, value)] else PDict [].

(** [serialize_to_json(data) if data else None] of [create_event] *)
Definition event_data (data : pyval) : option pyval :=
  match data with
  | PDict [] => None
  | _ => Some data
  end.

(** [del d[str(run_id)]] on the two correlation dicts. *)
Definition del_run_id (run_id : string) : M unit :=
  ids ← gets _run_id_to_trace_id;
  ids' ← lift (dict_delitem ids run_id);
  modify (with_run_ids (fun _ => ids')).

Definition del_start_time (run_id : string) : M unit :=
  ts ← gets _run_start_times;
  ts' ← lift (dict_delitem ts run_id);
  modify (with_start_times (fun _ => ts')).

(** The guarded cleanup shared by every end and error callback except
    [on_llm_end]. *)
Definition cleanup (run_id : string) : M unit :=
  ids ← gets _run_id_to_trace_id;
  (if bool_decide (is_Some (ids !! run_id)) then del_run_id run_id
   else pass);;
  ts ← gets _run_start_times;
  (if bool_decide (is_Some (ts !! run_id)) then del_start_time run_id
   else pass).

(** *** LLM callbacks *)

Definition _on_llm_start (serialized : option Serialized)
  (prompts : list string) (run_id : string) (parent_run_id : option string)
  (tags : option (list string)) (metadata : option (gmap string pyval))
  : M unit :=
  trace_id ← _get_or_create_trace_id run_id;
  start_time ← get_current_timestamp;
  modify (with_start_times <[run_id := start_time]>);;
  parent_trace_id ← resolve_parent parent_run_id;
  model ← lift (name_or_last_id serialized);
  g ← gets global_metadata;
  let combined_metadata := combine_metadata g metadata tags in
  sid ← on_context get_session_id;
  on_db (create_trace trace_id "llm" ("llm_" ++ model) start_time
           sid parent_trace_id combined_metadata);;
  on_context (push_trace trace_id "llm" ("llm_" ++ model) start_time
                (Some combined_metadata)).

Definition on_llm_start serialized prompts run_id parent_run_id tags metadata
  : M unit :=
  _safe_execute
    (_on_llm_start serialized prompts run_id parent_run_id tags metadata).

Definition _on_llm_end (response : LLMResult) (run_id : string)
  (parent_run_id : option string) : M unit :=
  trace_id ← _get_or_create_trace_id run_id;
  end_time ← get_current_timestamp;
  ts ← gets _run_start_times;
  let start_time := default end_time (ts !! run_id) in
  on_context pop_trace;;
  let llm_output :=
    default {| token_usage := None; model_name := None; model := None |}
      (llm_output response) in
  let token_usage :=
    default {| prompt_tokens := None; completion_tokens := None;
               total_tokens := None |} (token_usage llm_output) in
  let input_tokens := default 0 (prompt_tokens token_usage) in
  let output_tokens := default 0 (completion_tokens token_usage) in
  let total_tokens :=
    default (input_tokens + output_tokens) (total_tokens token_usage) in
  let model :=
    default (default "unknown"%string (model llm_output))
      (model_name llm_output) in
  cost_usd ← lift (Config.calculate_cost model input_tokens output_tokens);
  let response_text :=
    match generations response with
    | (g :: _) :: _ => text g
    | _ => ""%string
    end in
  let prompt :=
    match prompts response with
    | Some (p :: _) => p
    | _ => ""%string
    end in
  log_prompts ← gets ENABLE_PROMPT_LOGGING;
  let prompt :=
    if (log_prompts : bool)
    then Utils.truncate_string prompt Config.MAX_PROMPT_LENGTH
    else "[logging disabled]"%string in
  log_responses ← gets ENABLE_RESPONSE_LOGGING;
  let response_text :=
    if (log_responses : bool)
    then Utils.truncate_string response_text Config.MAX_RESPONSE_LENGTH
    else "[logging disabled]"%string in
  on_db (update_trace_completion trace_id end_time start_time success None);;
  on_db (create_llm_call trace_id model prompt response_text input_tokens
           output_tokens total_tokens cost_usd None "groq");;
  del_run_id run_id;;
  del_start_time run_id.

Definition on_llm_end response run_id parent_run_id : M unit :=
  _safe_execute (_on_llm_end response run_id parent_run_id).

Definition _on_llm_error (error : string) (run_id : string)
  (parent_run_id : option string) : M unit :=
  trace_id ← _get_or_create_trace_id run_id;
  end_time ← get_current_timestamp;
  ts ← gets _run_start_times;
  let start_time := default end_time (ts !! run_id) in
  on_context pop_trace;;
  on_db (update_trace_completion trace_id end_time start_time
           Storage.error (Some error));;
  cleanup run_id.

Definition on_llm_error error run_id parent_run_id : M unit :=
  _safe_execute (_on_llm_error error run_id parent_run_id).

(** *** Chain callbacks *)

Definition _on_chain_start (serialized : option Serialized)
  (inputs : pyval) (run_id : string) (parent_run_id : option string)
  (tags : option (list string)) (metadata : option (gmap string pyval))
  : M unit :=
  trace_id ← _get_or_create_trace_id run_id;
  start_time ← get_current_timestamp;
  modify (with_start_times <[run_id := start_time]>);;
  parent_trace_id ← resolve_parent parent_run_id;
  chain_name ← lift (name_or_last_id serialized);
  g ← gets global_metadata;
  let combined_metadata := combine_metadata g metadata tags in
  sid ← on_context get_session_id;
  on_db (create_trace trace_id "chain" ("chain_" ++ chain_name) start_time
           sid parent_trace_id combined_metadata);;
  on_context (push_trace trace_id "chain" ("chain_" ++ chain_name)
                start_time (Some combined_metadata));;
  log_prompts ← gets ENABLE_PROMPT_LOGGING;
  on_db (create_event trace_id "chain_start" chain_name start_time
           (event_data (payload log_prompts "inputs" inputs))).

Definition on_chain_start serialized inputs run_id parent_run_id tags metadata
  : M unit :=
  _safe_execute
    (_on_chain_start serialized inputs run_id parent_run_id tags metadata).

Definition _on_chain_end (outputs : pyval) (run_id : string)
  (parent_run_id : option string) : M unit :=
  trace_id ← _get_or_create_trace_id run_id;
  end_time ← get_current_timestamp;
  ts ← gets _run_start_times;
  let start_time := default end_time (ts !! run_id) in
  on_context pop_trace;;
  on_db (update_trace_completion trace_id end_time start_time success None);;
  log_responses ← gets ENABLE_RESPONSE_LOGGING;
  on_db (create_event trace_id "chain_end" "chain_completed" end_time
           (event_data (payload log_responses "outputs" outputs)));;
  cleanup run_id.

Definition on_chain_end outputs run_id parent_run_id : M unit :=
  _safe_execute (_on_chain_end outputs run_id parent_run_id).

Definition _on_chain_error (error : string) (run_id : string)
  (parent_run_id : option string) : M unit :=
  trace_id ← _get_or_create_trace_id run_id;
  end_time ← get_current_timestamp;
  ts ← gets _run_start_times;
  let start_time := default end_time (ts !! run_id) in
  on_context pop_trace;;
  on_db (update_trace_completion trace_id end_time start_time
           Storage.error (Some error));;
  cleanup run_id.

Definition on_chain_error error run_id parent_run_id : M unit :=
  _safe_execute (_on_chain_error error run_id parent_run_id).

(** *** Tool callbacks *)

Definition _on_tool_start (serialized : option Serialized)
  (input_str : string) (run_id : string) (parent_run_id : option string)
  (tags : option (list string)) (metadata : option (gmap string pyval))
  : M unit :=
  trace_id ← _get_or_create_trace_id run_id;
  start_time ← get_current_timestamp;
  modify (with_start_times <[run_id := start_time]>);;
  parent_trace_id ← resolve_parent parent_run_id;
  tool_name ← lift (name_or_unknown_tool serialized);
  g ← gets global_metadata;
  let combined_metadata := combine_metadata g metadata tags in
  sid ← on_context get_session_id;
  on_db (create_trace trace_id "tool" ("tool_" ++ tool_name) start_time
           sid parent_trace_id combined_metadata);;
  log_prompts ← gets ENABLE_PROMPT_LOGGING;
  on_db (create_event trace_id "tool_start" tool_name start_time
           (event_data (payload log_prompts "input" (PStr input_str)))).

Definition on_tool_start serialized input_str run_id parent_run_id tags
  metadata : M unit :=
  _safe_execute
    (_on_tool_start serialized input_str run_id parent_run_id tags metadata).

Definition _on_tool_end (output : string) (run_id : string)
  (parent_run_id : option string) : M unit :=
  trace_id ← _get_or_create_trace_id run_id;
  end_time ← get_current_timestamp;
  ts ← gets _run_start_times;
  let start_time := default end_time (ts !! run_id) in
  on_db (update_trace_completion trace_id end_time start_time success None);;
  log_responses ← gets ENABLE_RESPONSE_LOGGING;
  on_db (create_event trace_id "tool_end" "tool_completed" end_time
           (event_data (payload log_responses "output" (PStr output))));;
  cleanup run_id.

Definition on_tool_end output run_id parent_run_id : M unit :=
  _safe_execute (_on_tool_end output run_id parent_run_id).

Definition _on_tool_error (error : string) (run_id : string)
  (parent_run_id : option string) : M unit :=
  trace_id ← _get_or_create_trace_id run_id;
  end_time ← get_current_timestamp;
  ts ← gets _run_start_times;
  let start_time := default end_time (ts !! run_id) in
  on_db (update_trace_completion trace_id end_time start_time
           Storage.error (Some error));;
  cleanup run_id.

Definition on_tool_error error run_id parent_run_id : M unit :=
  _safe_execute (_on_tool_error error run_id parent_run_id).

(** *** Agent callbacks *)

(** [if current_trace_id:] a trace id that is present and not empty. *)
Definition truthy_id (t : option string) : option string :=
  match t with
  | Some s => if bool_decide (s = ""%string) then None else Some s
  | None => None
  end.

Definition _on_agent_action (action : AgentAction) (run_id : string)
  (parent_run_id : option string) : M unit :=
  current_trace_id ← resolve_parent parent_run_id;
  match truthy_id current_trace_id with
  | Some current_trace_id =>
      now ← get_current_timestamp;
      log_prompts ← gets ENABLE_PROMPT_LOGGING;
      on_db (create_event current_trace_id "agent_action" (tool action) now
               (event_data
                  (if (log_prompts : bool)
                   then PDict [("tool"%string, PStr (tool action));
                               ("tool_input"%string, tool_input action);
                               ("log"%string, PStr (action_log action))]
                   else PDict [])))
  | None => pass
  end.

Definition on_agent_action action run_id parent_run_id : M unit :=
  _safe_execute (_on_agent_action action run_id parent_run_id).

Definition _on_agent_finish (finish : AgentFinish) (run_id : string)
  (parent_run_id : option string) : M unit :=
  current_trace_id ← resolve_parent parent_run_id;
  match truthy_id current_trace_id with
  | Some current_trace_id =>
      now ← get_current_timestamp;
      log_responses ← gets ENABLE_RESPONSE_LOGGING;
      on_db (create_event current_trace_id "agent_finish" "agent_completed"
               now
               (event_data
                  (if (log_responses : bool)
                   then PDict [("return_values"%string, return_values finish);
                               ("log"%string, PStr (finish_log finish))]
                   else PDict [])))
  | None => pass
  end.

Definition on_agent_finish finish run_id parent_run_id : M unit :=
  _safe_execute (_on_agent_finish finish run_id parent_run_id).

(** The notifications of the host framework, one per public entry point
    of the handler. *)
Inductive notification : Type :=
| LLMStart (serialized : option Serialized) (prompts : list string)
    (run_id : string) (parent_run_id : option string)
    (tags : option (list string)) (metadata : option (gmap string pyval))
| LLMEnd (response : LLMResult) (run_id : string)
    (parent_run_id : option string)
| LLMError (error : string) (run_id : string) (parent_run_id : option string)
| ChainStart (serialized : option Serialized) (inputs : pyval)
    (run_id : string) (parent_run_id : option string)
    (tags : option (list string)) (metadata : option (gmap string pyval))
| ChainEnd (outputs : pyval) (run_id : string)
    (parent_run_id : option string)
| ChainError (error : string) (run_id : string)
    (parent_run_id : option string)
| ToolStart (serialized : option Serialized) (input_str : string)
    (run_id : string) (parent_run_id : option string)
    (tags : option (list string)) (metadata : option (gmap string pyval))
| ToolEnd (output : string) (run_id : string) (parent_run_id : option string)
| ToolError (error : string) (run_id : string)
    (parent_run_id : option string)
| AgentActionTaken (action : AgentAction) (run_id : string)
    (parent_run_id : option string)
| AgentFinished (finish : AgentFinish) (run_id : string)
    (parent_run_id : option string).

Definition deliver (n : notification) : M unit :=
  match n with
  | LLMStart s p r pr t m => on_llm_start s p r pr t m
  | LLMEnd resp r pr => on_llm_end resp r pr
  | LLMError e r pr => on_llm_error e r pr
  | ChainStart s i r pr t m => on_chain_start s i r pr t m
  | ChainEnd o r pr => on_chain_end o r pr
  | ChainError e r pr => on_chain_error e r pr
  | ToolStart s i r pr t m => on_tool_start s i r pr t m
  | ToolEnd o r pr => on_tool_end o r pr
  | ToolError e r pr => on_tool_error e r pr
  | AgentActionTaken a r pr => on_agent_action a r pr
  | AgentFinished f r pr => on_agent_finish f r pr
  end.

(** The handler after a sequence of notifications. *)
Definition deliver_all (ns : list notification) (s : ObservabilityCallback)
  : ObservabilityCallback :=
  fold_left (fun s n => (deliver n s).2) ns s.

(** [ObservabilityCallback(session_id=..., metadata=...)] on a fresh
    thread, over a database [d] in a world [w]. *)
Definition init (d : Database) (w : World) (log_prompts log_responses : bool)
  (session_id : option string) (metadata : option (gmap string pyval))
  : ObservabilityCallback :=
  let c := Local None None in
  let c := match session_id with
           | Some sid => if bool_decide (sid = ""%string) then c
                         else (set_session_id sid c).2
           | None => c
           end in
  {| context := c; db := d; global_metadata := default ∅ metadata;
     _run_id_to_trace_id := ∅; _run_start_times := ∅;
     ENABLE_PROMPT_LOGGING := log_prompts;
     ENABLE_RESPONSE_LOGGING := log_responses;
     world := w; printed := [] |}.

(** *** Views of the handler used in the statements *)

(** The result of the next call of [uuid.uuid4()] and of [time.time()]. *)
Definition next_uuid (s : ObservabilityCallback) : string :=
  uuid4 (world s) (uuid4_calls (world s)).
Definition now (s : ObservabilityCallback) : float :=
  time_time (world s) (time_calls (world s)).

(** The trace id [_get_or_create_trace_id] returns for a run id, and the
    handler after the call. *)
Definition run_trace_id (run_id : string) (s : ObservabilityCallback)
  : string :=
  default (next_uuid s) (_run_id_to_trace_id s !! run_id).

Definition remember_run (run_id : string) (s : ObservabilityCallback)
  : ObservabilityCallback :=
  match _run_id_to_trace_id s !! run_id with
  | Some _ => s
  | None => with_run_ids <[run_id := next_uuid s]> (with_world draw_uuid s)
  end.

(** The session id the path has, if any. *)
Definition current_session (c : TraceContext) : option string :=
  default None (session_id c).

(** The handler when a start callback without [parent_run_id] reaches
    [create_trace]: the run id is correlated, its start time recorded,
    and both attributes of the context exist. *)
Definition started (run_id : string) (s : ObservabilityCallback)
  : ObservabilityCallback :=
  let s1 := remember_run run_id s in
  let s2 := with_start_times <[run_id := now s1]>
              (with_world read_clock s1) in
  let s3 := with_context (fun c => set_stack (frames c) c) s2 in
  with_context (fun c => set_session (current_session c) c) s3.

(** What [on_llm_end] reads in the result: the token counts and the
    model name, with their defaults. *)
Definition llm_input_tokens (response : LLMResult) : Z :=
  default 0
    (prompt_tokens
       (default {| prompt_tokens := None; completion_tokens := None;
                   total_tokens := None |}
          (token_usage
             (default {| token_usage := None; model_name := None;
                         model := None |} (llm_output response))))).

Definition llm_output_tokens (response : LLMResult) : Z :=
  default 0
    (completion_tokens
       (default {| prompt_tokens := None; completion_tokens := None;
                   total_tokens := None |}
          (token_usage
             (default {| token_usage := None; model_name := None;
                         model := None |} (llm_output response))))).

Definition llm_model (response : LLMResult) : string :=
  default
    (default "unknown"%string
       (model (default {| token_usage := None; model_name := None;
                          model := None |} (llm_output response))))
    (model_name (default {| token_usage := None; model_name := None;
                            model := None |} (llm_output response))).

(** The clock reading after the next one. *)
Definition later (s : ObservabilityCallback) : float :=
  time_time (world s) (S (time_calls (world s))).

(** Every frame open on the stack has its row in [traces]. *)
Definition stack_recorded (s : ObservabilityCallback) : Prop :=
  forall f, f ∈ frames (context s) ->
            is_Some (traces (db s) !! Context.trace_id f).

(** From [s] to [s'] no frame was added and no trace row was removed. *)
Definition grows (s s' : ObservabilityCallback) : Prop :=
  (forall f, f ∈ frames (context s') -> f ∈ frames (context s))
  /\ (forall t, is_Some (traces (db s) !! t) ->
                is_Some (traces (db s') !! t)).

Definition quiet {A} (m : M A) : Prop := forall s, grows s (m s).2.

Definition keeps {A} (m : M A) : Prop :=
  forall s, stack_recorded s -> stack_recorded (m s).2.

End Callback.

(* ===================================================================== *)
(** ** A session in the style of examples/chain_example.py                *)
(* ===================================================================== *)
Module Scenario.
Import Context Storage Callback.

(** A world whose uuid4 results are ["trace-0"], ["trace-1"], ... and
    whose clock advances by one second per reading. *)
Definition world0 : World :=
  {| uuid4 := fun n => match n with
                       | 0%nat => "trace-0" | 1%nat => "trace-1"
                       | 2%nat => "trace-2" | _ => "trace-n"
                       end%string;
     uuid4_calls := 0;
     time_time := fun n => match n with
                           | 0%nat => 100 | 1%nat => 101 | 2%nat => 102
                           | 3%nat => 103 | _ => 104
                           end%float;
     time_calls := 0 |}.

(** An empty database whose statements fail as [faults] tells. *)
Definition database0 (faults : nat -> bool) : Database :=
  {| traces := ∅; llm_calls := []; events := []; faults := faults;
     executed := 0 |}.

Definition healthy (n : nat) : bool := false.
Definition first_statement_fails (n : nat) : bool := Nat.eqb n 0.

Definition handler0 (faults : nat -> bool) : ObservabilityCallback :=
  init (database0 faults) world0 true true (Some "my_session_123"%string)
    None.

Definition ChatGroq : option Serialized :=
  Some {| ser_name := Some "ChatGroq"%string; ser_id := None |}.
Definition RunnableSequence : option Serialized :=
  Some {| ser_name := None;
          ser_id := Some ["langchain"; "schema"; "RunnableSequence"]%string |}.

Definition answer : LLMResult :=
  {| llm_output :=
       Some {| token_usage :=
                 Some {| prompt_tokens := Some 12;
                         completion_tokens := Some 30;
                         total_tokens := Some 42 |};
               model_name := Some "llama-3.3-70b-versatile"%string;
               model := None |};
     generations := [[ {| text := "Observability is ..." |} ]];
     prompts := None |}.

(** A chain that has run one LLM call to its end. *)
Definition chain_with_one_call : list notification :=
  [ ChainStart RunnableSequence PNone "run-A" None None None;
    LLMStart ChatGroq ["What is observability?"%string] "run-B" None None
      None;
    LLMEnd answer "run-B" None ].

(** An LLM call whose start could not be written. *)
Definition lost_call : list notification :=
  [ LLMStart ChatGroq ["What is observability?"%string] "run-B" None None
      None;
    LLMEnd answer "run-B" None ].

End Scenario.

(* ===================================================================== *)
(** ** src/metrics/latency_tracker.py                                     *)
(* ===================================================================== *)
Module Latency.

(** The nested function [percentile(data, p)] of [get_percentiles]. *)
Definition percentile (data : list float) (p : float) : res float :=
  match data with
  | [] => Ok 0%float
  | _ =>
      n1 ← float_of_int (Z.of_nat (length data) - 1);
      let k := (n1 * p)%float in
      f ← int_of_float k;
      c' ← int_of_float k;
      let c := c' + 1 in
      if Z.of_nat (length data) <=? c then index data f
      else
        d0 ← index data f;
        d1 ← index data c;
        ff ← float_of_int f;
        mret (d0 + (d1 - d0) * (k - ff))%float
  end.

Record percentiles : Type :=
  Percentiles { p50 : float; p95 : float; p99 : float }.

(** [get_percentiles], from the rows the query returns: the non-NULL
    [duration_ms] of the selected traces, [ORDER BY duration_ms ASC]. *)
Definition get_percentiles (results : list float) : res percentiles :=
  match results with
  | [] => Ok (Percentiles 0 0 0)
  | _ =>
      let durations := results in
      a ← percentile durations 0.50;
      b ← percentile durations 0.95;
      c ← percentile durations 0.99;
      mret (Percentiles a b c)
  end.

(** SQL aggregates over the selected durations: [MIN], [MAX] (NULL when
    no row is selected) and [COUNT( * )] under a [WHERE] condition. *)
Definition sql_min (ds : list float) : option float :=
  match ds with
  | [] => None
  | d :: ds' =>
      Some (fold_left (fun m x => if float_lt x m then x else m) ds' d)
  end.

Definition sql_max (ds : list float) : option float :=
  match ds with
  | [] => None
  | d :: ds' =>
      Some (fold_left (fun m x => if float_lt m x then x else m) ds' d)
  end.

Definition sql_count (cond : float -> bool) (ds : list float) : Z :=
  Z.of_nat (length (filter (fun d => cond d = true) ds)).

Record bucket : Type :=
  Bucket { bucket_min : float; bucket_max : float; count : Z }.

(** [WHERE duration_ms >= ? AND duration_ms < ?] *)
Definition in_bucket (lo hi d : float) : bool :=
  float_ge d lo && float_lt d hi.

(** [get_latency_distribution] over the durations selected by the time
    window. *)
Definition get_latency_distribution (durations : list float)
  (num_buckets : Z) : res (list bucket) :=
  match sql_min durations, sql_max durations with
  | Some min_lat, Some max_lat =>
      if negb (float_truthy min_lat) then Ok []
      else
        nb ← float_of_int num_buckets;
        bucket_width ← float_truediv (max_lat - min_lat) nb;
        mapM (fun i : Z =>
                fi ← float_of_int i;
                let bucket_min := (min_lat + fi * bucket_width)%float in
                let bucket_max := (bucket_min + bucket_width)%float in
                let count := sql_count (in_bucket bucket_min bucket_max)
                               durations in
                mret (Bucket bucket_min bucket_max count))
             (range num_buckets)
  | _, _ => Ok []
  end.

End Latency.

(* ===================================================================== *)
(** ** src/metrics/error_detector.py                                      *)
(* ===================================================================== *)
Module Errors.

Import Storage.

(** The single row of
    [SELECT COUNT( * ) as total_requests,
            SUM(CASE WHEN status = 'error' THEN 1 ELSE 0 END) as error_count]
    ([SUM] is NULL when no row is selected). *)
Record error_totals : Type :=
  ErrorTotals { total_requests : Z; error_count : option Z }.

Definition count_errors (selected : list status) : Z :=
  Z.of_nat (length (filter (fun s => s = error) selected)).

Definition query_error_totals (selected : list status) : list error_totals :=
  [ ErrorTotals (Z.of_nat (length selected))
      (match selected with
       | [] => None
       | _ => Some (count_errors selected)
       end) ].

Definition get_error_rate_of (results : list error_totals) : res float :=
  match results with
  | r :: _ =>
      if 0 <? total_requests r then
        match error_count r with
        | Some error_count =>
            q ← int_truediv error_count (total_requests r);
            h ← float_of_int 100;
            mret (q * h)%float
        | None => Raise TypeError
        end
      else Ok 0%float
  | [] => Ok 0%float
  end.

(** [get_error_rate] over the traces selected by the filters. *)
Definition get_error_rate (selected : list status) : res float :=
  get_error_rate_of (query_error_totals selected).

(** A row of [get_error_rate_over_time]: the grouped counts of one time
    bucket and the rate the function adds to it. *)
Record rate_row : Type :=
  RateRow { time_bucket : string; total_count : Z; error_count_in : Z;
            error_rate : float }.

Record anomaly : Type :=
  Anomaly { a_time_bucket : string; a_error_rate : float;
            a_threshold : float; a_deviation : float }.

(** [detect_anomalies], from the hourly rows of
    [get_error_rate_over_time]. *)
Definition detect_anomalies (error_rates : list rate_row)
  (threshold_multiplier : float) : res (list anomaly) :=
  if Z.of_nat (length error_rates) <? 3 then Ok []
  else
    let rates := map error_rate error_rates in
    n ← float_of_int (Z.of_nat (length rates));
    mean_rate ← float_truediv (sum rates) n;
    squares ← mapM (fun r => float_pow2 (r - mean_rate)%float) rates;
    variance ← float_truediv (sum squares) n;
    let std_dev := float_pow_half variance in
    let threshold := (mean_rate + threshold_multiplier * std_dev)%float in
    mret (fold_left
            (fun anomalies result =>
               if float_gt (error_rate result) threshold
               then anomalies ++
                      [ Anomaly (time_bucket result) (error_rate result)
                          threshold (error_rate result - mean_rate)%float ]
               else anomalies)
            error_rates []).

(** The quantities the specification names: the population mean and the
    population standard deviation of the bucket rates, the threshold
    [mean + multiplier * stddev], and the report made for a flagged
    bucket. *)
Definition population_mean (rates : list float) : res float :=
  n ← float_of_int (Z.of_nat (length rates));
  float_truediv (sum rates) n.

Definition population_std_dev (rates : list float) : res float :=
  mean ← population_mean rates;
  n ← float_of_int (Z.of_nat (length rates));
  squares ← mapM (fun r => float_pow2 (r - mean)%float) rates;
  variance ← float_truediv (sum squares) n;
  mret (PrimFloat.sqrt variance).

Definition anomaly_threshold (rates : list float) (multiplier : float)
  : res float :=
  mean ← population_mean rates;
  std_dev ← population_std_dev rates;
  mret (mean + multiplier * std_dev)%float.

Definition report (threshold mean : float) (b : rate_row) : anomaly :=
  Anomaly (time_bucket b) (error_rate b) threshold
    (error_rate b - mean)%float.

Definition exceeds (threshold : float) (b : rate_row) : bool :=
  float_gt (error_rate b) threshold.

(** Five hourly rows whose error rates are 1, 1, 1, 1 and 50 percent. *)
Definition five_hours : list rate_row :=
  [ RateRow "2026-01-13-10" 100 1 1; RateRow "2026-01-13-11" 100 1 1;
    RateRow "2026-01-13-12" 100 1 1; RateRow "2026-01-13-13" 100 1 1;
    RateRow "2026-01-13-14" 2 1 50 ].

End Errors.


(* ===================================================================== *)
(** ** Sequences of calls on a trace context                              *)
(* ===================================================================== *)
Module ContextOps.
Import Context.

(** The public methods of [TraceContext], as calls. *)
Inductive operation : Type :=
| Push (trace_id trace_type name : string) (start_time : float)
    (metadata : option (gmap string pyval))
| Pop
| CurrentTraceId
| CurrentTrace
| ParentTraceId
| SetSessionId (session_id : string)
| GetSessionId
| Clear
| StackDepth.

(** A call whose returned value is dropped. *)
Definition call {S A} (m : ST S A) : ST S unit := m ≫= fun _ => mret tt.

Definition perform (o : operation) : ST TraceContext unit :=
  match o with
  | Push trace_id trace_type name start_time metadata =>
      push_trace trace_id trace_type name start_time metadata
  | Pop => call pop_trace
  | CurrentTraceId => call get_current_trace_id
  | CurrentTrace => call get_current_trace
  | ParentTraceId => call get_parent_trace_id
  | SetSessionId session_id => set_session_id session_id
  | GetSessionId => call get_session_id
  | Clear => clear
  | StackDepth => call get_stack_depth
  end.

Definition perform_all (os : list operation) (c : TraceContext)
  : TraceContext :=
  fold_left (fun c o => (perform o c).2) os c.

(** [linked below fs]: the first frame of [fs] has the parent [below],
    and every later frame has for parent the trace id of the frame just
    under it. *)
Fixpoint linked (below : option string) (fs : list frame) : Prop :=
  match fs with
  | [] => True
  | f :: fs' =>
      parent_trace_id f = below /\ linked (Some (trace_id f)) fs'
  end.

Definition well_linked (c : TraceContext) : Prop := linked None (frames c).

(** The context of a thread that has not used it yet. *)
Definition fresh : TraceContext := Local None None.

End ContextOps.

(* ===================================================================== *)
(** ** src/storage/repositories.py: reads, and the writes as calls        *)
(* ===================================================================== *)
Module Repository.
Import Storage.

(** [TraceRepository.get_trace]: [results[0] if results else None] of
    [SELECT * FROM traces WHERE trace_id = ?]. *)
Definition get_trace (trace_id : string) : ST Database (option TraceRow) :=
  execute;;
  d ← gets id;
  mret (traces d !! trace_id).

(** [LLMCallRepository.get_llm_call]: the first row of
    [SELECT * FROM llm_calls WHERE trace_id = ?], if any. *)
Definition get_llm_call (trace_id : string)
  : ST Database (option LLMCallRow) :=
  execute;;
  d ← gets id;
  mret (head (filter (fun r => l_trace_id r = trace_id) (llm_calls d))).

(** The four writes the instrumentation issues. *)
Inductive write : Type :=
| CreateTrace (trace_id trace_type name : string) (start_time : float)
    (session_id parent_trace_id : option string)
    (metadata : gmap string pyval)
| UpdateTraceCompletion (trace_id : string) (end_time start_time : float)
    (st : status) (error_message : option string)
| CreateLLMCall (trace_id model prompt response : string)
    (input_tokens output_tokens total_tokens : Z) (cost_usd : float)
    (system_prompt : option string) (provider : string)
| CreateEvent (trace_id event_type event_name : string) (timestamp : float)
    (data : option pyval).

Definition run (w : write) : ST Database unit :=
  match w with
  | CreateTrace trace_id trace_type name start_time session_id
      parent_trace_id metadata =>
      create_trace trace_id trace_type name start_time session_id
        parent_trace_id metadata ≫= fun _ => mret tt
  | UpdateTraceCompletion trace_id end_time start_time st error_message =>
      update_trace_completion trace_id end_time start_time st error_message
  | CreateLLMCall trace_id model prompt response input_tokens output_tokens
      total_tokens cost_usd system_prompt provider =>
      create_llm_call trace_id model prompt response input_tokens
        output_tokens total_tokens cost_usd system_prompt provider
  | CreateEvent trace_id event_type event_name timestamp data =>
      create_event trace_id event_type event_name timestamp data
  end.

(** What the schema promises of the three tables: a row of [traces] is
    stored under its own [trace_id] and its parent, if any, is a row;
    an LLM call and an event belong to a row of [traces]; a trace has at
    most one LLM call. *)
Definition consistent (d : Database) : Prop :=
  (forall t row, traces d !! t = Some row ->
                 t_trace_id row = t
                 /\ references_trace d (t_parent_trace_id row) = true)
  /\ (forall r, r ∈ llm_calls d -> is_Some (traces d !! l_trace_id r))
  /\ NoDup (l_trace_id <$> llm_calls d)
  /\ (forall e, e ∈ events d -> is_Some (traces d !! e_trace_id e)).

(** Two rows that agree on everything [create_trace] wrote. *)
Definition same_creation (r r' : TraceRow) : Prop :=
  t_trace_id r' = t_trace_id r
  /\ t_parent_trace_id r' = t_parent_trace_id r
  /\ t_session_id r' = t_session_id r
  /\ t_trace_type r' = t_trace_type r
  /\ t_name r' = t_name r
  /\ t_start_time r' = t_start_time r
  /\ t_metadata r' = t_metadata r.

(** From [d] to [d'] the tables only grew: every trace row is still
    there with what [create_trace] wrote in it, and the LLM calls and
    the events of [d] are the first ones of [d'], unchanged. *)
Definition extends (d d' : Database) : Prop :=
  (forall t row, traces d !! t = Some row ->
                 exists row', traces d' !! t = Some row'
                              /\ same_creation row row')
  /\ llm_calls d `prefix_of` llm_calls d'
  /\ events d `prefix_of` events d'.

End Repository.

(* ===================================================================== *)
(** ** What a callback may touch                                          *)
(* ===================================================================== *)
Module Footprint.
Import Context Storage Callback.

(** The four families of callbacks and the moment of a run they report. *)
Inductive family : Type := LLM | Chain | Tool | Agent.
Inductive phase : Type := Start | End | Error | Step.

Definition family_of (n : notification) : family :=
  match n with
  | LLMStart _ _ _ _ _ _ | LLMEnd _ _ _ | LLMError _ _ _ => LLM
  | ChainStart _ _ _ _ _ _ | ChainEnd _ _ _ | ChainError _ _ _ => Chain
  | ToolStart _ _ _ _ _ _ | ToolEnd _ _ _ | ToolError _ _ _ => Tool
  | AgentActionTaken _ _ _ | AgentFinished _ _ _ => Agent
  end.

Definition phase_of (n : notification) : phase :=
  match n with
  | LLMStart _ _ _ _ _ _ | ChainStart _ _ _ _ _ _
  | ToolStart _ _ _ _ _ _ => Start
  | LLMEnd _ _ _ | ChainEnd _ _ _ | ToolEnd _ _ _ => End
  | LLMError _ _ _ | ChainError _ _ _ | ToolError _ _ _ => Error
  | AgentActionTaken _ _ _ | AgentFinished _ _ _ => Step
  end.

(** The function an entry point hands to [_safe_execute]. *)
Definition body (n : notification) : M unit :=
  match n with
  | LLMStart s p r pr t m => _on_llm_start s p r pr t m
  | LLMEnd resp r pr => _on_llm_end resp r pr
  | LLMError e r pr => _on_llm_error e r pr
  | ChainStart s i r pr t m => _on_chain_start s i r pr t m
  | ChainEnd o r pr => _on_chain_end o r pr
  | ChainError e r pr => _on_chain_error e r pr
  | ToolStart s i r pr t m => _on_tool_start s i r pr t m
  | ToolEnd o r pr => _on_tool_end o r pr
  | ToolError e r pr => _on_tool_error e r pr
  | AgentActionTaken a r pr => _on_agent_action a r pr
  | AgentFinished f r pr => _on_agent_finish f r pr
  end.

(** A relation between the handler before and the handler after holds
    along a computation, however it ends. *)
Definition respects
  (R : ObservabilityCallback -> ObservabilityCallback -> Prop) {A}
  (m : M A) : Prop :=
  forall s, R s (m s).2.

(** Relations that look at the database only, or at the path only. *)
Definition on_tables (Q : Database -> Database -> Prop)
  (s s' : ObservabilityCallback) : Prop := Q (db s) (db s').
Definition on_path (Q : TraceContext -> TraceContext -> Prop)
  (s s' : ObservabilityCallback) : Prop := Q (context s) (context s').

(** What the handler was configured with. *)
Definition same_settings (s s' : ObservabilityCallback) : Prop :=
  current_session (context s') = current_session (context s)
  /\ global_metadata s' = global_metadata s
  /\ ENABLE_PROMPT_LOGGING s' = ENABLE_PROMPT_LOGGING s
  /\ ENABLE_RESPONSE_LOGGING s' = ENABLE_RESPONSE_LOGGING s.

(** A text of at most [max_length] characters, and a database whose LLM
    calls hold no prompt and no response above the maxima of
    src/config.py. *)
Definition fits (text : string) (max_length : Z) : Prop :=
  Z.of_nat (String.length text) <= max_length.

Definition bounded_texts (d : Database) : Prop :=
  forall row, row ∈ llm_calls d ->
              fits (l_prompt row) Config.MAX_PROMPT_LENGTH
              /\ fits (l_response row) Config.MAX_RESPONSE_LENGTH.

(** What an agent callback leaves alone, and what it may add. *)
Definition adds_events_only (s s' : ObservabilityCallback) : Prop :=
  traces (db s') = traces (db s)
  /\ llm_calls (db s') = llm_calls (db s)
  /\ events (db s) `prefix_of` events (db s')
  /\ frames (context s') = frames (context s)
  /\ _run_start_times s' = _run_start_times s.

End Footprint.

(* ===================================================================== *)
(** ** One observed operation, from its start to its end                  *)
(* ===================================================================== *)
Module Recording.
Import Context Storage Callback.

(** What the host framework runs and reports with a start callback and,
    later, an end or an error callback on the same run id. *)
Inductive activity : Type :=
| LLMCall (prompts : list string) (response : LLMResult)
| ChainRun (inputs outputs : pyval)
| ToolCall (input_str output : string).

Inductive ending : Type :=
| Completed
| Failed (message : string).

Definition begin (a : activity) (serialized : option Serialized)
  (run_id : string) (parent_run_id : option string)
  (tags : option (list string)) (metadata : option (gmap string pyval))
  : notification :=
  match a with
  | LLMCall prompts _ =>
      LLMStart serialized prompts run_id parent_run_id tags metadata
  | ChainRun inputs _ =>
      ChainStart serialized inputs run_id parent_run_id tags metadata
  | ToolCall input_str _ =>
      ToolStart serialized input_str run_id parent_run_id tags metadata
  end.

Definition finish (a : activity) (e : ending) (run_id : string)
  (parent_run_id : option string) : notification :=
  match e, a with
  | Completed, LLMCall _ response => LLMEnd response run_id parent_run_id
  | Completed, ChainRun _ outputs => ChainEnd outputs run_id parent_run_id
  | Completed, ToolCall _ output => ToolEnd output run_id parent_run_id
  | Failed err, LLMCall _ _ => LLMError err run_id parent_run_id
  | Failed err, ChainRun _ _ => ChainError err run_id parent_run_id
  | Failed err, ToolCall _ _ => ToolError err run_id parent_run_id
  end.

(** The literals of the start callbacks: [trace_type] and the prefix of
    [name]; and the name they read in [serialized]. *)
Definition trace_type (a : activity) : string :=
  match a with
  | LLMCall _ _ => "llm"
  | ChainRun _ _ => "chain"
  | ToolCall _ _ => "tool"
  end.

Definition name_prefix (a : activity) : string :=
  match a with
  | LLMCall _ _ => "llm_"
  | ChainRun _ _ => "chain_"
  | ToolCall _ _ => "tool_"
  end.

Definition described (a : activity) (serialized : option Serialized)
  : res string :=
  match a with
  | ToolCall _ _ => name_or_unknown_tool serialized
  | _ => name_or_last_id serialized
  end.

(** The LLM and chain callbacks push and pop; the tool callbacks do
    not. *)
Definition uses_stack (a : activity) : bool :=
  match a with
  | ToolCall _ _ => false
  | _ => true
  end.

(** The statements a start sends to the database, and an end or an
    error. *)
Definition start_statements (a : activity) : nat :=
  match a with
  | LLMCall _ _ => 1
  | _ => 2
  end.

Definition end_statements (a : activity) (e : ending) : nat :=
  match e with
  | Completed => 2
  | Failed _ => 1
  end.

(** [parent_trace_id] of a start callback when the parent run, if one is
    named, is known to the handler. *)
Definition parent_of (parent_run_id : option string)
  (s : ObservabilityCallback) : option string :=
  match parent_run_id with
  | Some p => _run_id_to_trace_id s !! p
  | None => top_trace_id (context s)
  end.

(** The parent run, if one is named, is known and its trace has its
    row. *)
Definition parent_recorded (parent_run_id : option string)
  (s : ObservabilityCallback) : Prop :=
  match parent_run_id with
  | Some p => exists t, _run_id_to_trace_id s !! p = Some t
                        /\ is_Some (traces (db s) !! t)
  | None => True
  end.

(** The handler when a start callback reaches [create_trace]: the run
    id is correlated, its start time recorded, the parent resolved and
    the session read. *)
Definition touched (parent_run_id : option string)
  (s : ObservabilityCallback) : ObservabilityCallback :=
  match parent_run_id with
  | Some _ => s
  | None => with_context (fun c => set_stack (frames c) c) s
  end.

Definition ready (parent_run_id : option string) (run_id : string)
  (s : ObservabilityCallback) : ObservabilityCallback :=
  let s1 := remember_run run_id s in
  let s2 := with_start_times <[run_id := now s1]>
              (with_world read_clock s1) in
  with_context (fun c => set_session (current_session c) c)
    (touched parent_run_id s2).

(** The row a start writes in the handler [s], and the row once the end
    or the error callback has completed it. *)
Definition opened (a : activity) (name run_id : string)
  (parent_run_id : option string) (tags : option (list string))
  (metadata : option (gmap string pyval)) (s : ObservabilityCallback)
  : TraceRow :=
  trace_params (run_trace_id run_id s) (trace_type a)
    (name_prefix a ++ name) (now s) (current_session (context s))
    (parent_of parent_run_id s)
    (combine_metadata (global_metadata s) metadata tags).

Definition closed (e : ending) (end_time : float) (row : TraceRow)
  : TraceRow :=
  complete end_time
    (Utils.calculate_duration_ms (t_start_time row) end_time)
    (match e with Completed => success | Failed _ => Storage.error end)
    (match e with Completed => None | Failed err => Some err end)
    row.

(** The frame a start pushes. *)
Definition pushed (a : activity) (name run_id : string)
  (tags : option (list string)) (metadata : option (gmap string pyval))
  (s : ObservabilityCallback) : list frame :=
  if uses_stack a
  then [Frame (run_trace_id run_id s) (trace_type a) (name_prefix a ++ name)
          (now s) (top_trace_id (context s))
          (combine_metadata (global_metadata s) metadata tags)]
  else [].

(** The events of a start and of an end. *)
Definition start_events (a : activity) (name trace_id : string)
  (start_time : float) (log_prompts : bool) : list EventRow :=
  match a with
  | LLMCall _ _ => []
  | ChainRun inputs _ =>
      [{| e_trace_id := trace_id; e_event_type := "chain_start";
          e_event_name := name; e_timestamp := start_time;
          e_data := event_data (payload log_prompts "inputs" inputs) |}]
  | ToolCall input_str _ =>
      [{| e_trace_id := trace_id; e_event_type := "tool_start";
          e_event_name := name; e_timestamp := start_time;
          e_data :=
            event_data (payload log_prompts "input" (PStr input_str)) |}]
  end.

Definition end_events (a : activity) (e : ending) (trace_id : string)
  (end_time : float) (log_responses : bool) : list EventRow :=
  match e, a with
  | Completed, ChainRun _ outputs =>
      [{| e_trace_id := trace_id; e_event_type := "chain_end";
          e_event_name := "chain_completed"; e_timestamp := end_time;
          e_data :=
            event_data (payload log_responses "outputs" outputs) |}]
  | Completed, ToolCall _ output =>
      [{| e_trace_id := trace_id; e_event_type := "tool_end";
          e_event_name := "tool_completed"; e_timestamp := end_time;
          e_data :=
            event_data (payload log_responses "output" (PStr output)) |}]
  | _, _ => []
  end.

(** The rows the end of an LLM call adds to [llm_calls]: one, with the
    model, the token counts and the cost read from the result. *)
Definition llm_rows (a : activity) (e : ending) (trace_id : string)
  (rows : list LLMCallRow) : Prop :=
  match e, a with
  | Completed, LLMCall _ response =>
      exists row,
        rows = [row]
        /\ l_trace_id row = trace_id
        /\ l_model row = llm_model response
        /\ l_provider row = "groq"%string
        /\ l_input_tokens row = llm_input_tokens response
        /\ l_output_tokens row = llm_output_tokens response
        /\ Config.calculate_cost (llm_model response)
             (llm_input_tokens response) (llm_output_tokens response)
           = Ok (l_cost_usd row)
  | _, _ => rows = []
  end.

(** The cost of a completed LLM call can be computed. *)
Definition priced (a : activity) (e : ending) : Prop :=
  match e, a with
  | Completed, LLMCall _ response =>
      returns (Config.calculate_cost (llm_model response)
                 (llm_input_tokens response) (llm_output_tokens response))
  | _, _ => True
  end.

(** The handler [s1] a start leaves, seen from the handler [s] it
    found. *)
Definition start_facts (a : activity) (name run_id : string)
  (parent_run_id : option string) (tags : option (list string))
  (metadata : option (gmap string pyval))
  (s s1 : ObservabilityCallback) : Prop :=
  printed s1 = printed s
  /\ _run_id_to_trace_id s1 !! run_id = Some (run_trace_id run_id s)
  /\ _run_start_times s1 !! run_id = Some (now s)
  /\ now s1 = later s
  /\ faults (db s1) = faults (db s)
  /\ executed (db s1) = (executed (db s) + start_statements a)%nat
  /\ traces (db s1)
     = <[run_trace_id run_id s :=
           opened a name run_id parent_run_id tags metadata s]>
         (traces (db s))
  /\ llm_calls (db s1) = llm_calls (db s)
  /\ events (db s1)
     = events (db s)
         ++ start_events a name (run_trace_id run_id s) (now s)
              (ENABLE_PROMPT_LOGGING s)
  /\ frames (context s1)
     = frames (context s) ++ pushed a name run_id tags metadata s
  /\ ENABLE_RESPONSE_LOGGING s1 = ENABLE_RESPONSE_LOGGING s.

(** The handler [s2] an end or an error callback leaves, seen from the
    handler [s1] it found. *)
Definition finish_facts (a : activity) (e : ending)
  (run_id trace_id : string) (start_time : float)
  (s1 s2 : ObservabilityCallback) : Prop :=
  printed s2 = printed s1
  /\ traces (db s2)
     = alter (complete (now s1)
                (Utils.calculate_duration_ms start_time (now s1))
                (match e with
                 | Completed => success
                 | Failed _ => Storage.error
                 end)
                (match e with
                 | Completed => None
                 | Failed err => Some err
                 end)) trace_id (traces (db s1))
  /\ (exists rows, llm_calls (db s2) = llm_calls (db s1) ++ rows
                   /\ llm_rows a e trace_id rows)
  /\ events (db s2)
     = events (db s1)
         ++ end_events a e trace_id (now s1) (ENABLE_RESPONSE_LOGGING s1)
  /\ _run_id_to_trace_id s2 !! run_id = None
  /\ _run_start_times s2 !! run_id = None
  /\ frames (context s2)
     = (if uses_stack a then removelast (frames (context s1))
        else frames (context s1)).

End Recording.

(* ===================================================================== *)
(** ** A failed start inside an open chain                                *)
(* ===================================================================== *)
Module Incident.
Import Callback Scenario.

(** The database fails the third statement it is sent, and no other. *)
Definition third_statement_fails (n : nat) : bool := Nat.eqb n 2.

(** A chain starts, an LLM call inside it starts and ends. *)
Definition chain_and_call : list notification :=
  [ ChainStart RunnableSequence PNone "run-A" None None None;
    LLMStart ChatGroq ["What is observability?"%string] "run-B" None None
      None;
    LLMEnd answer "run-B" None ].

(** The same without the end of the LLM call. *)
Definition chain_and_start : list notification :=
  [ ChainStart RunnableSequence PNone "run-A" None None None;
    LLMStart ChatGroq ["What is observability?"%string] "run-B" None None
      None ].

(** What is reported next, inside the chain that is still running: an
    agent step, and another LLM call. *)
Definition agent_step : notification :=
  AgentActionTaken {| tool := "search"; tool_input := PNone;
                      action_log := "" |} "run-G" None.

Definition next_call : list notification :=
  [ LLMStart ChatGroq ["And tracing?"%string] "run-C" None None None;
    LLMEnd answer "run-C" None ].

End Incident.

(* ===================================================================== *)
(** * Properties                                                          *)
(* ===================================================================== *)

Import Context Storage Callback.

(** ** Numbers *)

(** On a non-negative value truncation toward zero is the floor. *)
Lemma int_of_float_floor (k : float) (f : Z) :
  floor_of_float k = Ok f -> 0 <= f -> int_of_float k = Ok f.
Proof.
  unfold floor_of_float, int_of_float.
  destruct (Prim2SF k) as [z | i | | sg m e]; try congruence.
  destruct sg; intros [= <-] Hf.
  - exfalso. destruct (Z.leb_spec 0 e).
    + rewrite Z.shiftl_mul_pow2 in Hf by assumption.
      assert (0 < 2 ^ e) by (apply Z.pow_pos_nonneg; lia). nia.
    + assert (0 < 2 ^ (- e)) by (apply Z.pow_pos_nonneg; lia).
      assert (Z.neg m / 2 ^ (- e) < 0); [| lia].
      apply Z.div_lt_upper_bound; lia.
  - destruct (Z.leb_spec 0 e); [reflexivity |].
    rewrite Z.shiftr_div_pow2 by lia. reflexivity.
Qed.

Lemma float_of_int_100 : float_of_int 100 = Ok 100%float.
Proof. reflexivity. Qed.

(** ** Cost *)

Lemma int_truediv_small (a b : Z) :
  b <> 0 -> Z.abs a < 2 ^ 53 -> Z.abs b < 2 ^ 53 ->
  int_truediv a b = Ok (nearest_float a / nearest_float b)%float.
Proof.
  intros Hb Ha Hb'. unfold int_truediv.
  destruct (Z.eqb_spec b 0); [contradiction |].
  destruct (Z.ltb_spec (Z.abs a) (2 ^ 53)); [| lia].
  destruct (Z.ltb_spec (Z.abs b) (2 ^ 53)); [| lia].
  reflexivity.
Qed.

Lemma GROQ_PRICING_lookup (model : string) (p : Config.pricing) :
  Config.GROQ_PRICING !! model = Some p ->
  (model, p) ∈ Config.GROQ_PRICING_items.
Proof.
  unfold Config.GROQ_PRICING. intros H.
  apply elem_of_list_to_map_2 in H. exact H.
Qed.

(** C5.  [calculate_cost] is
    [input_tokens/1_000_000 * input_price + output_tokens/1_000_000 *
    output_price] with the price pair of the model in [GROQ_PRICING], or
    [DEFAULT_PRICING] when the model is absent; a model of the table with
    1,000,000 input tokens and no output token costs exactly its input
    price; an absent model with 1,000,000 tokens each way costs the sum of
    the default pair; the function returns for every model string when
    the token counts are below 2^53, and whether it returns never depends
    on the model string. *)
Theorem calculate_cost_spec :
  (forall model input_tokens output_tokens,
      Config.calculate_cost model input_tokens output_tokens =
      let price := match Config.GROQ_PRICING !! model with
                   | Some p => p
                   | None => Config.DEFAULT_PRICING
                   end in
      i ← int_truediv input_tokens 1000000;
      o ← int_truediv output_tokens 1000000;
      Ok (i * Config.input price + o * Config.output price)%float)
  /\ (forall model p,
         Config.GROQ_PRICING !! model = Some p ->
         Config.calculate_cost model 1000000 0 = Ok (Config.input p))
  /\ (forall model,
         Config.GROQ_PRICING !! model = None ->
         Config.calculate_cost model 1000000 1000000 =
         Ok (Config.input Config.DEFAULT_PRICING
             + Config.output Config.DEFAULT_PRICING)%float)
  /\ (forall model input_tokens output_tokens,
         Z.abs input_tokens < 2 ^ 53 -> Z.abs output_tokens < 2 ^ 53 ->
         returns (Config.calculate_cost model input_tokens output_tokens))
  /\ (forall model model' input_tokens output_tokens,
         returns (Config.calculate_cost model input_tokens output_tokens) ->
         returns (Config.calculate_cost model' input_tokens output_tokens)).
Proof.
  split; [| split; [| split; [| split]]].
  - intros model i o. unfold Config.calculate_cost, Config.pricing_for.
    destruct (Config.GROQ_PRICING !! model); reflexivity.
  - intros model p H. apply GROQ_PRICING_lookup in H.
    unfold Config.calculate_cost, Config.pricing_for.
    unfold Config.GROQ_PRICING_items in H.
    repeat (apply elem_of_cons in H as [[= -> ->] | H];
            [vm_compute; reflexivity |]).
    apply elem_of_nil in H. contradiction.
  - intros model H. unfold Config.calculate_cost, Config.pricing_for.
    rewrite H. vm_compute. reflexivity.
  - intros model i o Hi Ho. unfold Config.calculate_cost.
    rewrite (int_truediv_small i 1000000) by (assumption || lia).
    rewrite (int_truediv_small o 1000000) by (assumption || lia).
    eexists. reflexivity.
  - intros model model' i o [c H]. unfold Config.calculate_cost in *.
    destruct (int_truediv i 1000000); [| discriminate].
    destruct (int_truediv o 1000000); [| discriminate].
    eexists. reflexivity.
Qed.

Lemma calculate_cost_spec_witness :
  Config.GROQ_PRICING !! "llama3-70b-8192"%string
  = Some (Config.Pricing 0.59 0.79)
  /\ Config.calculate_cost "llama3-70b-8192" 1000000 0 = Ok 0.59%float
  /\ Config.GROQ_PRICING !! "gpt-oss-120b"%string = None
  /\ Config.calculate_cost "gpt-oss-120b" 1000000 1000000 = Ok 0.2%float
  /\ returns (Config.calculate_cost "gpt-oss-120b" 1234 567).
Proof.
  destruct calculate_cost_spec as (_ & Hknown & Hunknown & Hreturns & _).
  assert (H1 : Config.GROQ_PRICING !! "llama3-70b-8192"%string
               = Some (Config.Pricing 0.59 0.79)) by (vm_compute; reflexivity).
  assert (H2 : Config.GROQ_PRICING !! "gpt-oss-120b"%string = None)
    by (vm_compute; reflexivity).
  split; [exact H1 |]. split; [exact (Hknown _ _ H1) |].
  split; [exact H2 |]. split; [exact (Hunknown _ H2) |].
  apply Hreturns; vm_compute; reflexivity.
Defined.

(** ** Error rate and safe division *)

Lemma float_truediv_nonzero (x y : float) :
  PrimFloat.eqb y 0 = false -> float_truediv x y = Ok (x / y)%float.
Proof. intros H. unfold float_truediv. rewrite H. reflexivity. Qed.

Lemma int_truediv_zero_divisor (a b : Z) :
  int_truediv a b = Raise ZeroDivisionError <-> b = 0.
Proof.
  unfold int_truediv. destruct (Z.eqb_spec b 0) as [-> | Hb].
  - split; reflexivity || trivial.
  - split; [| contradiction].
    destruct ((Z.abs a <? 2 ^ 53) && (Z.abs b <? 2 ^ 53)); [discriminate |].
    destruct (is_infinity _); discriminate.
Qed.

(** C8.  Over any selected set of traces the error rate is
    [error_count / total_count * 100], and [0] when nothing is selected,
    which is never a division failure; [safe_divide n d] is [n / d] when
    [d] is not zero and the default [0] when it is, and always returns. *)
Theorem error_rate_spec :
  (forall selected : list status,
      Errors.get_error_rate selected =
      if Z.of_nat (length selected) =? 0 then Ok 0%float
      else q ← int_truediv (Errors.count_errors selected)
                 (Z.of_nat (length selected));
           Ok (q * 100)%float)
  /\ (forall selected : list status,
         Errors.get_error_rate selected <> Raise ZeroDivisionError)
  /\ (forall errors : option Z,
         Errors.get_error_rate_of [Errors.ErrorTotals 0 errors] = Ok 0%float)
  /\ (forall n d : float,
         Utils.safe_divide n d =
         Ok (if PrimFloat.eqb d 0 then 0 else n / d)%float).
Proof.
  assert (Hrate : forall selected : list status,
             Errors.get_error_rate selected =
             if Z.of_nat (length selected) =? 0 then Ok 0%float
             else q ← int_truediv (Errors.count_errors selected)
                        (Z.of_nat (length selected));
                  Ok (q * 100)%float).
  { intros [| s l]; [reflexivity |].
    unfold Errors.get_error_rate, Errors.query_error_totals,
      Errors.get_error_rate_of.
    cbn [Errors.total_requests Errors.error_count].
    destruct (Z.ltb_spec 0 (Z.of_nat (length (s :: l)))) as [Hpos | Hnp];
      [| simpl in Hnp; lia].
    destruct (Z.eqb_spec (Z.of_nat (length (s :: l))) 0) as [H0 | _];
      [lia |].
    rewrite float_of_int_100. reflexivity. }
  split; [exact Hrate |]. split; [| split].
  - intros selected. rewrite Hrate.
    destruct (Z.eqb_spec (Z.of_nat (length selected)) 0) as [| Hne];
      [discriminate |].
    destruct (int_truediv _ _) as [q | e] eqn:Hq; [discriminate |].
    cbn. intros [= ->]. apply int_truediv_zero_divisor in Hq. contradiction.
  - intros errors. reflexivity.
  - intros n d. unfold Utils.safe_divide, Utils.safe_divide_default.
    destruct (PrimFloat.eqb d 0) eqn:Hd; cbn; [reflexivity |].
    apply float_truediv_nonzero. exact Hd.
Qed.

(** ** Truncation *)

Lemma length_substring_0 (n : nat) (s : string) :
  (n <= String.length s)%nat -> String.length (substring 0 n s) = n.
Proof.
  revert n. induction s as [| a s IH]; intros [| n] H; simpl in *;
    try reflexivity; try lia.
  rewrite IH by lia. reflexivity.
Qed.

Lemma length_string_app (s t : string) :
  String.length (s ++ t) = (String.length s + String.length t)%nat.
Proof. induction s as [| a s IH]; simpl; [reflexivity | now rewrite IH]. Qed.

(** With room for the marker ([max_length >= 3]) the result of
    [truncate_string] fits in [max_length], a text that fits is returned
    unchanged, and a longer one is cut and ends with the marker. *)
Lemma truncate_string_fits (text : string) (max_length : Z) :
  3 <= max_length ->
  Z.of_nat (String.length (Utils.truncate_string text max_length))
  <= max_length
  /\ (Z.of_nat (String.length text) <= max_length ->
      Utils.truncate_string text max_length = text)
  /\ (max_length < Z.of_nat (String.length text) ->
      Utils.ends_with_ellipsis (Utils.truncate_string text max_length)).
Proof.
  intros H3. unfold Utils.truncate_string.
  destruct (Z.leb_spec (Z.of_nat (String.length text)) max_length) as [Hle | Hgt].
  - repeat split; [assumption | lia].
  - split; [| split; [lia | intros _; eexists; reflexivity]].
    rewrite length_string_app. unfold slice_to.
    destruct (Z.ltb_spec (max_length - 3) 0); [lia |].
    rewrite length_substring_0 by lia. simpl. lia.
Qed.

(** C6.  [truncate_string("abcdef", 4)] is ["a..."], but with a maximum
    below the length of the marker the slice [text[:max_length - 3]]
    takes a negative bound and the result outgrows the maximum: for
    ["abcdef"] and the maximum 2 it is ["abcde..."], eight characters. *)
Theorem truncate_string_below_marker :
  Utils.truncate_string "abcdef" 4 = "a..."%string
  /\ Utils.truncate_string "abcdef" 2 = "abcde..."%string
  /\ ~ (Z.of_nat (String.length (Utils.truncate_string "abcdef" 2)) <= 2).
Proof.
  split; [reflexivity |]. split; [reflexivity |]. vm_compute. intros H.
  apply H. reflexivity.
Qed.

(** ** Percentiles *)

(** C3.  On a non-empty ascending list of [n] durations, with the
    position [k = (n-1) * p] not negative, [f = floor(k)] and [c = f+1],
    [percentile] is [d[f]] when [c] is out of range and the linear
    interpolation [d[f] + (d[c]-d[f]) * (k-f)] otherwise; so
    [percentile([10,20,30,40], 0.5)] is [25]; on the empty list the
    percentile and each of p50, p95, p99 is [0]. *)
Theorem percentile_interpolates :
  forall (data : list float) (p n1 : float) (f : Z),
    data <> [] ->
    float_of_int (Z.of_nat (length data) - 1) = Ok n1 ->
    floor_of_float (n1 * p) = Ok f ->
    0 <= f ->
    Latency.percentile data p =
    (let k := (n1 * p)%float in
     let c := f + 1 in
     if Z.of_nat (length data) <=? c then index data f
     else d0 ← index data f;
          d1 ← index data c;
          ff ← float_of_int f;
          Ok (d0 + (d1 - d0) * (k - ff))%float)
    /\ Latency.percentile [10; 20; 30; 40]%float 0.5 = Ok 25%float
    /\ (forall q, Latency.percentile [] q = Ok 0%float)
    /\ Latency.get_percentiles [] = Ok (Latency.Percentiles 0 0 0).
Proof.
  intros data p n1 f Hne Hn Hfloor Hf.
  split; [| split; [vm_compute; reflexivity | split; reflexivity]].
  unfold Latency.percentile. destruct data as [| d data]; [contradiction |].
  rewrite Hn. cbn [mbind res_bind].
  rewrite (int_of_float_floor _ _ Hfloor Hf). reflexivity.
Qed.

Lemma percentile_interpolates_witness :
  Latency.percentile [10; 20; 30; 40]%float 0.5 =
  (if Z.of_nat (length [10; 20; 30; 40]%float) <=? 1 + 1
   then index [10; 20; 30; 40]%float 1
   else d0 ← index [10; 20; 30; 40]%float 1;
        d1 ← index [10; 20; 30; 40]%float (1 + 1);
        ff ← float_of_int 1;
        Ok (d0 + (d1 - d0) * (3 * 0.5 - ff))%float).
Proof.
  apply (percentile_interpolates [10; 20; 30; 40]%float 0.5 3 1).
  - discriminate.
  - vm_compute. reflexivity.
  - vm_compute. reflexivity.
  - lia.
Defined.

(** The value the specification gives for the median of
    [[10, 20, 30, 40]] is not the one [percentile] returns. *)
Lemma percentile_median_not_20 :
  Latency.percentile [10; 20; 30; 40]%float 0.5 <> Ok 20%float.
Proof.
  intros H.
  apply (f_equal (fun r => match r with
                           | Ok x => PrimFloat.ltb 20 x
                           | Raise _ => false
                           end)) in H.
  vm_compute in H. discriminate.
Qed.

(** ** Anomalies *)

Lemma flag_loop (threshold mean : float) (rows : list Errors.rate_row)
    (acc : list Errors.anomaly) :
  fold_left
    (fun anomalies result =>
       if float_gt (Errors.error_rate result) threshold
       then anomalies ++
              [ Errors.Anomaly (Errors.time_bucket result)
                  (Errors.error_rate result) threshold
                  (Errors.error_rate result - mean)%float ]
       else anomalies)
    rows acc
  = acc ++ (Errors.report threshold mean
              <$> List.filter (Errors.exceeds threshold) rows).
Proof.
  revert acc. induction rows as [| r rows IH]; intros acc; simpl.
  - now rewrite app_nil_r.
  - rewrite IH. unfold Errors.exceeds at 2.
    destruct (float_gt (Errors.error_rate r) threshold); [| reflexivity].
    rewrite <- app_assoc. reflexivity.
Qed.

(** C4.  With fewer than three buckets [detect_anomalies] returns the
    empty list; otherwise it reports exactly the buckets whose rate
    exceeds [mean + multiplier * stddev], for the population mean and the
    population standard deviation of the bucket rates; with the rates
    [1, 1, 1, 1, 50] and the multiplier [2.0] the threshold is [50], the
    rate of the last bucket, so this bucket does not exceed it and
    nothing is flagged, while the multiplier [1.5] flags it. *)
Theorem detect_anomalies_spec :
  (forall (rows : list Errors.rate_row) (multiplier : float),
      Errors.detect_anomalies rows multiplier =
      if Z.of_nat (length rows) <? 3 then Ok []
      else
        let rates := Errors.error_rate <$> rows in
        mean ← Errors.population_mean rates;
        threshold ← Errors.anomaly_threshold rates multiplier;
        Ok (Errors.report threshold mean
              <$> List.filter (Errors.exceeds threshold) rows))
  /\ Errors.anomaly_threshold (Errors.error_rate <$> Errors.five_hours) 2
     = Ok 50%float
  /\ Errors.detect_anomalies Errors.five_hours 2 = Ok []
  /\ Errors.detect_anomalies Errors.five_hours 1.5
     = Ok [ Errors.Anomaly "2026-01-13-14" 50 40.200000000000003
              39.200000000000003 ].
Proof.
  split; [| repeat split; vm_compute; reflexivity].
  intros rows multiplier. unfold Errors.detect_anomalies.
  destruct (Z.of_nat (length rows) <? 3); [reflexivity |].
  unfold Errors.anomaly_threshold, Errors.population_std_dev,
    Errors.population_mean.
  change (map Errors.error_rate rows) with (Errors.error_rate <$> rows).
  cbn zeta.
  destruct (float_of_int (Z.of_nat (length (Errors.error_rate <$> rows))))
    as [n | e]; [| reflexivity].
  cbn [mbind res_bind].
  destruct (float_truediv (sum (Errors.error_rate <$> rows)) n)
    as [mean | e]; [| reflexivity].
  cbn [mbind res_bind].
  destruct (mapM _ _) as [squares | e]; [| reflexivity].
  cbn [mbind res_bind].
  destruct (float_truediv (sum squares) n) as [variance | e];
    [| reflexivity].
  cbn [mbind res_bind mret res_ret]. unfold float_pow_half.
  rewrite flag_loop. reflexivity.
Qed.

(** The last of the five buckets is not among the flagged ones. *)
Lemma five_hours_last_not_flagged :
  ~ (exists anomalies,
        Errors.detect_anomalies Errors.five_hours 2 = Ok anomalies
        /\ exists a, a ∈ anomalies
                     /\ Errors.a_time_bucket a = "2026-01-13-14"%string).
Proof.
  intros (anomalies & H & a & Ha & _). vm_compute in H.
  injection H as <-. apply elem_of_nil in Ha. exact Ha.
Qed.

(** ** Latency histogram *)

(** C7.  For the durations [1.0] and [3.0] and two buckets, the bins are
    [[1, 2)] and [[2, 3)]: the last bin is half-open like the others, the
    maximum [3.0] lies in no bin, and the counts add up to one of the two
    durations. *)
Theorem histogram_drops_maximum :
  Latency.get_latency_distribution [1; 3]%float 2
  = Ok [ Latency.Bucket 1 2 1; Latency.Bucket 2 3 0 ]
  /\ Latency.sql_max [1; 3]%float = Some 3%float
  /\ Latency.in_bucket 1 2 3 = false
  /\ Latency.in_bucket 2 3 3 = false.
Proof. repeat split; vm_compute; reflexivity. Qed.

(** The histogram of durations whose minimum is [0.0] is empty, by the
    test [not results[0]["min_latency"]]; and durations that are all
    equal fall in no bin, the bins having no width. *)
Lemma histogram_of_zero_minimum :
  Latency.get_latency_distribution [0; 3]%float 2 = Ok []
  /\ Latency.get_latency_distribution [2; 2]%float 2
     = Ok [ Latency.Bucket 2 2 0; Latency.Bucket 2 2 0 ].
Proof. split; vm_compute; reflexivity. Qed.

(** ** The trace context stack *)

Lemma index_last {A} (xs : list A) (x : A) :
  last xs = Some x -> index xs (-1) = Ok x.
Proof.
  intros H. unfold index. rewrite last_lookup in H.
  assert (Hlen : (0 < length xs)%nat).
  { destruct xs; [discriminate | simpl; lia]. }
  destruct (Z.ltb_spec (-1) 0); [| lia].
  destruct (Z.ltb_spec (-1 + Z.of_nat (length xs)) 0); [lia |].
  destruct (Z.leb_spec (Z.of_nat (length xs)) (-1 + Z.of_nat (length xs)));
    [lia |].
  cbn [orb].
  replace (Z.to_nat (-1 + Z.of_nat (length xs))) with (pred (length xs))
    by lia.
  rewrite H. reflexivity.
Qed.

Lemma last_nonempty {A} (x : A) (xs : list A) : is_Some (last (x :: xs)).
Proof.
  rewrite last_lookup. apply lookup_lt_is_Some. simpl. lia.
Qed.

Lemma get_current_trace_id_eq (c : TraceContext) :
  get_current_trace_id c
  = (Ok (top_trace_id c), set_stack (frames c) c).
Proof.
  destruct c as [[[| f st] |] sess]; try reflexivity.
  unfold top_trace_id.
  change (frames (Local (Some (f :: st)) sess)) with (f :: st).
  unfold get_current_trace_id, set_stack. cbn [stack session_id].
  destruct (last_nonempty f st) as [x Hx].
  unfold mbind, ST_bind, _ensure_stack, the_stack, lift. cbn [stack].
  rewrite (index_last _ _ Hx), Hx. reflexivity.
Qed.

Lemma push_trace_eq (c : TraceContext) tid ttype nm t md :
  push_trace tid ttype nm t md c
  = (Ok tt,
     set_stack (frames c ++ [Frame tid ttype nm t (top_trace_id c)
                               (default ∅ md)]) c).
Proof.
  unfold push_trace. unfold mbind at 1, ST_bind at 1.
  assert (He : _ensure_stack c = (Ok tt, set_stack (frames c) c)).
  { destruct c as [[st |] sess]; reflexivity. }
  rewrite He. unfold mbind at 1, ST_bind at 1.
  rewrite get_current_trace_id_eq.
  destruct c as [[st |] sess]; reflexivity.
Qed.

Lemma pop_trace_eq (c : TraceContext) :
  pop_trace c
  = (Ok (last (frames c)), set_stack (removelast (frames c)) c).
Proof.
  destruct c as [[[| f st] |] sess]; try reflexivity.
  change (frames (Local (Some (f :: st)) sess)) with (f :: st).
  unfold pop_trace, set_stack. cbn [stack session_id].
  destruct (last_nonempty f st) as [x Hx].
  unfold mbind, ST_bind, _ensure_stack, the_stack, lift, list_pop, modify.
  cbn [stack]. rewrite Hx. reflexivity.
Qed.

Lemma removelast_snoc {A} (xs : list A) (x : A) :
  removelast (xs ++ [x]) = xs.
Proof. apply removelast_last. Qed.

(** C9.  [pop_trace] returns the top frame and removes it, which lowers
    the depth by one, when the stack is not empty; on an empty stack,
    and on a path whose stack was never created, it returns [None] and
    leaves the stack empty; it never raises. *)
Theorem pop_trace_spec :
  (forall c : TraceContext,
      pop_trace c
      = (Ok (last (frames c)), set_stack (removelast (frames c)) c))
  /\ (forall (below : list frame) (top : frame) (sess : option (option string)),
         pop_trace (Local (Some (below ++ [top])) sess)
         = (Ok (Some top), Local (Some below) sess)
         /\ (get_stack_depth (Local (Some (below ++ [top])) sess)).1
            = Ok (Z.of_nat (length below) + 1)
         /\ (get_stack_depth (Local (Some below) sess)).1
            = Ok (Z.of_nat (length below)))
  /\ (forall sess : option (option string),
         pop_trace (Local (Some []) sess) = (Ok None, Local (Some []) sess)
         /\ pop_trace (Local None sess) = (Ok None, Local (Some []) sess)).
Proof.
  split; [exact pop_trace_eq |]. split.
  - intros below top sess. rewrite pop_trace_eq.
    change (frames (Local (Some (below ++ [top])) sess))
      with (below ++ [top]).
    unfold set_stack. cbn [stack session_id].
    rewrite last_snoc, removelast_snoc. split; [reflexivity |].
    split; [| reflexivity].
    transitivity (Ok (A := Z) (Z.of_nat (length (below ++ [top]))));
      [reflexivity |].
    rewrite length_app. cbn [length]. f_equal. lia.
  - intros sess. split; reflexivity.
Qed.

(** ** The handler: run correlation *)

Lemma bind_ok {S A B} (m : ST S A) (k : A -> ST S B) s a s1 :
  m s = (Ok a, s1) -> (m ≫= k) s = k a s1.
Proof. intros H. unfold mbind, ST_bind. rewrite H. reflexivity. Qed.

Lemma bind_raise {S A B} (m : ST S A) (k : A -> ST S B) s e s1 :
  m s = (Raise e, s1) -> (m ≫= k) s = (Raise e, s1).
Proof. intros H. unfold mbind, ST_bind. rewrite H. reflexivity. Qed.

Lemma get_or_create_known (r t : string) (s : ObservabilityCallback) :
  _run_id_to_trace_id s !! r = Some t ->
  _get_or_create_trace_id r s = (Ok t, s).
Proof.
  intros H. unfold _get_or_create_trace_id.
  unfold mbind, ST_bind, gets, pass, lift, dict_getitem.
  rewrite H. rewrite bool_decide_eq_false_2 by discriminate.
  rewrite H. reflexivity.
Qed.

Lemma get_or_create_new (r : string) (s : ObservabilityCallback) :
  _run_id_to_trace_id s !! r = None ->
  _get_or_create_trace_id r s
  = (Ok (next_uuid s),
     with_run_ids <[r := next_uuid s]> (with_world draw_uuid s)).
Proof.
  intros H. unfold _get_or_create_trace_id.
  unfold mbind, ST_bind, gets, pass, lift, dict_getitem, modify,
    generate_trace_id.
  rewrite H. rewrite bool_decide_eq_true_2 by reflexivity.
  cbn [_run_id_to_trace_id with_run_ids with_world].
  rewrite lookup_insert_eq. reflexivity.
Qed.

Lemma iter_fixed {A} (f : A -> A) (x : A) (n : nat) :
  f x = x -> Nat.iter n f x = x.
Proof.
  intros H. induction n as [| n IH]; simpl; [reflexivity |].
  rewrite IH. exact H.
Qed.

(** C10.  The first call of [_get_or_create_trace_id] for a run id draws
    a new trace id from [generate_trace_id] and stores it under the run
    id; a call always returns the id the map then holds for the run id,
    and each later call for the same run id returns this id again and
    changes nothing; no call changes what the map holds for another run
    id. *)
Theorem get_or_create_trace_id_idempotent :
  forall (r : string) (s : ObservabilityCallback),
    (_run_id_to_trace_id s !! r = None ->
     exists s1,
       _get_or_create_trace_id r s = (Ok (next_uuid s), s1)
       /\ _run_id_to_trace_id s1
          = <[r := next_uuid s]> (_run_id_to_trace_id s)
       /\ uuid4_calls (world s1) = S (uuid4_calls (world s)))
    /\ (exists t s1,
           _get_or_create_trace_id r s = (Ok t, s1)
           /\ _run_id_to_trace_id s1 !! r = Some t
           /\ _get_or_create_trace_id r s1 = (Ok t, s1)
           /\ (forall n : nat,
                  Nat.iter n (fun x => (_get_or_create_trace_id r x).2) s1
                  = s1)
           /\ (forall r', r' <> r ->
                          _run_id_to_trace_id s1 !! r'
                          = _run_id_to_trace_id s !! r')).
Proof.
  intros r s. split.
  - intros H. eexists. split; [apply get_or_create_new, H |].
    split; reflexivity.
  - destruct (_run_id_to_trace_id s !! r) as [t |] eqn:H.
    + exists t, s. rewrite (get_or_create_known _ _ _ H).
      repeat split; try assumption.
      intros n. apply iter_fixed.
      rewrite (get_or_create_known _ _ _ H). reflexivity.
    + eexists _, _. split; [apply get_or_create_new, H |].
      assert (Hk : _run_id_to_trace_id
                     (with_run_ids <[r := next_uuid s]>
                        (with_world draw_uuid s)) !! r
                   = Some (next_uuid s)).
      { cbn [_run_id_to_trace_id with_run_ids with_world].
        apply lookup_insert_eq. }
      split; [exact Hk |]. split; [apply get_or_create_known, Hk |].
      split.
      * intros n. apply iter_fixed.
        rewrite (get_or_create_known _ _ _ Hk). reflexivity.
      * intros r' Hne.
        cbn [_run_id_to_trace_id with_run_ids with_world].
        apply lookup_insert_ne. congruence.
Qed.

Lemma get_or_create_trace_id_idempotent_witness :
  let s := init {| traces := ∅; llm_calls := []; events := [];
                   faults := fun _ => false; executed := 0 |}
             {| uuid4 := fun n => if Nat.eqb n 0 then "t0" else "t1";
                uuid4_calls := 0;
                time_time := fun _ => 0%float; time_calls := 0 |}
             true true None None in
  _run_id_to_trace_id s !! "run-1"%string = None
  /\ exists s1,
      _get_or_create_trace_id "run-1" s = (Ok "t0"%string, s1)
      /\ _run_id_to_trace_id s1 = <["run-1"%string := "t0"%string]> ∅
      /\ uuid4_calls (world s1) = 1%nat.
Proof.
  intros s. split; [reflexivity |].
  exact (proj1 (get_or_create_trace_id_idempotent "run-1" s) eq_refl).
Defined.

(** ** The handler: what a callback may do to the stack and to [traces] *)

Lemma grows_refl (s : ObservabilityCallback) : grows s s.
Proof. split; auto. Qed.

Lemma grows_trans (s1 s2 s3 : ObservabilityCallback) :
  grows s1 s2 -> grows s2 s3 -> grows s1 s3.
Proof. intros [F1 T1] [F2 T2]. split; auto. Qed.

Lemma grows_recorded (s s' : ObservabilityCallback) :
  grows s s' -> stack_recorded s -> stack_recorded s'.
Proof. intros [F T] H f Hf. apply T, H, F, Hf. Qed.

Lemma quiet_keeps {A} (m : M A) : quiet m -> keeps m.
Proof. intros H s Hs. exact (grows_recorded _ _ (H s) Hs). Qed.

Lemma quiet_bind {A B} (m : M A) (k : A -> M B) :
  quiet m -> (forall a, quiet (k a)) -> quiet (m ≫= k).
Proof.
  intros Hm Hk s. specialize (Hm s). unfold mbind, ST_bind.
  destruct (m s) as [[a | e] s1]; cbn [snd] in *; [| exact Hm].
  exact (grows_trans _ _ _ Hm (Hk a s1)).
Qed.

Lemma keeps_bind {A B} (m : M A) (k : A -> M B) :
  keeps m -> (forall a, keeps (k a)) -> keeps (m ≫= k).
Proof.
  intros Hm Hk s Hs. specialize (Hm s Hs). unfold mbind, ST_bind.
  destruct (m s) as [[a | e] s1]; cbn [snd] in *; [| exact Hm].
  exact (Hk a s1 Hm).
Qed.

Lemma quiet_ret {A} (a : A) : quiet (mret a).
Proof. intros s. apply grows_refl. Qed.

Lemma quiet_gets {A} (f : ObservabilityCallback -> A) : quiet (gets f).
Proof. intros s. apply grows_refl. Qed.

Lemma quiet_lift {A} (r : res A) : quiet (lift r).
Proof. intros s. apply grows_refl. Qed.

Lemma quiet_pass : quiet pass.
Proof. intros s. apply grows_refl. Qed.

Lemma quiet_modify_start_times f : quiet (modify (with_start_times f)).
Proof. intros s. split; intros x H; exact H. Qed.

Lemma quiet_modify_run_ids f : quiet (modify (with_run_ids f)).
Proof. intros s. split; intros x H; exact H. Qed.

Lemma quiet_generate_trace_id : quiet generate_trace_id.
Proof. intros s. split; intros x H; exact H. Qed.

Lemma quiet_get_current_timestamp : quiet get_current_timestamp.
Proof. intros s. split; intros x H; exact H. Qed.

Lemma quiet_on_context {A} (op : ST TraceContext A) :
  (forall c f, f ∈ frames (op c).2 -> f ∈ frames c) ->
  quiet (on_context op).
Proof.
  intros H s. unfold on_context. specialize (H (context s)).
  destruct (op (context s)) as [r c']. split; [exact H | auto].
Qed.

Lemma quiet_on_db {A} (op : ST Database A) :
  (forall d t, is_Some (traces d !! t) -> is_Some (traces (op d).2 !! t)) ->
  quiet (on_db op).
Proof.
  intros H s. unfold on_db. specialize (H (db s)).
  destruct (op (db s)) as [r d']. split; [auto | exact H].
Qed.

Lemma quiet_get_current_trace_id : quiet (on_context get_current_trace_id).
Proof.
  apply quiet_on_context. intros c f. rewrite get_current_trace_id_eq.
  destruct c as [[st |] sess]; auto.
Qed.

Lemma quiet_get_session_id : quiet (on_context get_session_id).
Proof.
  apply quiet_on_context. intros [st [sid |]] f; auto.
Qed.

Lemma quiet_pop_trace : quiet (on_context pop_trace).
Proof.
  apply quiet_on_context. intros c f. rewrite pop_trace_eq.
  destruct c as [[st |] sess]; [| intros []%elem_of_nil].
  change (f ∈ removelast st -> f ∈ st). revert f.
  induction st as [| x [| y st] IH]; intros f; [auto | intros []%elem_of_nil |].
  change (removelast (x :: y :: st)) with (x :: removelast (y :: st)).
  rewrite !(elem_of_cons _ f x). intros [-> | H]; [left | right]; auto.
Qed.

Lemma quiet_create_trace tid ttype nm t sid parent md :
  quiet (on_db (create_trace tid ttype nm t sid parent md)).
Proof.
  apply quiet_on_db. intros d u Hu.
  unfold create_trace, mbind, ST_bind, execute, gets, modify, raise, mret,
    ST_ret.
  destruct (faults d (executed d)); [exact Hu |].
  cbn [id traces count_statement].
  destruct (bool_decide _); [exact Hu |].
  destruct (references_trace _ _); [| exact Hu].
  cbn [snd traces set_traces count_statement].
  rewrite lookup_insert. destruct (decide (tid = u)); [eauto | exact Hu].
Qed.

Lemma quiet_update_trace_completion tid e t st msg :
  quiet (on_db (update_trace_completion tid e t st msg)).
Proof.
  apply quiet_on_db. intros d u Hu.
  unfold update_trace_completion, mbind, ST_bind, execute, modify.
  destruct (faults d (executed d)); [exact Hu |].
  cbn [snd traces set_traces count_statement].
  rewrite lookup_alter. destruct (decide (tid = u)) as [-> |]; [| exact Hu].
  destruct Hu as [x ->]. eauto.
Qed.

Lemma quiet_create_llm_call tid m p r i o tot c sp pr :
  quiet (on_db (create_llm_call tid m p r i o tot c sp pr)).
Proof.
  apply quiet_on_db. intros d u Hu.
  unfold create_llm_call, mbind, ST_bind, execute, gets, modify, raise.
  destruct (faults d (executed d)); [exact Hu |].
  cbn [id llm_calls count_statement].
  destruct (bool_decide _); [exact Hu |].
  destruct (references_trace _ _); exact Hu.
Qed.

Lemma quiet_create_event tid ty nm t data :
  quiet (on_db (create_event tid ty nm t data)).
Proof.
  apply quiet_on_db. intros d u Hu.
  unfold create_event, mbind, ST_bind, execute, gets, modify, raise.
  destruct (faults d (executed d)); [exact Hu |].
  cbn [id].
  destruct (references_trace _ _); exact Hu.
Qed.

Lemma keeps_safe_execute (func : M unit) :
  keeps func -> keeps (_safe_execute func).
Proof.
  intros H s Hs. specialize (H s Hs). unfold _safe_execute.
  destruct (func s) as [[[] | e] s1]; exact H.
Qed.

Create HintDb quiet.

#[local] Hint Resolve quiet_ret quiet_gets quiet_lift quiet_pass
  quiet_modify_start_times quiet_modify_run_ids quiet_generate_trace_id
  quiet_get_current_timestamp quiet_get_current_trace_id
  quiet_get_session_id quiet_pop_trace quiet_create_trace
  quiet_update_trace_completion quiet_create_llm_call quiet_create_event
  : quiet.

(** Decompose a body statement by statement. *)
Ltac quiet_steps :=
  repeat (cbv beta zeta;
          lazymatch goal with
          | |- quiet (mbind _ _) => apply quiet_bind; [| intros ?]
          | |- quiet (if ?b then _ else _) => destruct b
          | |- quiet (match ?x with _ => _ end) => destruct x
          | |- quiet _ => solve [auto with quiet]
          end).

Lemma quiet_get_or_create (r : string) : quiet (_get_or_create_trace_id r).
Proof. unfold _get_or_create_trace_id. quiet_steps. Qed.

Lemma quiet_resolve_parent (p : option string) : quiet (resolve_parent p).
Proof.
  destruct p as [p |]; unfold resolve_parent; [| auto with quiet].
  apply quiet_bind; [apply quiet_get_or_create | intros; apply quiet_ret].
Qed.

Lemma quiet_del_run_id (r : string) : quiet (del_run_id r).
Proof. unfold del_run_id. quiet_steps. Qed.

Lemma quiet_del_start_time (r : string) : quiet (del_start_time r).
Proof. unfold del_start_time. quiet_steps. Qed.

#[local] Hint Resolve quiet_get_or_create quiet_resolve_parent
  quiet_del_run_id quiet_del_start_time : quiet.

Lemma quiet_cleanup (r : string) : quiet (cleanup r).
Proof. unfold cleanup. quiet_steps. Qed.

#[local] Hint Resolve quiet_cleanup : quiet.

Lemma quiet_on_llm_end resp r p : quiet (_on_llm_end resp r p).
Proof. unfold _on_llm_end. quiet_steps. Qed.

Lemma quiet_on_llm_error e r p : quiet (_on_llm_error e r p).
Proof. unfold _on_llm_error. quiet_steps. Qed.

Lemma quiet_on_chain_end o r p : quiet (_on_chain_end o r p).
Proof. unfold _on_chain_end. quiet_steps. Qed.

Lemma quiet_on_chain_error e r p : quiet (_on_chain_error e r p).
Proof. unfold _on_chain_error. quiet_steps. Qed.

Lemma quiet_on_tool_start ser i r p tags md :
  quiet (_on_tool_start ser i r p tags md).
Proof. unfold _on_tool_start. quiet_steps. Qed.

Lemma quiet_on_tool_end o r p : quiet (_on_tool_end o r p).
Proof. unfold _on_tool_end. quiet_steps. Qed.

Lemma quiet_on_tool_error e r p : quiet (_on_tool_error e r p).
Proof. unfold _on_tool_error. quiet_steps. Qed.

Lemma quiet_on_agent_action a r p : quiet (_on_agent_action a r p).
Proof. unfold _on_agent_action. quiet_steps. Qed.

Lemma quiet_on_agent_finish f r p : quiet (_on_agent_finish f r p).
Proof. unfold _on_agent_finish. quiet_steps. Qed.

(** A trace that was just created may be pushed: the new frame has its
    row. *)
Lemma push_after_create tid ttype nm t sid parent md md' s x s1 :
  stack_recorded s ->
  on_db (create_trace tid ttype nm t sid parent md) s = (Ok x, s1) ->
  stack_recorded (on_context (push_trace tid ttype nm t md') s1).2.
Proof.
  intros Hs Hc.
  pose proof (quiet_create_trace tid ttype nm t sid parent md s) as Hq.
  rewrite Hc in Hq. cbn [snd] in Hq.
  assert (Htid : is_Some (traces (db s1) !! tid)).
  { revert Hc. unfold on_db, create_trace, mbind, ST_bind, execute, gets,
      modify, raise, mret, ST_ret.
    destruct (faults (db s) (executed (db s))); [discriminate |].
    cbn [id traces count_statement].
    destruct (bool_decide _); [discriminate |].
    destruct (references_trace _ _); [| discriminate].
    intros [= _ <-]. cbn [db with_db traces set_traces count_statement].
    rewrite lookup_insert_eq. eauto. }
  assert (H1 : stack_recorded s1) by exact (grows_recorded _ _ Hq Hs).
  unfold on_context. rewrite push_trace_eq. intros f Hf.
  cbn [snd context with_context db] in Hf |- *.
  change (f ∈ frames (context s1)
              ++ [Frame tid ttype nm t (top_trace_id (context s1))
                    (default ∅ md')]) in Hf.
  apply elem_of_app in Hf as [Hf | Hf%list_elem_of_singleton].
  - apply H1. exact Hf.
  - subst f. exact Htid.
Qed.

Lemma keeps_create_push tid ttype nm t sid parent md md' :
  keeps (on_db (create_trace tid ttype nm t sid parent md) ≫= fun _ =>
         on_context (push_trace tid ttype nm t md')).
Proof.
  intros s Hs. unfold mbind, ST_bind.
  destruct (on_db (create_trace tid ttype nm t sid parent md) s)
    as [[x | e] s1] eqn:Hc.
  - exact (push_after_create _ _ _ _ _ _ _ _ _ _ _ Hs Hc).
  - pose proof (quiet_create_trace tid ttype nm t sid parent md s) as Hq.
    rewrite Hc in Hq. exact (grows_recorded _ _ Hq Hs).
Qed.

Lemma keeps_create_push_then {B} tid ttype nm t sid parent md md'
    (rest : unit -> M B) :
  (forall u, keeps (rest u)) ->
  keeps (on_db (create_trace tid ttype nm t sid parent md) ≫= fun _ =>
         on_context (push_trace tid ttype nm t md') ≫= rest).
Proof.
  intros Hrest s Hs. unfold mbind at 1, ST_bind at 1.
  destruct (on_db (create_trace tid ttype nm t sid parent md) s)
    as [[x | e] s1] eqn:Hc.
  - pose proof (push_after_create _ _ _ _ _ _ _ md' _ _ _ Hs Hc) as H2.
    unfold mbind, ST_bind.
    destruct (on_context (push_trace tid ttype nm t md') s1)
      as [[[] | e] s2]; cbn [snd] in *; [apply Hrest |]; exact H2.
  - pose proof (quiet_create_trace tid ttype nm t sid parent md s) as Hq.
    rewrite Hc in Hq. exact (grows_recorded _ _ Hq Hs).
Qed.

(** Walk through the statements before the creation of the trace. *)
Ltac keeps_prefix :=
  repeat (cbv beta zeta;
          lazymatch goal with
          | |- keeps (mbind _ (on_db (create_trace _ _ _ _ _ _ _))) => fail
          | |- keeps (mbind _ _) =>
              apply keeps_bind;
              [apply quiet_keeps; solve [auto with quiet] | intros ?]
          end).

Lemma keeps_on_llm_start ser prompts r p tags md :
  keeps (_on_llm_start ser prompts r p tags md).
Proof. unfold _on_llm_start. keeps_prefix. apply keeps_create_push. Qed.

Lemma keeps_on_chain_start ser inputs r p tags md :
  keeps (_on_chain_start ser inputs r p tags md).
Proof.
  unfold _on_chain_start. keeps_prefix. apply keeps_create_push_then.
  intros _. apply quiet_keeps. quiet_steps.
Qed.

(** Whatever is delivered and whatever fails while it is handled, every
    frame left on the stack has its row in [traces]. *)
Lemma deliver_keeps_stack_recorded (n : notification) : keeps (deliver n).
Proof.
  destruct n; cbn [deliver].
  - exact (keeps_safe_execute _ (keeps_on_llm_start _ _ _ _ _ _)).
  - exact (keeps_safe_execute _ (quiet_keeps _ (quiet_on_llm_end _ _ _))).
  - exact (keeps_safe_execute _ (quiet_keeps _ (quiet_on_llm_error _ _ _))).
  - exact (keeps_safe_execute _ (keeps_on_chain_start _ _ _ _ _ _)).
  - exact (keeps_safe_execute _ (quiet_keeps _ (quiet_on_chain_end _ _ _))).
  - exact (keeps_safe_execute _ (quiet_keeps _ (quiet_on_chain_error _ _ _))).
  - exact (keeps_safe_execute _
             (quiet_keeps _ (quiet_on_tool_start _ _ _ _ _ _))).
  - exact (keeps_safe_execute _ (quiet_keeps _ (quiet_on_tool_end _ _ _))).
  - exact (keeps_safe_execute _ (quiet_keeps _ (quiet_on_tool_error _ _ _))).
  - exact (keeps_safe_execute _
             (quiet_keeps _ (quiet_on_agent_action _ _ _))).
  - exact (keeps_safe_execute _
             (quiet_keeps _ (quiet_on_agent_finish _ _ _))).
Qed.

Lemma deliver_all_keeps_stack_recorded (ns : list notification)
    (s : ObservabilityCallback) :
  stack_recorded s -> stack_recorded (deliver_all ns s).
Proof.
  revert s. induction ns as [| n ns IH]; intros s Hs; [exact Hs |].
  cbn [deliver_all fold_left]. apply IH.
  apply deliver_keeps_stack_recorded, Hs.
Qed.

Lemma init_stack_recorded d w lp lr sid md :
  stack_recorded (init d w lp lr sid md).
Proof.
  intros f Hf. exfalso. revert Hf. unfold init. cbn [context].
  destruct sid as [sid |]; [destruct (bool_decide _) |];
    intros []%elem_of_nil.
Qed.

Lemma safe_execute_returns (func : M unit) (s : ObservabilityCallback) :
  exists s', _safe_execute func s = (Ok tt, s').
Proof.
  unfold _safe_execute. destruct (func s) as [[[] | e] s1]; eauto.
Qed.

(** ** The handler: starting an operation *)

Lemma get_session_id_eq (c : TraceContext) :
  get_session_id c
  = (Ok (default None (session_id c)),
     set_session (default None (session_id c)) c).
Proof. destruct c as [st [sid |]]; reflexivity. Qed.

Lemma top_recorded (s : ObservabilityCallback) :
  stack_recorded s ->
  references_trace (db s) (top_trace_id (context s)) = true.
Proof.
  intros Hs. unfold top_trace_id.
  destruct (last (frames (context s))) as [f |] eqn:Hl; [| reflexivity].
  cbn. apply bool_decide_eq_true_2, Hs.
  rewrite last_lookup in Hl. eapply list_elem_of_lookup_2, Hl.
Qed.

Lemma get_or_create_eq (r : string) (s : ObservabilityCallback) :
  _get_or_create_trace_id r s = (Ok (run_trace_id r s), remember_run r s).
Proof.
  unfold run_trace_id, remember_run.
  destruct (_run_id_to_trace_id s !! r) as [t |] eqn:H.
  - apply get_or_create_known, H.
  - apply get_or_create_new, H.
Qed.

Lemma started_view (r : string) (s : ObservabilityCallback) :
  frames (context (started r s)) = frames (context s)
  /\ top_trace_id (context (started r s)) = top_trace_id (context s)
  /\ db (started r s) = db s
  /\ printed (started r s) = printed s
  /\ _run_id_to_trace_id (started r s) !! r = Some (run_trace_id r s)
  /\ (forall r', r' <> r ->
                 _run_id_to_trace_id (started r s) !! r'
                 = _run_id_to_trace_id s !! r')
  /\ now (remember_run r s) = now s.
Proof.
  destruct s as [[st sess] d g ids ts lp lr w pr].
  unfold started, remember_run, run_trace_id, top_trace_id, now, next_uuid.
  cbn [context db printed _run_id_to_trace_id world].
  destruct (ids !! r) as [t |] eqn:H;
    cbn [context db printed _run_id_to_trace_id world with_context
           with_start_times with_world with_run_ids draw_uuid time_time
           time_calls default];
    destruct st as [st |]; destruct sess as [sid |];
    (repeat split; try reflexivity; try assumption;
     try apply lookup_insert_eq;
     try (intros r' Hne; apply lookup_insert_ne; congruence)).
Qed.

Lemma resolve_parent_none_eq (s : ObservabilityCallback) :
  resolve_parent None s
  = (Ok (top_trace_id (context s)),
     with_context (fun c => set_stack (frames c) c) s).
Proof.
  unfold resolve_parent, on_context. rewrite get_current_trace_id_eq.
  reflexivity.
Qed.

Lemma on_session_eq (s : ObservabilityCallback) :
  on_context get_session_id s
  = (Ok (current_session (context s)),
     with_context (fun c => set_session (current_session c) c) s).
Proof.
  unfold on_context. rewrite get_session_id_eq. reflexivity.
Qed.

Lemma timestamp_eq (s : ObservabilityCallback) :
  get_current_timestamp s = (Ok (now s), with_world read_clock s).
Proof. reflexivity. Qed.

Lemma modify_eq {S} (f : S -> S) (s : S) : modify f s = (Ok tt, f s).
Proof. reflexivity. Qed.

Lemma gets_eq {S A} (f : S -> A) (s : S) : gets f s = (Ok (f s), s).
Proof. reflexivity. Qed.

Lemma lift_ok_eq {S A} (r : res A) (a : A) (s : S) :
  r = Ok a -> lift r s = (Ok a, s).
Proof. intros ->. reflexivity. Qed.

(** Run the next statement of a body whose outcome is known. *)
Ltac run_statement :=
  first
    [ rewrite (bind_ok _ _ _ _ _ (get_or_create_eq _ _))
    | rewrite (bind_ok _ _ _ _ _ (timestamp_eq _))
    | rewrite (bind_ok _ _ _ _ _ (modify_eq _ _))
    | rewrite (bind_ok _ _ _ _ _ (resolve_parent_none_eq _))
    | rewrite (bind_ok _ _ _ _ _ (on_session_eq _))
    | rewrite (bind_ok _ _ _ _ _ (gets_eq _ _))
    | rewrite (bind_ok _ _ _ _ _ (lift_ok_eq (Ok _) _ _ eq_refl)) ].

(** What a start callback without [parent_run_id] does before it writes
    the trace. *)
Lemma llm_start_eq ser prompts r tags md s model :
  name_or_last_id ser = Ok model ->
  let tid := run_trace_id r s in
  let combined := combine_metadata (global_metadata s) md tags in
  _on_llm_start ser prompts r None tags md s
  = (on_db (create_trace tid "llm" ("llm_" ++ model) (now s)
              (current_session (context s)) (top_trace_id (context s))
              combined) ≫= fun _ =>
     on_context (push_trace tid "llm" ("llm_" ++ model) (now s)
                   (Some combined))) (started r s).
Proof.
  intros Hm tid combined. unfold _on_llm_start. rewrite Hm.
  repeat run_statement. subst tid combined.
  unfold started, run_trace_id, remember_run, now, next_uuid.
  destruct s as [c d g ids ts lp lr w pr].
  cbn [_run_id_to_trace_id world].
  destruct (ids !! r); reflexivity.
Qed.

Lemma references_trace_insert d tid row parent :
  references_trace d parent = true ->
  references_trace (set_traces <[tid := row]> d) parent = true.
Proof.
  destruct parent as [p |]; [| reflexivity]. cbn [references_trace].
  rewrite !bool_decide_eq_true. cbn [traces set_traces].
  rewrite lookup_insert. destruct (decide (tid = p)); eauto.
Qed.

Lemma create_trace_eq tid ttype nm t sid parent md
    (s : ObservabilityCallback) :
  on_db (create_trace tid ttype nm t sid parent md) s
  = let row := trace_params tid ttype nm t sid parent md in
    if faults (db s) (executed (db s))
    then (Raise OperationalError, with_db count_statement s)
    else if bool_decide (is_Some (traces (db s) !! tid))
    then (Raise IntegrityError, with_db count_statement s)
    else if references_trace
              (set_traces <[tid := row]> (count_statement (db s))) parent
    then (Ok tid,
          with_db (fun d => set_traces <[tid := row]> (count_statement d)) s)
    else (Raise IntegrityError, with_db count_statement s).
Proof.
  unfold on_db, create_trace, mbind, ST_bind, execute, gets, modify, raise,
    mret, ST_ret. cbv zeta.
  destruct (faults (db s) (executed (db s))); [reflexivity |].
  cbn [id traces count_statement].
  destruct (bool_decide _); [reflexivity |].
  destruct (references_trace _ parent); reflexivity.
Qed.

Lemma create_event_eq tid ty nm t data (s : ObservabilityCallback) :
  on_db (create_event tid ty nm t data) s
  = if faults (db s) (executed (db s))
    then (Raise OperationalError, with_db count_statement s)
    else if references_trace (db s) (Some tid)
    then (Ok tt,
          with_db (fun d => add_event
                              {| e_trace_id := tid; e_event_type := ty;
                                 e_event_name := nm; e_timestamp := t;
                                 e_data := data |}
                              (count_statement d)) s)
    else (Raise IntegrityError, with_db count_statement s).
Proof.
  unfold on_db, create_event, mbind, ST_bind, execute, gets, modify, raise.
  destruct (faults (db s) (executed (db s))); [reflexivity |].
  cbn [id].
  change (references_trace (count_statement (db s)) (Some tid))
    with (references_trace (db s) (Some tid)).
  destruct (references_trace (db s) (Some tid)); reflexivity.
Qed.

Lemma on_push_eq tid ttype nm t md (s : ObservabilityCallback) :
  on_context (push_trace tid ttype nm t md) s
  = (Ok tt,
     with_context
       (fun c => set_stack (frames c ++ [Frame tid ttype nm t (top_trace_id c)
                                           (default ∅ md)]) c) s).
Proof. unfold on_context. rewrite push_trace_eq. reflexivity. Qed.

Lemma started_maps (r : string) (s : ObservabilityCallback) :
  _run_start_times (started r s) !! r = Some (now s)
  /\ time_time (world (started r s)) = time_time (world s)
  /\ time_calls (world (started r s)) = S (time_calls (world s)).
Proof.
  destruct s as [c d g ids ts lp lr w pr].
  unfold started, remember_run, now, next_uuid.
  cbn [_run_id_to_trace_id world].
  destruct (ids !! r);
    cbn [_run_start_times world with_context with_start_times with_world
           with_run_ids read_clock draw_uuid time_time time_calls];
    (split; [apply lookup_insert_eq | split; reflexivity]).
Qed.

(** The handler after a start callback that wrote its trace and pushed
    its frame. *)
Lemma llm_start_recorded ser prompts r tags md s model :
  name_or_last_id ser = Ok model ->
  faults (db s) (executed (db s)) = false ->
  traces (db s) !! run_trace_id r s = None ->
  references_trace (db s) (top_trace_id (context s)) = true ->
  exists s',
    on_llm_start ser prompts r None tags md s = (Ok tt, s')
    /\ printed s' = printed s
    /\ _run_id_to_trace_id s' !! r = Some (run_trace_id r s)
    /\ db s'
       = set_traces
           <[run_trace_id r s :=
               trace_params (run_trace_id r s) "llm" ("llm_" ++ model)
                 (now s) (current_session (context s))
                 (top_trace_id (context s))
                 (combine_metadata (global_metadata s) md tags)]>
           (count_statement (db s))
    /\ frames (context s')
       = frames (context s)
           ++ [Frame (run_trace_id r s) "llm" ("llm_" ++ model) (now s)
                 (top_trace_id (context s))
                 (combine_metadata (global_metadata s) md tags)]
    /\ _run_start_times s' !! r = Some (now s)
    /\ now s' = later s.
Proof.
  intros Hm Hf Hnew Hparent.
  destruct (started_view r s) as (Vf & Vt & Vd & Vp & Vr & _ & _).
  destruct (started_maps r s) as (Vs & Vc & Vn).
  unfold on_llm_start, _safe_execute.
  rewrite (llm_start_eq _ _ _ _ _ _ _ Hm). cbv zeta.
  unfold mbind, ST_bind. rewrite create_trace_eq, Vd. cbv zeta.
  rewrite Hf, Hnew.
  rewrite bool_decide_eq_false_2 by (intros [x Hx]; discriminate).
  rewrite references_trace_insert by exact Hparent.
  rewrite on_push_eq. eexists. split; [reflexivity |].
  cbn [printed _run_id_to_trace_id _run_start_times db context with_context
         with_db].
  rewrite Vp, Vr, Vd, Vs.
  change (frames (set_stack ?l ?c)) with l. rewrite Vf, Vt.
  repeat split; try reflexivity.
  unfold now, later. cbn [world with_context with_db].
  rewrite Vc, Vn. reflexivity.
Qed.

Lemma snoc_neq {A} (l : list A) (x : A) : l ++ [x] <> l.
Proof.
  intros H. apply (f_equal length) in H. rewrite length_app in H.
  simpl in H. lia.
Qed.

Lemma printed_remember_run (r : string) (s : ObservabilityCallback) :
  printed (remember_run r s) = printed s.
Proof.
  unfold remember_run. destruct (_run_id_to_trace_id s !! r); reflexivity.
Qed.

(** A start callback whose descriptor cannot be read reports it. *)
Lemma llm_start_unreadable ser prompts r tags md s e :
  name_or_last_id ser = Raise e ->
  exists s1,
    on_llm_start ser prompts r None tags md s = (Ok tt, print e s1)
    /\ printed s1 = printed s.
Proof.
  intros Hm. unfold on_llm_start, _safe_execute, _on_llm_start. rewrite Hm.
  repeat run_statement.
  rewrite (bind_raise (lift (Raise e)) _ _ e _ eq_refl).
  eexists. split; [reflexivity |].
  cbn [printed with_context with_start_times with_world].
  apply printed_remember_run.
Qed.

(** A report makes the printed lines differ. *)
Lemma reported_differs e X s s' :
  (Ok tt, print e (with_db count_statement X)) = (Ok tt, s') ->
  printed X = printed s -> printed s' <> printed s.
Proof.
  intros [= <-] HX. cbn [printed print with_db]. rewrite HX.
  apply snoc_neq.
Qed.

(** A start callback that printed nothing wrote its trace and pushed its
    frame. *)
Lemma llm_start_silent ser prompts r tags md s s' :
  on_llm_start ser prompts r None tags md s = (Ok tt, s') ->
  printed s' = printed s ->
  exists model,
    name_or_last_id ser = Ok model
    /\ traces (db s')
       = <[run_trace_id r s :=
             trace_params (run_trace_id r s) "llm" ("llm_" ++ model) (now s)
               (current_session (context s)) (top_trace_id (context s))
               (combine_metadata (global_metadata s) md tags)]>
           (traces (db s))
    /\ frames (context s')
       = frames (context s)
           ++ [Frame (run_trace_id r s) "llm" ("llm_" ++ model) (now s)
                 (top_trace_id (context s))
                 (combine_metadata (global_metadata s) md tags)].
Proof.
  intros Heq Hp. revert Heq.
  destruct (name_or_last_id ser) as [model | e] eqn:Hm.
  - destruct (started_view r s) as (Vf & Vt & Vd & Vp & Vr & _ & _).
    unfold on_llm_start, _safe_execute.
    rewrite (llm_start_eq _ _ _ _ _ _ _ Hm). cbv zeta.
    unfold mbind at 1, ST_bind at 1. rewrite create_trace_eq, Vd. cbv zeta.
    destruct (faults (db s) (executed (db s)));
      [intros He; destruct (reported_differs _ _ _ _ He Vp Hp) |].
    destruct (bool_decide _);
      [intros He; destruct (reported_differs _ _ _ _ He Vp Hp) |].
    destruct (references_trace _ _);
      [| intros He; destruct (reported_differs _ _ _ _ He Vp Hp)].
    rewrite on_push_eq. intros [= <-]. exists model.
    split; [reflexivity |].
    cbn [db context with_context with_db traces set_traces count_statement].
    change (frames (set_stack ?l ?c)) with l. rewrite Vd, Vf, Vt.
    split; reflexivity.
  - destruct (llm_start_unreadable _ prompts r tags md s _ Hm)
      as (s1 & Heq & Hp1).
    rewrite Heq. intros [= <-]. cbn [printed print] in Hp.
    rewrite Hp1 in Hp. destruct (snoc_neq _ _ Hp).
Qed.

Lemma chain_start_eq ser inputs r tags md s chain_name :
  name_or_last_id ser = Ok chain_name ->
  let tid := run_trace_id r s in
  let combined := combine_metadata (global_metadata s) md tags in
  _on_chain_start ser inputs r None tags md s
  = (on_db (create_trace tid "chain" ("chain_" ++ chain_name) (now s)
              (current_session (context s)) (top_trace_id (context s))
              combined) ≫= fun _ =>
     on_context (push_trace tid "chain" ("chain_" ++ chain_name) (now s)
                   (Some combined)) ≫= fun _ =>
     gets ENABLE_PROMPT_LOGGING ≫= fun log_prompts =>
     on_db (create_event tid "chain_start" chain_name (now s)
              (event_data (payload log_prompts "inputs" inputs))))
      (started r s).
Proof.
  intros Hm tid combined. unfold _on_chain_start. rewrite Hm.
  repeat run_statement. subst tid combined.
  unfold started, run_trace_id, remember_run, now, next_uuid.
  destruct s as [c d g ids ts lp lr w pr].
  cbn [_run_id_to_trace_id world].
  destruct (ids !! r); reflexivity.
Qed.

Lemma chain_start_unreadable ser inputs r tags md s e :
  name_or_last_id ser = Raise e ->
  exists s1,
    on_chain_start ser inputs r None tags md s = (Ok tt, print e s1)
    /\ printed s1 = printed s.
Proof.
  intros Hm. unfold on_chain_start, _safe_execute, _on_chain_start.
  rewrite Hm. repeat run_statement.
  rewrite (bind_raise (lift (Raise e)) _ _ e _ eq_refl).
  eexists. split; [reflexivity |].
  cbn [printed with_context with_start_times with_world].
  apply printed_remember_run.
Qed.

(** A chain start that printed nothing wrote its trace and pushed its
    frame. *)
Lemma chain_start_silent ser inputs r tags md s s' :
  on_chain_start ser inputs r None tags md s = (Ok tt, s') ->
  printed s' = printed s ->
  exists chain_name,
    name_or_last_id ser = Ok chain_name
    /\ traces (db s')
       = <[run_trace_id r s :=
             trace_params (run_trace_id r s) "chain"
               ("chain_" ++ chain_name) (now s)
               (current_session (context s)) (top_trace_id (context s))
               (combine_metadata (global_metadata s) md tags)]>
           (traces (db s))
    /\ frames (context s')
       = frames (context s)
           ++ [Frame (run_trace_id r s) "chain" ("chain_" ++ chain_name)
                 (now s) (top_trace_id (context s))
                 (combine_metadata (global_metadata s) md tags)].
Proof.
  intros Heq Hp. revert Heq.
  destruct (name_or_last_id ser) as [chain_name | e] eqn:Hm.
  - destruct (started_view r s) as (Vf & Vt & Vd & Vp & Vr & _ & _).
    unfold on_chain_start, _safe_execute.
    rewrite (chain_start_eq _ _ _ _ _ _ _ Hm). cbv zeta.
    unfold mbind at 1, ST_bind at 1. rewrite create_trace_eq, Vd. cbv zeta.
    destruct (faults (db s) (executed (db s)));
      [intros He; destruct (reported_differs _ _ _ _ He Vp Hp) |].
    destruct (bool_decide _);
      [intros He; destruct (reported_differs _ _ _ _ He Vp Hp) |].
    destruct (references_trace _ _);
      [| intros He; destruct (reported_differs _ _ _ _ He Vp Hp)].
    unfold mbind at 1, ST_bind at 1. rewrite on_push_eq.
    unfold mbind at 1, ST_bind at 1. rewrite gets_eq, create_event_eq.
    destruct (faults _ _);
      [intros He; destruct (reported_differs _ _ _ _ He Vp Hp) |].
    destruct (references_trace _ _);
      [| intros He; destruct (reported_differs _ _ _ _ He Vp Hp)].
    intros [= <-]. exists chain_name. split; [reflexivity |].
    cbn [db context with_context with_db traces set_traces add_event
           count_statement].
    change (frames (set_stack ?l ?c)) with l. rewrite Vd, Vf, Vt.
    split; reflexivity.
  - destruct (chain_start_unreadable _ inputs r tags md s _ Hm)
      as (s1 & Heq & Hp1).
    rewrite Heq. intros [= <-]. cbn [printed print] in Hp.
    rewrite Hp1 in Hp. destruct (snoc_neq _ _ Hp).
Qed.

(** ** The handler: ending an LLM call *)

Lemma on_pop_eq (s : ObservabilityCallback) :
  on_context pop_trace s
  = (Ok (last (frames (context s))),
     with_context (fun c => set_stack (removelast (frames c)) c) s).
Proof. unfold on_context. rewrite pop_trace_eq. reflexivity. Qed.

Lemma update_trace_completion_eq tid e t st msg (s : ObservabilityCallback) :
  on_db (update_trace_completion tid e t st msg) s
  = if faults (db s) (executed (db s))
    then (Raise OperationalError, with_db count_statement s)
    else (Ok tt,
          with_db (fun d => set_traces
                              (alter (complete e
                                        (Utils.calculate_duration_ms t e)
                                        st msg) tid)
                              (count_statement d)) s).
Proof.
  unfold on_db, update_trace_completion, mbind, ST_bind, execute, modify.
  destruct (faults (db s) (executed (db s))); reflexivity.
Qed.

Lemma create_llm_call_eq tid m p r i o tot c sp pr
    (s : ObservabilityCallback) :
  on_db (create_llm_call tid m p r i o tot c sp pr) s
  = if faults (db s) (executed (db s))
    then (Raise OperationalError, with_db count_statement s)
    else if bool_decide (tid ∈ l_trace_id <$> llm_calls (db s))
    then (Raise IntegrityError, with_db count_statement s)
    else if references_trace (db s) (Some tid)
    then (Ok tt,
          with_db (fun d => add_llm_call
                              {| l_trace_id := tid; l_model := m;
                                 l_provider := pr; l_prompt := p;
                                 l_system_prompt := sp; l_response := r;
                                 l_input_tokens := i; l_output_tokens := o;
                                 l_total_tokens := tot; l_cost_usd := c |}
                              (count_statement d)) s)
    else (Raise IntegrityError, with_db count_statement s).
Proof.
  unfold on_db, create_llm_call, mbind, ST_bind, execute, gets, modify,
    raise.
  destruct (faults (db s) (executed (db s))); [reflexivity |].
  cbn [id llm_calls count_statement].
  destruct (bool_decide _); [reflexivity |].
  change (references_trace (count_statement (db s)) (Some tid))
    with (references_trace (db s) (Some tid)).
  destruct (references_trace (db s) (Some tid)); reflexivity.
Qed.

Lemma del_run_id_eq (r t : string) (s : ObservabilityCallback) :
  _run_id_to_trace_id s !! r = Some t ->
  del_run_id r s
  = (Ok tt, with_run_ids (fun ids => delete r ids) s).
Proof.
  intros H. unfold del_run_id, mbind, ST_bind, gets, lift, modify,
    dict_delitem. rewrite H. reflexivity.
Qed.

Lemma del_start_time_eq (r : string) (t : float)
    (s : ObservabilityCallback) :
  _run_start_times s !! r = Some t ->
  del_start_time r s
  = (Ok tt, with_start_times (fun ts => delete r ts) s).
Proof.
  intros H. unfold del_start_time, mbind, ST_bind, gets, lift, modify,
    dict_delitem. rewrite H. reflexivity.
Qed.

Lemma run_known (r tid : string) (s : ObservabilityCallback) :
  _run_id_to_trace_id s !! r = Some tid ->
  run_trace_id r s = tid /\ remember_run r s = s.
Proof.
  intros H. unfold run_trace_id, remember_run. rewrite H. split; reflexivity.
Qed.

(** The handler after [on_llm_end] closed a started LLM call: the row is
    completed, the LLM call is written, the correlation is released and
    the top frame is gone. *)
Lemma llm_end_recorded response r p s tid t0 cost :
  _run_id_to_trace_id s !! r = Some tid ->
  _run_start_times s !! r = Some t0 ->
  Config.calculate_cost (llm_model response) (llm_input_tokens response)
    (llm_output_tokens response) = Ok cost ->
  faults (db s) (executed (db s)) = false ->
  faults (db s) (S (executed (db s))) = false ->
  tid ∉ l_trace_id <$> llm_calls (db s) ->
  is_Some (traces (db s) !! tid) ->
  exists s' row,
    on_llm_end response r p s = (Ok tt, s')
    /\ printed s' = printed s
    /\ traces (db s')
       = alter (complete (now s) (Utils.calculate_duration_ms t0 (now s))
                  success None) tid (traces (db s))
    /\ llm_calls (db s') = llm_calls (db s) ++ [row]
    /\ l_trace_id row = tid
    /\ l_model row = llm_model response
    /\ l_input_tokens row = llm_input_tokens response
    /\ l_output_tokens row = llm_output_tokens response
    /\ l_cost_usd row = cost
    /\ _run_id_to_trace_id s' !! r = None
    /\ _run_start_times s' !! r = None
    /\ frames (context s') = removelast (frames (context s)).
Proof.
  intros Hid Hts Hcost Hf1 Hf2 Hnew Hrow.
  destruct (run_known _ _ _ Hid) as [Hrun Hrem].
  unfold on_llm_end, _safe_execute, _on_llm_end.
  rewrite (bind_ok _ _ _ _ _ (get_or_create_eq _ _)), Hrun, Hrem.
  rewrite (bind_ok _ _ _ _ _ (timestamp_eq _)).
  rewrite (bind_ok _ _ _ _ _ (gets_eq _ _)).
  rewrite (bind_ok _ _ _ _ _ (on_pop_eq _)).
  cbv zeta. unfold llm_model, llm_input_tokens, llm_output_tokens in Hcost.
  rewrite Hcost.
  rewrite (bind_ok _ _ _ _ _ (lift_ok_eq (Ok _) _ _ eq_refl)).
  rewrite !(bind_ok _ _ _ _ _ (gets_eq _ _)).
  unfold mbind at 1, ST_bind at 1. rewrite update_trace_completion_eq.
  cbn [db with_context with_world _run_start_times]. rewrite Hf1, Hts.
  cbn [default]. unfold mbind at 1, ST_bind at 1.
  rewrite create_llm_call_eq.
  cbn [db with_db with_context with_world faults executed llm_calls
         set_traces count_statement].
  rewrite Hf2. rewrite bool_decide_eq_false_2 by exact Hnew.
  lazymatch goal with
  | |- context [references_trace ?d (Some tid)] =>
      assert (Href : references_trace d (Some tid) = true)
  end.
  { apply bool_decide_eq_true_2.
    cbn [traces db with_db with_context with_world set_traces
           count_statement].
    rewrite lookup_alter_eq. destruct Hrow as [x ->]. eauto. }
  rewrite Href.
  erewrite bind_ok by (apply (del_run_id_eq r tid); exact Hid).
  erewrite del_start_time_eq by exact Hts.
  eexists _, _. split; [reflexivity |].
  cbn [printed db traces llm_calls add_llm_call context set_traces
         count_statement
         _run_id_to_trace_id _run_start_times with_db with_context
         with_world with_run_ids with_start_times l_trace_id l_model
         l_input_tokens l_output_tokens l_cost_usd].
  change (frames (set_stack ?l ?c)) with l.
  rewrite !lookup_delete_eq. repeat split; reflexivity.
Qed.

(** ** The two properties of the instrumentation *)

(** C1.  [push_trace] appends a frame whose [parent_trace_id] is the
    trace id [get_current_trace_id] returns, that of the frame on top
    of the stack just before, or [None] on an empty stack.  Hence, after
    any sequence of notifications on the path, a start of an LLM call or
    of a chain without [parent_run_id] that is handled without a
    reported failure gives the new trace row, and the new top frame, the
    trace id that was on top of the stack when it started. *)
Theorem parent_is_stack_top :
  (forall (c : TraceContext) tid ttype nm t md,
      (get_current_trace_id c).1 = Ok (top_trace_id c)
      /\ push_trace tid ttype nm t md c
         = (Ok tt,
            set_stack (frames c ++ [Frame tid ttype nm t (top_trace_id c)
                                      (default ∅ md)]) c))
  /\ (forall ns s0 ser prompts r tags md s',
         let s := deliver_all ns s0 in
         on_llm_start ser prompts r None tags md s = (Ok tt, s') ->
         printed s' = printed s ->
         exists row top,
           traces (db s') !! run_trace_id r s = Some row
           /\ t_parent_trace_id row = top_trace_id (context s)
           /\ frames (context s') = frames (context s) ++ [top]
           /\ Context.trace_id top = run_trace_id r s
           /\ parent_trace_id top = top_trace_id (context s))
  /\ (forall ns s0 ser inputs r tags md s',
         let s := deliver_all ns s0 in
         on_chain_start ser inputs r None tags md s = (Ok tt, s') ->
         printed s' = printed s ->
         exists row top,
           traces (db s') !! run_trace_id r s = Some row
           /\ t_parent_trace_id row = top_trace_id (context s)
           /\ frames (context s') = frames (context s) ++ [top]
           /\ Context.trace_id top = run_trace_id r s
           /\ parent_trace_id top = top_trace_id (context s)).
Proof.
  split; [| split].
  - intros c tid ttype nm t md. rewrite get_current_trace_id_eq.
    split; [reflexivity | apply push_trace_eq].
  - intros ns s0 ser prompts r tags md s' s Heq Hp.
    destruct (llm_start_silent _ _ _ _ _ _ _ Heq Hp)
      as (model & Hm & Ht & Hfr).
    eexists _, _. rewrite Ht, lookup_insert_eq.
    split; [reflexivity |]. split; [reflexivity |].
    split; [exact Hfr |]. split; reflexivity.
  - intros ns s0 ser inputs r tags md s' s Heq Hp.
    destruct (chain_start_silent _ _ _ _ _ _ _ Heq Hp)
      as (chain_name & Hm & Ht & Hfr).
    eexists _, _. rewrite Ht, lookup_insert_eq.
    split; [reflexivity |]. split; [reflexivity |].
    split; [exact Hfr |]. split; reflexivity.
Qed.

Lemma parent_is_stack_top_witness :
  let s := deliver_all Scenario.chain_with_one_call
             (Scenario.handler0 Scenario.healthy) in
  top_trace_id (context s) = Some "trace-0"%string
  /\ run_trace_id "run-C" s = "trace-2"%string
  /\ exists s',
      on_llm_start Scenario.ChatGroq [] "run-C" None None None s = (Ok tt, s')
      /\ printed s' = printed s
      /\ exists row top,
          traces (db s') !! run_trace_id "run-C" s = Some row
          /\ t_parent_trace_id row = top_trace_id (context s)
          /\ frames (context s') = frames (context s) ++ [top]
          /\ Context.trace_id top = run_trace_id "run-C" s
          /\ parent_trace_id top = top_trace_id (context s).
Proof.
  intros s. split; [vm_compute; reflexivity |].
  split; [vm_compute; reflexivity |].
  set (s' := (on_llm_start Scenario.ChatGroq [] "run-C" None None None s).2).
  assert (Hs' : on_llm_start Scenario.ChatGroq [] "run-C" None None None s
                = (Ok tt, s')) by (vm_compute; reflexivity).
  assert (Hp : printed s' = printed s) by (vm_compute; reflexivity).
  exists s'. split; [exact Hs' |]. split; [exact Hp |].
  exact (proj1 (proj2 parent_is_stack_top)
           Scenario.chain_with_one_call (Scenario.handler0 Scenario.healthy)
           Scenario.ChatGroq [] "run-C"%string None None s' Hs' Hp).
Defined.



(* ===================================================================== *)
(** * Further properties                                                  *)
(* ===================================================================== *)

(** ** The trace context: composition of its methods *)

Import ContextOps.

Lemma ensure_stack_eq (c : TraceContext) :
  _ensure_stack c = (Ok tt, set_stack (frames c) c).
Proof. destruct c as [[st |] sess]; reflexivity. Qed.

Lemma get_current_trace_eq (c : TraceContext) :
  get_current_trace c = (Ok (last (frames c)), set_stack (frames c) c).
Proof.
  destruct c as [[[| f st] |] sess]; try reflexivity.
  change (frames (Local (Some (f :: st)) sess)) with (f :: st).
  unfold get_current_trace, set_stack. cbn [stack session_id].
  destruct (last_nonempty f st) as [x Hx].
  unfold mbind, ST_bind, _ensure_stack, the_stack, lift. cbn [stack].
  rewrite (index_last _ _ Hx), Hx. reflexivity.
Qed.

Lemma get_parent_trace_id_eq (c : TraceContext) :
  get_parent_trace_id c
  = (Ok (last (frames c) ≫= parent_trace_id), set_stack (frames c) c).
Proof.
  unfold get_parent_trace_id, mbind at 1, ST_bind.
  rewrite get_current_trace_eq. destruct (last (frames c)); reflexivity.
Qed.

Lemma get_stack_depth_eq (c : TraceContext) :
  get_stack_depth c
  = (Ok (Z.of_nat (length (frames c))), set_stack (frames c) c).
Proof. destruct c as [[st |] sess]; reflexivity. Qed.

Lemma set_session_id_eq (sid : string) (c : TraceContext) :
  set_session_id sid c = (Ok tt, set_session (Some sid) c).
Proof. destruct c as [st [s |]]; reflexivity. Qed.

Lemma frames_set_stack (fs : list frame) (c : TraceContext) :
  frames (set_stack fs c) = fs.
Proof. reflexivity. Qed.

(** X1.  A frame that was pushed is the one the next [pop_trace] returns,
    with the trace id that was on top as its parent, and the stack is
    then what it was before the push. *)
Theorem push_then_pop :
  forall (c : TraceContext) tid ttype nm t md,
    (push_trace tid ttype nm t md ≫= fun _ => pop_trace) c
    = (Ok (Some (Frame tid ttype nm t (top_trace_id c) (default ∅ md))),
       set_stack (frames c) c).
Proof.
  intros c tid ttype nm t md. unfold mbind, ST_bind.
  rewrite push_trace_eq, pop_trace_eq, frames_set_stack.
  rewrite last_snoc, removelast_snoc. reflexivity.
Qed.

(** X2.  Right after a push, [get_current_trace_id] returns the pushed
    trace id, [get_current_trace] the pushed frame, [get_parent_trace_id]
    the trace id that was on top before the push, and [get_stack_depth]
    one more than before. *)
Theorem getters_after_push :
  forall (c : TraceContext) tid ttype nm t md,
    let c' := (push_trace tid ttype nm t md c).2 in
    (get_current_trace_id c').1 = Ok (Some tid)
    /\ (get_current_trace c').1
       = Ok (Some (Frame tid ttype nm t (top_trace_id c) (default ∅ md)))
    /\ (get_parent_trace_id c').1 = Ok (top_trace_id c)
    /\ (get_stack_depth c').1 = Ok (Z.of_nat (length (frames c)) + 1).
Proof.
  intros c tid ttype nm t md c'. subst c'. rewrite push_trace_eq.
  cbn [snd].
  rewrite get_current_trace_id_eq, get_current_trace_eq,
    get_parent_trace_id_eq, get_stack_depth_eq.
  unfold top_trace_id at 1. rewrite !frames_set_stack, last_snoc.
  cbn [fst fmap option_fmap option_map mbind option_bind parent_trace_id
         Context.trace_id].
  repeat split; try reflexivity.
  rewrite length_app. cbn [length]. f_equal. lia.
Qed.

(** X3.  No method of [TraceContext] raises, in any state of the
    thread's storage, be it never used, empty or filled: the attribute
    and index accesses are all guarded. *)
Theorem context_never_raises :
  forall (o : operation) (c : TraceContext), (perform o c).1 = Ok tt.
Proof.
  intros o c. destruct o; cbn [perform]; unfold call, mbind, ST_bind.
  - rewrite push_trace_eq. reflexivity.
  - rewrite pop_trace_eq. reflexivity.
  - rewrite get_current_trace_id_eq. reflexivity.
  - rewrite get_current_trace_eq. reflexivity.
  - rewrite get_parent_trace_id_eq. reflexivity.
  - rewrite set_session_id_eq. reflexivity.
  - rewrite get_session_id_eq. reflexivity.
  - reflexivity.
  - rewrite get_stack_depth_eq. reflexivity.
Qed.

Lemma perform_eq (o : operation) (c : TraceContext) :
  (perform o c).2
  = match o with
    | Push tid ttype nm t md =>
        set_stack (frames c ++ [Frame tid ttype nm t (top_trace_id c)
                                  (default ∅ md)]) c
    | Pop => set_stack (removelast (frames c)) c
    | SetSessionId sid => set_session (Some sid) c
    | GetSessionId => set_session (current_session c) c
    | Clear => Local (Some []) (Some None)
    | CurrentTraceId | CurrentTrace | ParentTraceId | StackDepth =>
        set_stack (frames c) c
    end.
Proof.
  destruct o; cbn [perform]; unfold call, mbind, ST_bind.
  - rewrite push_trace_eq. reflexivity.
  - rewrite pop_trace_eq. reflexivity.
  - rewrite get_current_trace_id_eq. reflexivity.
  - rewrite get_current_trace_eq. reflexivity.
  - rewrite get_parent_trace_id_eq. reflexivity.
  - rewrite set_session_id_eq. reflexivity.
  - rewrite get_session_id_eq. reflexivity.
  - reflexivity.
  - rewrite get_stack_depth_eq. reflexivity.
Qed.

(** X4.  The session id and the stack do not interfere: after
    [set_session_id], [get_session_id] returns the id that was set and
    the stack is unchanged; every method other than [set_session_id] and
    [clear] leaves the session id as it is; on a thread that never set
    one, [get_session_id] returns [None]; and after [clear] the stack is
    empty and the session id is [None]. *)
Theorem session_and_stack :
  (forall (sid : string) (c : TraceContext),
      (set_session_id sid ≫= fun _ => get_session_id) c
      = (Ok (Some sid), set_session (Some sid) c)
      /\ frames (set_session_id sid c).2 = frames c)
  /\ (forall (o : operation) (c : TraceContext),
         (forall sid, o <> SetSessionId sid) -> o <> Clear ->
         current_session (perform o c).2 = current_session c)
  /\ (get_session_id fresh).1 = Ok None
  /\ (forall c : TraceContext,
         frames (clear c).2 = []
         /\ current_session (clear c).2 = None
         /\ (get_current_trace_id (clear c).2).1 = Ok None).
Proof.
  split; [| split; [| split]].
  - intros sid c. unfold mbind, ST_bind.
    rewrite set_session_id_eq, get_session_id_eq.
    split; destruct c as [st sess]; reflexivity.
  - intros o c Hset Hclear. rewrite perform_eq.
    destruct o as [| | | | | sid' | | |]; try reflexivity.
    + destruct (Hset sid' eq_refl).
    + destruct (Hclear eq_refl).
  - reflexivity.
  - intros c. repeat split; reflexivity.
Qed.

Lemma session_and_stack_witness :
  current_session
    (perform (Push "t1" "llm" "llm_x" 0 None)
       (set_session_id "my_session_123" fresh).2).2
  = current_session (set_session_id "my_session_123" fresh).2.
Proof.
  apply (proj1 (proj2 session_and_stack)); discriminate.
Defined.

(** The frame a new frame is linked to. *)
Lemma linked_snoc (below : option string) (fs : list frame) (f : frame) :
  linked below (fs ++ [f])
  <-> linked below fs
      /\ parent_trace_id f
         = match last fs with
           | Some g => Some (Context.trace_id g)
           | None => below
           end.
Proof.
  revert below. induction fs as [| g fs IH]; intros below.
  - cbn. tauto.
  - cbn [app linked]. rewrite IH.
    assert (Hl : match last (g :: fs) with
                 | Some x => Some (Context.trace_id x)
                 | None => below
                 end
                 = match last fs with
                   | Some x => Some (Context.trace_id x)
                   | None => Some (Context.trace_id g)
                   end).
    { destruct fs as [| h fs]; [reflexivity |].
      change (last (g :: h :: fs)) with (last (h :: fs)).
      destruct (last_nonempty h fs) as [x ->]. reflexivity. }
    rewrite Hl. tauto.
Qed.

Lemma linked_removelast (below : option string) (fs : list frame) :
  linked below fs -> linked below (removelast fs).
Proof.
  induction fs as [| f fs' _] using rev_ind; [auto |].
  rewrite removelast_snoc, linked_snoc. tauto.
Qed.

Lemma well_linked_perform (o : operation) (c : TraceContext) :
  well_linked c -> well_linked (perform o c).2.
Proof.
  unfold well_linked. intros H. rewrite perform_eq.
  destruct o; try exact H.
  - rewrite frames_set_stack. apply linked_snoc. split; [exact H |].
    cbn [parent_trace_id]. unfold top_trace_id.
    destruct (last (frames c)); reflexivity.
  - rewrite frames_set_stack. apply linked_removelast, H.
  - exact I.
Qed.

Lemma linked_adjacent (below : option string) (fs : list frame) :
  linked below fs ->
  (forall f, fs !! 0%nat = Some f -> parent_trace_id f = below)
  /\ (forall (i : nat) g f,
         fs !! i = Some g -> fs !! S i = Some f ->
         parent_trace_id f = Some (Context.trace_id g)).
Proof.
  revert below. induction fs as [| h fs IH]; intros below H.
  - split; intros; discriminate.
  - destruct H as [Hh Hfs]. destruct (IH _ Hfs) as [IH0 IHS]. split.
    + intros f [= <-]. exact Hh.
    + intros [| i] g f Hg Hf.
      * injection Hg as <-. apply IH0. exact Hf.
      * exact (IHS i g f Hg Hf).
Qed.

(** X5.  Whatever methods are called on a trace context, in whatever
    order, the stack stays a chain: the bottom frame has no parent and
    every other frame has for [parent_trace_id] the trace id of the
    frame just under it. *)
Theorem context_stays_linked :
  forall (os : list operation) (c : TraceContext),
    well_linked c ->
    let fs := frames (perform_all os c) in
    well_linked (perform_all os c)
    /\ (forall f, fs !! 0%nat = Some f -> parent_trace_id f = None)
    /\ (forall (i : nat) g f,
           fs !! i = Some g -> fs !! S i = Some f ->
           parent_trace_id f = Some (Context.trace_id g)).
Proof.
  intros os c H fs. subst fs.
  assert (Hl : well_linked (perform_all os c)).
  { revert c H. induction os as [| o os IH]; intros c H;
      [exact H |].
    cbn [perform_all fold_left]. apply IH, well_linked_perform, H. }
  split; [exact Hl |]. exact (linked_adjacent _ _ Hl).
Qed.

Lemma context_stays_linked_witness :
  let c := perform_all [ Push "t1" "chain" "chain_a" 1 None;
                         Push "t2" "llm" "llm_x" 2 None; Pop;
                         Push "t3" "llm" "llm_y" 3 None ] fresh in
  well_linked c
  /\ (forall f, frames c !! 0%nat = Some f -> parent_trace_id f = None)
  /\ (forall (i : nat) g f,
         frames c !! i = Some g -> frames c !! S i = Some f ->
         parent_trace_id f = Some (Context.trace_id g)).
Proof. intros c. apply context_stays_linked. exact I. Defined.

(** ** Truncation, cost and the analytics on their edges *)

(** X6.  With room for the marker, truncating twice is truncating once:
    a stored prompt that is truncated again to the same maximum does not
    change. *)
Theorem truncate_string_idempotent :
  forall (text : string) (max_length : Z),
    3 <= max_length ->
    Utils.truncate_string (Utils.truncate_string text max_length) max_length
    = Utils.truncate_string text max_length.
Proof.
  intros text max_length H3.
  destruct (truncate_string_fits text max_length H3) as (Hlen & _ & _).
  destruct (truncate_string_fits (Utils.truncate_string text max_length)
              max_length H3) as (_ & Hsame & _).
  apply Hsame. exact Hlen.
Qed.

Lemma truncate_string_idempotent_witness :
  Utils.truncate_string (Utils.truncate_string "abcdef" 4) 4
  = Utils.truncate_string "abcdef" 4.
Proof. apply truncate_string_idempotent. lia. Defined.

(** X7.  A call that used no token costs nothing, whatever the model
    name: the sum of the two products is [0.0] for every price pair of
    the table and for the default pair. *)
Theorem no_tokens_no_cost :
  forall model : string, Config.calculate_cost model 0 0 = Ok 0%float.
Proof.
  intros model. unfold Config.calculate_cost, Config.pricing_for.
  destruct (Config.GROQ_PRICING !! model) as [p |] eqn:H;
    [| vm_compute; reflexivity].
  apply GROQ_PRICING_lookup in H. unfold Config.GROQ_PRICING_items in H.
  repeat (apply elem_of_cons in H as [[= -> ->] | H];
          [vm_compute; reflexivity |]).
  apply elem_of_nil in H. contradiction.
Qed.

(** X8.  Over a single duration every percentile is that duration: so
    are p50, p95 and p99; a rank that is NaN or infinite makes
    [percentile] raise ValueError. *)
Theorem percentile_of_one :
  (forall d : float,
      Latency.get_percentiles [d] = Ok (Latency.Percentiles d d d))
  /\ (forall d p : float,
         Latency.percentile [d] p
         = match Prim2SF p with
           | S754_nan | S754_infinity _ => Raise ValueError
           | S754_zero _ | S754_finite _ _ _ => Ok d
           end).
Proof.
  split; [intros d; vm_compute; reflexivity |].
  intros d p. unfold Latency.percentile.
  change (float_of_int (Z.of_nat (length [d]) - 1)) with (Ok 0%float).
  cbn [mbind res_bind]. unfold int_of_float. rewrite mul_spec.
  change (Prim2SF 0) with (S754_zero false).
  destruct (Prim2SF p) as [sg | sg | | sg m e]; reflexivity.
Qed.

(** X9.  The histogram on its edges: without durations it is empty; it
    is empty as well when the smallest duration is [0.0], whatever the
    number of buckets; and with a smallest duration that is not zero,
    asking for zero buckets raises ZeroDivisionError. *)
Theorem histogram_edges :
  (forall num_buckets : Z,
      Latency.get_latency_distribution [] num_buckets = Ok [])
  /\ (forall (durations : list float) (m : float) (num_buckets : Z),
         Latency.sql_min durations = Some m ->
         float_truthy m = false ->
         Latency.get_latency_distribution durations num_buckets = Ok [])
  /\ (forall (durations : list float) (m : float),
         Latency.sql_min durations = Some m ->
         float_truthy m = true ->
         Latency.get_latency_distribution durations 0
         = Raise ZeroDivisionError).
Proof.
  split; [reflexivity |]. split.
  - intros durations m n Hm Ht. unfold Latency.get_latency_distribution.
    rewrite Hm. destruct durations as [| d ds]; [discriminate |].
    cbn [Latency.sql_max]. rewrite Ht. reflexivity.
  - intros durations m Hm Ht. unfold Latency.get_latency_distribution.
    rewrite Hm. destruct durations as [| d ds]; [discriminate |].
    cbn [Latency.sql_max]. rewrite Ht. reflexivity.
Qed.

Lemma histogram_edges_witness :
  Latency.sql_min [0; 250]%float = Some 0%float
  /\ Latency.get_latency_distribution [0; 250]%float 10 = Ok []
  /\ Latency.sql_min [120; 250]%float = Some 120%float
  /\ Latency.get_latency_distribution [120; 250]%float 0
     = Raise ZeroDivisionError.
Proof.
  destruct histogram_edges as (_ & Hzero & Hdiv).
  assert (H0 : Latency.sql_min [0; 250]%float = Some 0%float)
    by (vm_compute; reflexivity).
  assert (H1 : Latency.sql_min [120; 250]%float = Some 120%float)
    by (vm_compute; reflexivity).
  split; [exact H0 |]. split; [apply (Hzero _ _ 10 H0); reflexivity |].
  split; [exact H1 |]. apply (Hdiv _ _ H1). reflexivity.
Defined.

(** ** The repositories: round trips and failed writes *)

Import Repository.

Lemma create_trace_db_eq tid ttype nm t sid parent md (d : Database) :
  create_trace tid ttype nm t sid parent md d
  = let row := trace_params tid ttype nm t sid parent md in
    if faults d (executed d)
    then (Raise OperationalError, count_statement d)
    else if bool_decide (is_Some (traces d !! tid))
    then (Raise IntegrityError, count_statement d)
    else if references_trace
              (set_traces <[tid := row]> (count_statement d)) parent
    then (Ok tid, set_traces <[tid := row]> (count_statement d))
    else (Raise IntegrityError, count_statement d).
Proof.
  unfold create_trace, mbind, ST_bind, execute, gets, modify, raise, mret,
    ST_ret. cbv zeta.
  destruct (faults d (executed d)); [reflexivity |].
  cbn [id traces count_statement].
  destruct (bool_decide _); [reflexivity |].
  destruct (references_trace _ parent); reflexivity.
Qed.

Lemma update_db_eq tid e t st msg (d : Database) :
  update_trace_completion tid e t st msg d
  = if faults d (executed d)
    then (Raise OperationalError, count_statement d)
    else (Ok tt,
          set_traces (alter (complete e (Utils.calculate_duration_ms t e)
                               st msg) tid) (count_statement d)).
Proof.
  unfold update_trace_completion, mbind, ST_bind, execute, modify.
  destruct (faults d (executed d)); reflexivity.
Qed.

Lemma create_llm_call_db_eq tid m p r i o tot c sp pr (d : Database) :
  create_llm_call tid m p r i o tot c sp pr d
  = if faults d (executed d)
    then (Raise OperationalError, count_statement d)
    else if bool_decide (tid ∈ l_trace_id <$> llm_calls d)
    then (Raise IntegrityError, count_statement d)
    else if references_trace d (Some tid)
    then (Ok tt,
          add_llm_call
            {| l_trace_id := tid; l_model := m; l_provider := pr;
               l_prompt := p; l_system_prompt := sp; l_response := r;
               l_input_tokens := i; l_output_tokens := o;
               l_total_tokens := tot; l_cost_usd := c |}
            (count_statement d))
    else (Raise IntegrityError, count_statement d).
Proof.
  unfold create_llm_call, mbind, ST_bind, execute, gets, modify, raise.
  destruct (faults d (executed d)); [reflexivity |].
  cbn [id llm_calls count_statement].
  destruct (bool_decide _); [reflexivity |].
  change (references_trace (count_statement d) (Some tid))
    with (references_trace d (Some tid)).
  destruct (references_trace d (Some tid)); reflexivity.
Qed.

Lemma create_event_db_eq tid ty nm t data (d : Database) :
  create_event tid ty nm t data d
  = if faults d (executed d)
    then (Raise OperationalError, count_statement d)
    else if references_trace d (Some tid)
    then (Ok tt,
          add_event
            {| e_trace_id := tid; e_event_type := ty; e_event_name := nm;
               e_timestamp := t; e_data := data |} (count_statement d))
    else (Raise IntegrityError, count_statement d).
Proof.
  unfold create_event, mbind, ST_bind, execute, gets, modify, raise.
  destruct (faults d (executed d)); [reflexivity |].
  cbn [id].
  change (references_trace (count_statement d) (Some tid))
    with (references_trace d (Some tid)).
  destruct (references_trace d (Some tid)); reflexivity.
Qed.

Lemma get_trace_eq tid (d : Database) :
  get_trace tid d
  = if faults d (executed d)
    then (Raise OperationalError, count_statement d)
    else (Ok (traces d !! tid), count_statement d).
Proof.
  unfold get_trace, mbind, ST_bind, execute, gets.
  destruct (faults d (executed d)); reflexivity.
Qed.

Lemma get_llm_call_eq tid (d : Database) :
  get_llm_call tid d
  = if faults d (executed d)
    then (Raise OperationalError, count_statement d)
    else (Ok (head (filter (fun r => l_trace_id r = tid) (llm_calls d))),
          count_statement d).
Proof.
  unfold get_llm_call, mbind, ST_bind, execute, gets.
  destruct (faults d (executed d)); reflexivity.
Qed.

(** X10.  A trace that [create_trace] wrote is the one [get_trace] reads
    back: the row has the values given, no end time and the status
    [pending]; and [create_trace] returns the trace id it was given. *)
Theorem create_then_get_trace :
  forall tid ttype nm t sid parent md (d d1 : Database) (x : string),
    create_trace tid ttype nm t sid parent md d = (Ok x, d1) ->
    faults d1 (executed d1) = false ->
    x = tid
    /\ (get_trace tid d1).1
       = Ok (Some (trace_params tid ttype nm t sid parent md))
    /\ t_status (trace_params tid ttype nm t sid parent md) = pending
    /\ t_end_time (trace_params tid ttype nm t sid parent md) = None.
Proof.
  intros tid ttype nm t sid parent md d d1 x Hc Hf.
  rewrite create_trace_db_eq in Hc. cbv zeta in Hc.
  destruct (faults d (executed d)); [discriminate |].
  destruct (bool_decide _); [discriminate |].
  destruct (references_trace _ _); [| discriminate].
  injection Hc as <- <-. split; [reflexivity |].
  rewrite get_trace_eq, Hf. cbn [fst traces set_traces].
  rewrite lookup_insert_eq. repeat split; reflexivity.
Qed.

Lemma create_then_get_trace_witness :
  let d := Scenario.database0 Scenario.healthy in
  let d1 := (create_trace "trace-0" "llm" "llm_ChatGroq" 100 None None ∅
               d).2 in
  (get_trace "trace-0" d1).1
  = Ok (Some (trace_params "trace-0" "llm" "llm_ChatGroq" 100 None None ∅)).
Proof.
  intros d d1.
  refine (proj1 (proj2 (create_then_get_trace "trace-0" "llm" "llm_ChatGroq"
                          100 None None ∅ d d1 "trace-0" _ _))).
  - vm_compute. reflexivity.
  - reflexivity.
Defined.

(** X11.  [update_trace_completion] completes the row of the trace if
    there is one, with the end time, the duration from the start time
    given, the status and the message; an unknown trace id is no error
    and changes no row; and no other row is touched. *)
Theorem update_trace_completion_effect :
  forall tid e t st msg (d : Database),
    faults d (executed d) = false ->
    let d1 := (update_trace_completion tid e t st msg d).2 in
    (update_trace_completion tid e t st msg d).1 = Ok tt
    /\ traces d1 !! tid
       = complete e (Utils.calculate_duration_ms t e) st msg
           <$> traces d !! tid
    /\ (traces d !! tid = None -> traces d1 = traces d)
    /\ (forall t', t' <> tid -> traces d1 !! t' = traces d !! t')
    /\ llm_calls d1 = llm_calls d /\ events d1 = events d.
Proof.
  intros tid e t st msg d Hf d1. subst d1.
  rewrite update_db_eq, Hf. cbn [fst snd traces set_traces count_statement
                                   llm_calls events].
  split; [reflexivity |]. split; [apply lookup_alter_eq |].
  split.
  - intros Hn. apply map_eq. intros k. rewrite lookup_alter.
    destruct (decide (tid = k)) as [<- |]; [| reflexivity].
    rewrite Hn. reflexivity.
  - split; [| split; reflexivity].
    intros t' Hne. apply lookup_alter_ne. congruence.
Qed.

Lemma update_trace_completion_effect_witness :
  let d := (create_trace "trace-0" "llm" "llm_ChatGroq" 100 None None ∅
              (Scenario.database0 Scenario.healthy)).2 in
  (t_status <$>
     traces (update_trace_completion "trace-0" 101 100 success None d).2
       !! "trace-0") = Some success
  /\ traces (update_trace_completion "trace-1" 101 100 success None d).2
     = traces d.
Proof.
  intros d.
  pose proof (update_trace_completion_effect "trace-0" 101 100 success None
                d eq_refl) as H0.
  pose proof (update_trace_completion_effect "trace-1" 101 100 success None
                d eq_refl) as H1.
  cbv zeta in H0, H1.
  destruct H0 as (_ & H0 & _). destruct H1 as (_ & _ & H1 & _).
  split.
  - rewrite H0. vm_compute. reflexivity.
  - apply H1. vm_compute. reflexivity.
Defined.

Lemma filter_none {A} (P : A -> Prop) `{!forall x, Decision (P x)}
    (l : list A) :
  (forall x, x ∈ l -> ~ P x) -> filter P l = [].
Proof.
  induction l as [| a l IH]; intros Hall; [reflexivity |].
  rewrite filter_cons. destruct (decide (P a)) as [Hp | _].
  - exfalso. exact (Hall a (list_elem_of_here a l) Hp).
  - apply IH. intros x Hx. apply Hall. apply list_elem_of_further. exact Hx.
Qed.

(** X12.  An LLM call that [create_llm_call] wrote is the one
    [get_llm_call] reads back for its trace, and a second LLM call for
    the same trace is refused with an integrity error that leaves the
    table as it was. *)
Theorem create_then_get_llm_call :
  forall tid m p r i o tot c sp pr (d d1 : Database),
    create_llm_call tid m p r i o tot c sp pr d = (Ok tt, d1) ->
    faults d1 (executed d1) = false ->
    (get_llm_call tid d1).1
    = Ok (Some {| l_trace_id := tid; l_model := m; l_provider := pr;
                  l_prompt := p; l_system_prompt := sp; l_response := r;
                  l_input_tokens := i; l_output_tokens := o;
                  l_total_tokens := tot; l_cost_usd := c |})
    /\ forall m' p' r' i' o' tot' c' sp' pr',
        (create_llm_call tid m' p' r' i' o' tot' c' sp' pr' d1).1
        = Raise IntegrityError
        /\ llm_calls
             (create_llm_call tid m' p' r' i' o' tot' c' sp' pr' d1).2
           = llm_calls d1.
Proof.
  intros tid m p r i o tot c sp pr d d1 Hc Hf.
  rewrite create_llm_call_db_eq in Hc.
  destruct (faults d (executed d)); [discriminate |].
  destruct (bool_decide (tid ∈ l_trace_id <$> llm_calls d)) eqn:Hin;
    [discriminate |].
  destruct (references_trace d (Some tid)); [| discriminate].
  injection Hc as <-. apply bool_decide_eq_false in Hin.
  split.
  - rewrite get_llm_call_eq, Hf. cbn [fst llm_calls add_llm_call].
    rewrite filter_app, filter_none.
    + cbn [app]. rewrite filter_cons, decide_True by reflexivity.
      reflexivity.
    + intros x Hx Heq. apply Hin. apply list_elem_of_fmap.
      exists x. split; [symmetry; exact Heq | exact Hx].
  - intros m' p' r' i' o' tot' c' sp' pr'.
    rewrite create_llm_call_db_eq, Hf.
    rewrite bool_decide_eq_true_2; [split; reflexivity |].
    cbn [llm_calls add_llm_call]. rewrite fmap_app.
    apply elem_of_app. right. cbn. apply list_elem_of_here.
Qed.

Lemma create_then_get_llm_call_witness :
  let d := (create_trace "trace-0" "llm" "llm_ChatGroq" 100 None None ∅
              (Scenario.database0 Scenario.healthy)).2 in
  let d1 := (create_llm_call "trace-0" "llama-3.1-8b-instant" "hello" "hi"
               3 5 8 0 None "groq" d).2 in
  match (get_llm_call "trace-0" d1).1 with
  | Ok (Some row) => l_response row = "hi"
  | _ => False
  end.
Proof.
  intros d d1.
  rewrite (proj1 (create_then_get_llm_call "trace-0" "llama-3.1-8b-instant"
                    "hello" "hi" 3 5 8 0 None "groq" d d1
                    ltac:(vm_compute; reflexivity) eq_refl)).
  reflexivity.
Defined.

Lemma run_eq (w : write) (d : Database) :
  (let d0 := count_statement d in
   (exists e, run w d = (Raise e, d0))
   \/ (run w d = (Ok tt, d0))
   \/ (exists tid ttype nm t sid parent md,
         w = CreateTrace tid ttype nm t sid parent md
         /\ traces d !! tid = None
         /\ references_trace
              (set_traces
                 <[tid := trace_params tid ttype nm t sid parent md]> d0)
              parent = true
         /\ run w d
            = (Ok tt,
               set_traces
                 <[tid := trace_params tid ttype nm t sid parent md]> d0))
   \/ (exists tid e t st msg,
         w = UpdateTraceCompletion tid e t st msg
         /\ run w d
            = (Ok tt,
               set_traces
                 (alter (complete e (Utils.calculate_duration_ms t e) st msg)
                    tid) d0))
   \/ (exists row,
         (l_trace_id row ∉ l_trace_id <$> llm_calls d)
         /\ is_Some (traces d !! l_trace_id row)
         /\ run w d = (Ok tt, add_llm_call row d0))
   \/ (exists row,
         is_Some (traces d !! e_trace_id row)
         /\ run w d = (Ok tt, add_event row d0))).
Proof.
  cbv zeta. destruct w as [tid ttype nm t sid parent md | tid e t st msg
                          | tid m p r i o tot c sp pr | tid ty nm t data];
    cbn [run].
  - unfold mbind, ST_bind. rewrite create_trace_db_eq. cbv zeta.
    destruct (faults d (executed d)); [left; eexists; reflexivity |].
    destruct (bool_decide (is_Some (traces d !! tid))) eqn:Hk;
      [left; eexists; reflexivity |].
    destruct (references_trace _ parent) eqn:Hp;
      [| left; eexists; reflexivity].
    right; right; left. exists tid, ttype, nm, t, sid, parent, md.
    apply bool_decide_eq_false in Hk.
    split; [reflexivity |].
    split; [apply eq_None_not_Some; exact Hk |].
    split; [exact Hp | reflexivity].
  - rewrite update_db_eq.
    destruct (faults d (executed d)); [left; eexists; reflexivity |].
    right; right; right; left. exists tid, e, t, st, msg.
    split; reflexivity.
  - rewrite create_llm_call_db_eq.
    destruct (faults d (executed d)); [left; eexists; reflexivity |].
    destruct (bool_decide (tid ∈ l_trace_id <$> llm_calls d)) eqn:Hin;
      [left; eexists; reflexivity |].
    destruct (references_trace d (Some tid)) eqn:Hp;
      [| left; eexists; reflexivity].
    right; right; right; right; left.
    exists {| l_trace_id := tid; l_model := m; l_provider := pr;
              l_prompt := p; l_system_prompt := sp; l_response := r;
              l_input_tokens := i; l_output_tokens := o;
              l_total_tokens := tot; l_cost_usd := c |}.
    apply bool_decide_eq_false in Hin.
    cbn [references_trace] in Hp. apply bool_decide_eq_true in Hp.
    split; [exact Hin |]. split; [exact Hp | reflexivity].
  - rewrite create_event_db_eq.
    destruct (faults d (executed d)); [left; eexists; reflexivity |].
    destruct (references_trace d (Some tid)) eqn:Hp;
      [| left; eexists; reflexivity].
    right; right; right; right; right.
    exists {| e_trace_id := tid; e_event_type := ty; e_event_name := nm;
              e_timestamp := t; e_data := data |}.
    cbn [references_trace] in Hp. apply bool_decide_eq_true in Hp.
    split; [exact Hp | reflexivity].
Qed.

(** X13.  A write that raises has changed no table: the statement is
    rolled back, and only the count of statements sent has moved. *)
Theorem failed_write_changes_nothing :
  forall (w : write) (d : Database) (e : exn),
    (run w d).1 = Raise e ->
    traces (run w d).2 = traces d
    /\ llm_calls (run w d).2 = llm_calls d
    /\ events (run w d).2 = events d
    /\ executed (run w d).2 = S (executed d).
Proof.
  intros w d e He.
  destruct (run_eq w d) as [(e' & H) | [H | [H | [H | [H | H]]]]].
  - rewrite H. repeat split; reflexivity.
  - rewrite H in He. discriminate.
  - destruct H as (? & ? & ? & ? & ? & ? & ? & _ & _ & _ & H).
    rewrite H in He. discriminate.
  - destruct H as (? & ? & ? & ? & ? & _ & H). rewrite H in He. discriminate.
  - destruct H as (? & _ & _ & H). rewrite H in He. discriminate.
  - destruct H as (? & _ & H). rewrite H in He. discriminate.
Qed.

Lemma failed_write_changes_nothing_witness :
  let d := Scenario.database0 Scenario.healthy in
  let w := CreateEvent "trace-7" "chain_start" "RunnableSequence" 100 None in
  (run w d).1 = Raise IntegrityError /\ events (run w d).2 = events d.
Proof.
  intros d w. split; [reflexivity |].
  exact (proj1 (proj2 (proj2 (failed_write_changes_nothing w d
                                IntegrityError eq_refl)))).
Defined.

Lemma consistent_count (d : Database) :
  consistent d -> consistent (count_statement d).
Proof. intros H. exact H. Qed.

Lemma references_trace_is_Some (d : Database) (p : option string) :
  references_trace d p = true
  <-> forall t, p = Some t -> is_Some (traces d !! t).
Proof.
  destruct p as [t |]; cbn [references_trace].
  - rewrite bool_decide_eq_true. split.
    + intros H t' [= <-]. exact H.
    + intros H. apply H. reflexivity.
  - split; [intros _ t [=] | reflexivity].
Qed.

(** The writes keep the promises of the schema, whether they succeed or
    not. *)
Lemma run_consistent (w : write) (d : Database) :
  consistent d -> consistent (run w d).2.
Proof.
  intros Hc.
  destruct (run_eq w d) as [(e' & H) | [H | [H | [H | [H | H]]]]].
  - rewrite H. exact Hc.
  - rewrite H. exact Hc.
  - destruct H as (tid & ttype & nm & t & sid & parent & md & _ & Hnew & Hp
                   & H).
    rewrite H. cbn [snd]. destruct Hc as (Ht & Hl & Hn & He).
    split; [| split; [| split]].
    + intros k row. cbn [traces set_traces count_statement].
      rewrite lookup_insert. destruct (decide (tid = k)) as [<- | Hne].
      * intros [= <-]. split; [reflexivity | exact Hp].
      * intros Hk. destruct (Ht k row Hk) as [Hid Href].
        split; [exact Hid |].
        apply (references_trace_insert (count_statement d)). exact Href.
    + intros r Hr. cbn [traces set_traces count_statement].
      apply lookup_insert_is_Some'. right. apply Hl. exact Hr.
    + exact Hn.
    + intros ev Hev. cbn [traces set_traces count_statement].
      apply lookup_insert_is_Some'. right. apply He. exact Hev.
  - destruct H as (tid & e & t & st & msg & _ & H).
    rewrite H. cbn [snd]. destruct Hc as (Ht & Hl & Hn & He).
    split; [| split; [| split]].
    + intros k row. cbn [traces set_traces count_statement].
      rewrite lookup_alter_Some.
      intros [(<- & row0 & Hk & ->) | (_ & Hk)].
      * destruct (Ht tid row0 Hk) as [Hid Href].
        split; [exact Hid |]. cbn [complete t_parent_trace_id].
        apply references_trace_is_Some. intros p Hpar.
        cbn [traces set_traces count_statement].
        apply lookup_alter_is_Some.
        exact (proj1 (references_trace_is_Some d _) Href p Hpar).
      * destruct (Ht k row Hk) as [Hid Href].
        split; [exact Hid |].
        apply references_trace_is_Some. intros p Hpar.
        cbn [traces set_traces count_statement].
        apply lookup_alter_is_Some.
        exact (proj1 (references_trace_is_Some d _) Href p Hpar).
    + intros r Hr. cbn [traces set_traces count_statement].
      apply lookup_alter_is_Some. apply Hl. exact Hr.
    + exact Hn.
    + intros ev Hev. cbn [traces set_traces count_statement].
      apply lookup_alter_is_Some. apply He. exact Hev.
  - destruct H as (row & Hfresh & Hrow & H).
    rewrite H. cbn [snd]. destruct Hc as (Ht & Hl & Hn & He).
    split; [| split; [| split]].
    + exact Ht.
    + intros r. cbn [llm_calls add_llm_call traces count_statement].
      rewrite elem_of_app, list_elem_of_singleton.
      intros [Hr | ->]; [apply Hl; exact Hr | exact Hrow].
    + cbn [llm_calls add_llm_call count_statement]. rewrite fmap_app.
      apply NoDup_app. split; [exact Hn |]. split.
      * intros x Hx Hx'. cbn in Hx'. apply list_elem_of_singleton in Hx'.
        subst x. exact (Hfresh Hx).
      * cbn. apply NoDup_singleton.
    + exact He.
  - destruct H as (row & Hrow & H).
    rewrite H. cbn [snd]. destruct Hc as (Ht & Hl & Hn & He).
    split; [| split; [| split]].
    + exact Ht.
    + exact Hl.
    + exact Hn.
    + intros ev. cbn [events add_event traces count_statement].
      rewrite elem_of_app, list_elem_of_singleton.
      intros [Hr | ->]; [apply He; exact Hr | exact Hrow].
Qed.

Lemma empty_consistent faults0 :
  consistent (Scenario.database0 faults0).
Proof.
  split; [| split; [| split]].
  - intros t row H. cbn in H. rewrite lookup_empty in H. discriminate.
  - intros r H. cbn in H. apply elem_of_nil in H. destruct H.
  - cbn. apply NoDup_nil_2.
  - intros r H. cbn in H. apply elem_of_nil in H. destruct H.
Qed.

Lemma same_creation_refl (r : TraceRow) : same_creation r r.
Proof. repeat split. Qed.

Lemma same_creation_trans (r1 r2 r3 : TraceRow) :
  same_creation r1 r2 -> same_creation r2 r3 -> same_creation r1 r3.
Proof.
  intros (a1 & a2 & a3 & a4 & a5 & a6 & a7) (b1 & b2 & b3 & b4 & b5 & b6 & b7).
  repeat split; congruence.
Qed.

Lemma extends_refl (d : Database) : extends d d.
Proof.
  split; [| split; reflexivity].
  intros t row H. exists row. split; [exact H | apply same_creation_refl].
Qed.

Lemma extends_trans (d1 d2 d3 : Database) :
  extends d1 d2 -> extends d2 d3 -> extends d1 d3.
Proof.
  intros (Ht & Hl & He) (Ht' & Hl' & He').
  split; [| split; etransitivity; eassumption].
  intros t row H. destruct (Ht t row H) as (row' & H' & Hs).
  destruct (Ht' t row' H') as (row'' & H'' & Hs').
  exists row''. split; [exact H'' |].
  exact (same_creation_trans _ _ _ Hs Hs').
Qed.

(** The writes only add rows and complete them. *)
Lemma run_extends (w : write) (d : Database) : extends d (run w d).2.
Proof.
  destruct (run_eq w d) as [(e' & H) | [H | [H | [H | [H | H]]]]].
  - rewrite H. apply (extends_refl d).
  - rewrite H. apply (extends_refl d).
  - destruct H as (tid & ttype & nm & t & sid & parent & md & _ & Hnew & _
                   & H).
    rewrite H. split; [| split; reflexivity].
    intros k row Hk. exists row. split; [| apply same_creation_refl].
    cbn [snd traces set_traces count_statement].
    rewrite lookup_insert_ne; [exact Hk |]. intros ->. congruence.
  - destruct H as (tid & e & t & st & msg & _ & H).
    rewrite H. split; [| split; reflexivity].
    intros k row Hk. cbn [snd traces set_traces count_statement].
    rewrite lookup_alter. destruct (decide (tid = k)) as [<- |].
    + rewrite Hk. eexists. split; [reflexivity |]. repeat split.
    + exists row. split; [exact Hk | apply same_creation_refl].
  - destruct H as (row & _ & _ & H). rewrite H.
    split; [| split; [| reflexivity]].
    + intros k r Hk. exists r. split; [exact Hk | apply same_creation_refl].
    + apply prefix_app_r. reflexivity.
  - destruct H as (row & _ & H). rewrite H.
    split; [| split; [reflexivity |]].
    + intros k r Hk. exists r. split; [exact Hk | apply same_creation_refl].
    + apply prefix_app_r. reflexivity.
Qed.

(** ** What the callbacks touch *)

Import Footprint.

Lemma deliver_body (n : notification) : deliver n = _safe_execute (body n).
Proof. destruct n; reflexivity. Qed.

Lemma deliver_all_snoc (ns : list notification) (n : notification)
    (s : ObservabilityCallback) :
  deliver_all (ns ++ [n]) s = (deliver n (deliver_all ns s)).2.
Proof. unfold deliver_all. rewrite fold_left_app. reflexivity. Qed.

(** What [on_llm_end] stores as prompt and as response fits in the
    maximum of src/config.py. *)
Lemma logged_prompt_fits (flag : bool) (text : string) :
  fits (if flag then Utils.truncate_string text Config.MAX_PROMPT_LENGTH
        else "[logging disabled]"%string) Config.MAX_PROMPT_LENGTH.
Proof.
  destruct flag; [| vm_compute; discriminate].
  apply truncate_string_fits. vm_compute. discriminate.
Qed.

Lemma logged_response_fits (flag : bool) (text : string) :
  fits (if flag then Utils.truncate_string text Config.MAX_RESPONSE_LENGTH
        else "[logging disabled]"%string) Config.MAX_RESPONSE_LENGTH.
Proof.
  destruct flag; [| vm_compute; discriminate].
  apply truncate_string_fits. vm_compute. discriminate.
Qed.

#[local] Hint Resolve logged_prompt_fits logged_response_fits : quiet.

Section Respects.

Variable R : ObservabilityCallback -> ObservabilityCallback -> Prop.

Hypothesis R_refl : forall s, R s s.
Hypothesis R_trans : forall s1 s2 s3, R s1 s2 -> R s2 s3 -> R s1 s3.
Hypothesis R_run_ids : forall f s, R s (with_run_ids f s).
Hypothesis R_start_times : forall f s, R s (with_start_times f s).
Hypothesis R_world : forall f s, R s (with_world f s).
Hypothesis R_stack_read :
  forall s, R s (with_context (fun c => set_stack (frames c) c) s).
Hypothesis R_session_read :
  forall s, R s (with_context (fun c => set_session (current_session c) c) s).
Hypothesis R_push :
  forall tid ttype nm t md,
    respects R (on_context (push_trace tid ttype nm t md)).
Hypothesis R_pop : respects R (on_context pop_trace).
Hypothesis R_create_trace :
  forall tid ttype nm t sid parent md,
    respects R (on_db (create_trace tid ttype nm t sid parent md)).
Hypothesis R_update :
  forall tid e t st msg,
    respects R (on_db (update_trace_completion tid e t st msg)).
Hypothesis R_create_llm_call :
  forall tid m p r i o tot c sp pr,
    fits p Config.MAX_PROMPT_LENGTH ->
    fits r Config.MAX_RESPONSE_LENGTH ->
    respects R (on_db (create_llm_call tid m p r i o tot c sp pr)).
Hypothesis R_create_event :
  forall tid ty nm t data,
    respects R (on_db (create_event tid ty nm t data)).
Hypothesis R_print : forall e s, R s (print e s).

Lemma respects_bind {A B} (m : M A) (k : A -> M B) :
  respects R m -> (forall a, respects R (k a)) -> respects R (m ≫= k).
Proof.
  intros Hm Hk s. specialize (Hm s). unfold mbind, ST_bind.
  destruct (m s) as [[a | e] s1]; cbn [snd] in *; [| exact Hm].
  exact (R_trans _ _ _ Hm (Hk a s1)).
Qed.

Lemma respects_ret {A} (a : A) : respects R (mret a).
Proof. intros s. apply R_refl. Qed.

Lemma respects_gets {A} (f : ObservabilityCallback -> A) :
  respects R (gets f).
Proof. intros s. apply R_refl. Qed.

Lemma respects_lift {A} (r : res A) : respects R (lift r).
Proof. intros s. apply R_refl. Qed.

Lemma respects_pass : respects R pass.
Proof. intros s. apply R_refl. Qed.

Lemma respects_modify_start_times f :
  respects R (modify (with_start_times f)).
Proof. intros s. apply R_start_times. Qed.

Lemma respects_modify_run_ids f : respects R (modify (with_run_ids f)).
Proof. intros s. apply R_run_ids. Qed.

Lemma respects_generate_trace_id : respects R generate_trace_id.
Proof. intros s. apply R_world. Qed.

Lemma respects_get_current_timestamp : respects R get_current_timestamp.
Proof. intros s. apply R_world. Qed.

Lemma respects_get_current_trace_id :
  respects R (on_context get_current_trace_id).
Proof.
  intros s. unfold on_context. rewrite get_current_trace_id_eq.
  apply R_stack_read.
Qed.

Lemma respects_get_session_id : respects R (on_context get_session_id).
Proof. intros s. rewrite on_session_eq. apply R_session_read. Qed.

#[local] Hint Resolve respects_ret respects_gets respects_lift respects_pass
  respects_modify_start_times respects_modify_run_ids
  respects_generate_trace_id respects_get_current_timestamp
  respects_get_current_trace_id respects_get_session_id : quiet.

(** Decompose a body statement by statement. *)
Ltac respects_steps :=
  repeat (cbv beta zeta;
          lazymatch goal with
          | |- respects _ (mbind _ _) => apply respects_bind; [| intros ?]
          | |- respects _ (if ?b then _ else _) => destruct b
          | |- respects _ (match ?x with _ => _ end) => destruct x
          | |- respects _ _ => solve [auto with quiet]
          end).

Lemma respects_get_or_create (r : string) :
  respects R (_get_or_create_trace_id r).
Proof. unfold _get_or_create_trace_id. respects_steps. Qed.

Lemma respects_resolve_parent (p : option string) :
  respects R (resolve_parent p).
Proof.
  destruct p as [p |]; unfold resolve_parent; [| auto with quiet].
  apply respects_bind;
    [apply respects_get_or_create | intros; apply respects_ret].
Qed.

Lemma respects_del_run_id (r : string) : respects R (del_run_id r).
Proof. unfold del_run_id. respects_steps. Qed.

Lemma respects_del_start_time (r : string) : respects R (del_start_time r).
Proof. unfold del_start_time. respects_steps. Qed.

#[local] Hint Resolve respects_get_or_create respects_resolve_parent
  respects_del_run_id respects_del_start_time : quiet.

Lemma respects_cleanup (r : string) : respects R (cleanup r).
Proof. unfold cleanup. respects_steps. Qed.

#[local] Hint Resolve respects_cleanup : quiet.

Lemma respects_on_llm_start ser prompts r p tags md :
  respects R (_on_llm_start ser prompts r p tags md).
Proof. unfold _on_llm_start. respects_steps. Qed.

Lemma respects_on_llm_end resp r p : respects R (_on_llm_end resp r p).
Proof. unfold _on_llm_end. respects_steps. Qed.

Lemma respects_on_llm_error e r p : respects R (_on_llm_error e r p).
Proof. unfold _on_llm_error. respects_steps. Qed.

Lemma respects_on_chain_start ser inputs r p tags md :
  respects R (_on_chain_start ser inputs r p tags md).
Proof. unfold _on_chain_start. respects_steps. Qed.

Lemma respects_on_chain_end o r p : respects R (_on_chain_end o r p).
Proof. unfold _on_chain_end. respects_steps. Qed.

Lemma respects_on_chain_error e r p : respects R (_on_chain_error e r p).
Proof. unfold _on_chain_error. respects_steps. Qed.

Lemma respects_on_tool_start ser i r p tags md :
  respects R (_on_tool_start ser i r p tags md).
Proof. unfold _on_tool_start. respects_steps. Qed.

Lemma respects_on_tool_end o r p : respects R (_on_tool_end o r p).
Proof. unfold _on_tool_end. respects_steps. Qed.

Lemma respects_on_tool_error e r p : respects R (_on_tool_error e r p).
Proof. unfold _on_tool_error. respects_steps. Qed.

Lemma respects_on_agent_action a r p : respects R (_on_agent_action a r p).
Proof. unfold _on_agent_action. respects_steps. Qed.

Lemma respects_on_agent_finish f r p : respects R (_on_agent_finish f r p).
Proof. unfold _on_agent_finish. respects_steps. Qed.

Lemma respects_safe_execute (func : M unit) :
  respects R func -> respects R (_safe_execute func).
Proof.
  intros H s. specialize (H s). unfold _safe_execute.
  destruct (func s) as [[[] | e] s1]; cbn [snd] in *; [exact H |].
  exact (R_trans _ _ _ H (R_print e s1)).
Qed.

(** Every body. *)
Lemma respects_body (n : notification) : respects R (body n).
Proof.
  destruct n; cbn [body].
  - apply respects_on_llm_start.
  - apply respects_on_llm_end.
  - apply respects_on_llm_error.
  - apply respects_on_chain_start.
  - apply respects_on_chain_end.
  - apply respects_on_chain_error.
  - apply respects_on_tool_start.
  - apply respects_on_tool_end.
  - apply respects_on_tool_error.
  - apply respects_on_agent_action.
  - apply respects_on_agent_finish.
Qed.

(** The bodies of the tool and agent callbacks. *)
Lemma respects_body_off_stack (n : notification) :
  family_of n = Tool \/ family_of n = Agent -> respects R (body n).
Proof.
  intros Hn.
  destruct n; cbn [body family_of] in *;
    try (destruct Hn; discriminate).
  - apply respects_on_tool_start.
  - apply respects_on_tool_end.
  - apply respects_on_tool_error.
  - apply respects_on_agent_action.
  - apply respects_on_agent_finish.
Qed.

(** The bodies of the agent callbacks. *)
Lemma respects_body_agent (n : notification) :
  family_of n = Agent -> respects R (body n).
Proof.
  intros Hn. destruct n; cbn [body family_of] in *; try discriminate.
  - apply respects_on_agent_action.
  - apply respects_on_agent_finish.
Qed.

(** Every body but the one of [on_llm_end]. *)
Lemma respects_body_but_llm_end (n : notification) :
  ~ (family_of n = LLM /\ phase_of n = End) -> respects R (body n).
Proof.
  intros Hn.
  destruct n; cbn [body family_of phase_of] in *.
  - apply respects_on_llm_start.
  - exfalso. apply Hn. split; reflexivity.
  - apply respects_on_llm_error.
  - apply respects_on_chain_start.
  - apply respects_on_chain_end.
  - apply respects_on_chain_error.
  - apply respects_on_tool_start.
  - apply respects_on_tool_end.
  - apply respects_on_tool_error.
  - apply respects_on_agent_action.
  - apply respects_on_agent_finish.
Qed.

(** Every body but those of the start callbacks. *)
Lemma respects_body_but_start (n : notification) :
  phase_of n <> Start -> respects R (body n).
Proof.
  intros Hn.
  destruct n; cbn [body phase_of] in *; try (exfalso; apply Hn; reflexivity).
  - apply respects_on_llm_end.
  - apply respects_on_llm_error.
  - apply respects_on_chain_end.
  - apply respects_on_chain_error.
  - apply respects_on_tool_end.
  - apply respects_on_tool_error.
  - apply respects_on_agent_action.
  - apply respects_on_agent_finish.
Qed.

Lemma respects_deliver_all (ns : list notification)
    (s : ObservabilityCallback) :
  R s (deliver_all ns s).
Proof.
  induction ns as [| n ns IH] using rev_ind; [apply R_refl |].
  rewrite deliver_all_snoc. apply (R_trans _ _ _ IH).
  rewrite deliver_body.
  apply respects_safe_execute. apply respects_body.
Qed.

End Respects.

Lemma tables_on_db (Q : Database -> Database -> Prop) {A}
    (op : ST Database A) :
  (forall d, Q d (op d).2) -> respects (on_tables Q) (on_db op).
Proof.
  intros H s. unfold on_db, on_tables. specialize (H (db s)).
  destruct (op (db s)). exact H.
Qed.

Lemma tables_on_context (Q : Database -> Database -> Prop) {A}
    (op : ST TraceContext A) :
  (forall d, Q d d) -> respects (on_tables Q) (on_context op).
Proof.
  intros H s. unfold on_context, on_tables.
  destruct (op (context s)). apply H.
Qed.

Lemma path_on_db (Q : TraceContext -> TraceContext -> Prop) {A}
    (op : ST Database A) :
  (forall c, Q c c) -> respects (on_path Q) (on_db op).
Proof.
  intros H s. unfold on_db, on_path. destruct (op (db s)). apply H.
Qed.

Lemma path_on_context (Q : TraceContext -> TraceContext -> Prop) {A}
    (op : ST TraceContext A) :
  (forall c, Q c (op c).2) -> respects (on_path Q) (on_context op).
Proof.
  intros H s. unfold on_context, on_path. specialize (H (context s)).
  destruct (op (context s)). exact H.
Qed.

Lemma run_create_trace tid ttype nm t sid parent md (d : Database) :
  (create_trace tid ttype nm t sid parent md d).2
  = (run (CreateTrace tid ttype nm t sid parent md) d).2.
Proof.
  cbn [run]. unfold mbind, ST_bind.
  destruct (create_trace tid ttype nm t sid parent md d) as [[x | e] d'];
    reflexivity.
Qed.

(** A relation on the tables that every write respects holds from the
    database before to the database after any notifications. *)
Lemma tables_deliver_all (Q : Database -> Database -> Prop) :
  (forall d, Q d d) ->
  (forall d1 d2 d3, Q d1 d2 -> Q d2 d3 -> Q d1 d3) ->
  (forall w d, Q d (run w d).2) ->
  forall ns s, Q (db s) (db (deliver_all ns s)).
Proof.
  intros Hrefl Htrans Hrun ns s.
  apply (respects_deliver_all (on_tables Q)).
  - intros s0. apply Hrefl.
  - intros s1 s2 s3. apply Htrans.
  - intros f s0. apply Hrefl.
  - intros f s0. apply Hrefl.
  - intros f s0. apply Hrefl.
  - intros s0. apply Hrefl.
  - intros s0. apply Hrefl.
  - intros tid ttype nm t md. apply tables_on_context. exact Hrefl.
  - apply tables_on_context. exact Hrefl.
  - intros tid ttype nm t sid parent md. apply tables_on_db. intros d.
    rewrite run_create_trace. apply Hrun.
  - intros tid e t st msg. apply tables_on_db. intros d.
    apply (Hrun (UpdateTraceCompletion tid e t st msg)).
  - intros tid m p r i o tot c sp pr _ _. apply tables_on_db. intros d.
    apply (Hrun (CreateLLMCall tid m p r i o tot c sp pr)).
  - intros tid ty nm t data. apply tables_on_db. intros d.
    apply (Hrun (CreateEvent tid ty nm t data)).
  - intros e s0. apply Hrefl.
Qed.

(** X14.  Whatever notifications arrive and whatever fails while they
    are handled, the database keeps the promises of its schema: every
    row of [traces] is stored under its own id and its parent is a row,
    every LLM call and every event belongs to a row, and no trace has
    two LLM calls. *)
Theorem callbacks_keep_database_consistent :
  forall (ns : list notification) (s : ObservabilityCallback),
    consistent (db s) -> consistent (db (deliver_all ns s)).
Proof.
  intros ns s.
  apply (tables_deliver_all (fun d d' => consistent d -> consistent d')).
  - intros d H. exact H.
  - intros d1 d2 d3 H12 H23 H. exact (H23 (H12 H)).
  - intros w d. apply run_consistent.
Qed.

Lemma callbacks_keep_database_consistent_witness :
  consistent
    (db (deliver_all Scenario.chain_with_one_call
           (Scenario.handler0 Scenario.first_statement_fails))).
Proof.
  apply callbacks_keep_database_consistent. apply empty_consistent.
Defined.

(** X15.  The callbacks only add to the database: after any
    notifications every row of [traces] is still there with the id,
    parent, session, type, name, start time and metadata it was created
    with, and the LLM calls and the events that were there are still the
    first rows of their tables, unchanged. *)
Theorem callbacks_only_add :
  forall (ns : list notification) (s : ObservabilityCallback),
    extends (db s) (db (deliver_all ns s)).
Proof.
  apply (tables_deliver_all extends).
  - exact extends_refl.
  - exact extends_trans.
  - exact run_extends.
Qed.

(** X16.  Whatever notifications arrive, in whatever order, the stack of
    the path stays linked: the bottom frame has no parent and every
    other frame has the frame below it as its parent. *)
Theorem callbacks_keep_stack_linked :
  forall (ns : list notification) (s : ObservabilityCallback),
    well_linked (context s) -> well_linked (context (deliver_all ns s)).
Proof.
  intros ns s.
  apply (respects_deliver_all
           (on_path (fun c c' => well_linked c -> well_linked c'))).
  - intros s0 H. exact H.
  - intros s1 s2 s3 H12 H23 H. exact (H23 (H12 H)).
  - intros f s0 H. exact H.
  - intros f s0 H. exact H.
  - intros f s0 H. exact H.
  - intros s0 H. exact H.
  - intros s0 H. exact H.
  - intros tid ttype nm t md. apply path_on_context. intros c H.
    pose proof (well_linked_perform (Push tid ttype nm t md) c H) as H'.
    rewrite perform_eq in H'. rewrite push_trace_eq. exact H'.
  - apply path_on_context. intros c H.
    pose proof (well_linked_perform Pop c H) as H'.
    rewrite perform_eq in H'. rewrite pop_trace_eq. exact H'.
  - intros tid ttype nm t sid parent md. apply path_on_db. auto.
  - intros tid e t st msg. apply path_on_db. auto.
  - intros tid m p r i o tot c sp pr _ _. apply path_on_db. auto.
  - intros tid ty nm t data. apply path_on_db. auto.
  - intros e s0 H. exact H.
Qed.

Lemma callbacks_keep_stack_linked_witness :
  well_linked
    (context (deliver_all Scenario.chain_with_one_call
                (Scenario.handler0 Scenario.healthy))).
Proof.
  apply callbacks_keep_stack_linked. vm_compute. exact I.
Defined.

Lemma same_settings_refl (s : ObservabilityCallback) : same_settings s s.
Proof. repeat split. Qed.

Lemma same_settings_trans (s1 s2 s3 : ObservabilityCallback) :
  same_settings s1 s2 -> same_settings s2 s3 -> same_settings s1 s3.
Proof.
  intros (a1 & a2 & a3 & a4) (b1 & b2 & b3 & b4).
  repeat split; congruence.
Qed.

Lemma same_settings_on_db {A} (op : ST Database A) :
  respects same_settings (on_db op).
Proof.
  intros s. unfold on_db. destruct (op (db s)). repeat split.
Qed.

(** X17.  No callback changes what the handler was configured with: the
    session id of the path, the global metadata and the two logging
    flags are after any notifications what they were before. *)
Theorem callbacks_keep_settings :
  forall (ns : list notification) (s : ObservabilityCallback),
    current_session (context (deliver_all ns s))
    = current_session (context s)
    /\ global_metadata (deliver_all ns s) = global_metadata s
    /\ ENABLE_PROMPT_LOGGING (deliver_all ns s) = ENABLE_PROMPT_LOGGING s
    /\ ENABLE_RESPONSE_LOGGING (deliver_all ns s)
       = ENABLE_RESPONSE_LOGGING s.
Proof.
  intros ns s.
  apply (respects_deliver_all same_settings).
  - exact same_settings_refl.
  - exact same_settings_trans.
  - intros f s0. repeat split.
  - intros f s0. repeat split.
  - intros f s0. repeat split.
  - intros s0. repeat split.
  - intros s0. repeat split.
  - intros tid ttype nm t md s0. rewrite on_push_eq. repeat split.
  - intros s0. rewrite on_pop_eq. repeat split.
  - intros tid ttype nm t sid parent md. apply same_settings_on_db.
  - intros tid e t st msg. apply same_settings_on_db.
  - intros tid m p r i o tot c sp pr _ _. apply same_settings_on_db.
  - intros tid ty nm t data. apply same_settings_on_db.
  - intros e s0. repeat split.
Qed.

Lemma printed_on_db {A} (op : ST Database A) :
  respects (fun s s' => printed s' = printed s) (on_db op).
Proof. intros s. unfold on_db. destruct (op (db s)). reflexivity. Qed.

Lemma printed_on_context {A} (op : ST TraceContext A) :
  respects (fun s s' => printed s' = printed s) (on_context op).
Proof. intros s. unfold on_context. destruct (op (context s)). reflexivity. Qed.

(** X18.  An entry point prints at most one report, after the reports
    already printed, and it prints one exactly when its body raised: the
    report is the exception the body raised. *)
Theorem one_report_per_callback :
  forall (n : notification) (s : ObservabilityCallback),
    printed (deliver n s).2
    = match (body n s).1 with
      | Ok _ => printed s
      | Raise e => printed s ++ [e]
      end.
Proof.
  intros n s.
  assert (H : printed (body n s).2 = printed s).
  { apply (respects_body (fun s s' => printed s' = printed s)).
    - reflexivity.
    - intros s1 s2 s3 H12 H23. congruence.
    - reflexivity.
    - reflexivity.
    - reflexivity.
    - reflexivity.
    - reflexivity.
    - intros tid ttype nm t md. apply printed_on_context.
    - apply printed_on_context.
    - intros tid ttype nm t sid parent md. apply printed_on_db.
    - intros tid e t st msg. apply printed_on_db.
    - intros tid m p r i o tot c sp pr _ _. apply printed_on_db.
    - intros tid ty nm t data. apply printed_on_db. }
  rewrite deliver_body. unfold _safe_execute.
  destruct (body n s) as [[[] | e] s1]; cbn [fst snd printed print] in *;
    rewrite H; reflexivity.
Qed.

Lemma frames_on_db {A} (op : ST Database A) :
  respects (on_path (fun c c' => frames c' = frames c)) (on_db op).
Proof. apply path_on_db. reflexivity. Qed.

(** X19.  The tool and agent callbacks never push or pop: whatever they
    are given and whatever fails, the frames of the stack are after the
    callback what they were before. *)
Theorem tool_and_agent_leave_stack :
  forall (n : notification) (s : ObservabilityCallback),
    family_of n = Tool \/ family_of n = Agent ->
    frames (context (deliver n s).2) = frames (context s).
Proof.
  intros n s Hn. rewrite deliver_body.
  apply (respects_safe_execute
           (on_path (fun c c' => frames c' = frames c))).
  - intros s1 s2 s3. unfold on_path. congruence.
  - reflexivity.
  - apply respects_body_off_stack; try exact Hn.
    + reflexivity.
    + intros s1 s2 s3. unfold on_path. congruence.
    + reflexivity.
    + reflexivity.
    + reflexivity.
    + reflexivity.
    + reflexivity.
    + intros tid ttype nm t sid parent md. apply frames_on_db.
    + intros tid e t st msg. apply frames_on_db.
    + intros tid ty nm t data. apply frames_on_db.
Qed.

Lemma tool_and_agent_leave_stack_witness :
  let s := deliver_all
             [ChainStart Scenario.RunnableSequence PNone "run-A" None None
                None]
             (Scenario.handler0 Scenario.healthy) in
  frames (context (deliver (ToolEnd "4" "run-T" None) s).2)
  = frames (context s).
Proof.
  intros s. apply tool_and_agent_leave_stack. left. reflexivity.
Defined.

Lemma create_trace_other_tables tid ttype nm t sid parent md (d : Database) :
  llm_calls (create_trace tid ttype nm t sid parent md d).2 = llm_calls d
  /\ events (create_trace tid ttype nm t sid parent md d).2 = events d.
Proof.
  rewrite create_trace_db_eq. cbv zeta.
  destruct (faults d (executed d)); [split; reflexivity |].
  destruct (bool_decide _); [split; reflexivity |].
  destruct (references_trace _ _); split; reflexivity.
Qed.

Lemma update_other_tables tid e t st msg (d : Database) :
  llm_calls (update_trace_completion tid e t st msg d).2 = llm_calls d
  /\ events (update_trace_completion tid e t st msg d).2 = events d
  /\ forall u, is_Some (traces (update_trace_completion tid e t st msg d).2
                          !! u)
               <-> is_Some (traces d !! u).
Proof.
  rewrite update_db_eq.
  destruct (faults d (executed d)); [repeat split; auto |].
  split; [reflexivity |]. split; [reflexivity |].
  intros u. apply lookup_alter_is_Some.
Qed.

Lemma create_llm_call_other_tables tid m p r i o tot c sp pr (d : Database) :
  traces (create_llm_call tid m p r i o tot c sp pr d).2 = traces d
  /\ events (create_llm_call tid m p r i o tot c sp pr d).2 = events d.
Proof.
  rewrite create_llm_call_db_eq.
  destruct (faults d (executed d)); [split; reflexivity |].
  destruct (bool_decide _); [split; reflexivity |].
  destruct (references_trace _ _); split; reflexivity.
Qed.

Lemma create_event_other_tables tid ty nm t data (d : Database) :
  traces (create_event tid ty nm t data d).2 = traces d
  /\ llm_calls (create_event tid ty nm t data d).2 = llm_calls d
  /\ events d `prefix_of` events (create_event tid ty nm t data d).2.
Proof.
  rewrite create_event_db_eq.
  destruct (faults d (executed d)); [repeat split; reflexivity |].
  destruct (references_trace _ _); [| repeat split; reflexivity].
  split; [reflexivity |]. split; [reflexivity |].
  apply prefix_app_r. reflexivity.
Qed.

(** X20.  Only [on_llm_end] writes to [llm_calls]: after any other
    callback, whatever it was given and whatever failed, the table is
    what it was. *)
Theorem only_llm_end_writes_llm_calls :
  forall (n : notification) (s : ObservabilityCallback),
    ~ (family_of n = LLM /\ phase_of n = End) ->
    llm_calls (db (deliver n s).2) = llm_calls (db s).
Proof.
  intros n s Hn. rewrite deliver_body.
  apply (respects_safe_execute
           (on_tables (fun d d' => llm_calls d' = llm_calls d))).
  - intros s1 s2 s3. unfold on_tables. congruence.
  - reflexivity.
  - apply respects_body_but_llm_end; try exact Hn.
    + reflexivity.
    + intros s1 s2 s3. unfold on_tables. congruence.
    + reflexivity.
    + reflexivity.
    + reflexivity.
    + reflexivity.
    + reflexivity.
    + intros tid ttype nm t md. apply tables_on_context. reflexivity.
    + apply tables_on_context. reflexivity.
    + intros tid ttype nm t sid parent md. apply tables_on_db. intros d.
      apply create_trace_other_tables.
    + intros tid e t st msg. apply tables_on_db. intros d.
      apply update_other_tables.
    + intros tid ty nm t data. apply tables_on_db. intros d.
      apply create_event_other_tables.
Qed.

Lemma only_llm_end_writes_llm_calls_witness :
  let s := Scenario.handler0 Scenario.healthy in
  llm_calls
    (db (deliver (LLMStart Scenario.ChatGroq ["What is observability?"]
                    "run-B" None None None) s).2)
  = llm_calls (db s).
Proof.
  intros s. apply only_llm_end_writes_llm_calls.
  intros [_ H]. discriminate H.
Defined.

(** X21.  Only the start callbacks create rows of [traces], and nothing
    deletes one: after an end, error or agent callback the table has a
    row for exactly the trace ids it had a row for. *)
Theorem only_starts_create_traces :
  forall (n : notification) (s : ObservabilityCallback),
    phase_of n <> Start ->
    forall t, is_Some (traces (db (deliver n s).2) !! t)
              <-> is_Some (traces (db s) !! t).
Proof.
  intros n s Hn. rewrite deliver_body.
  apply (respects_safe_execute
           (on_tables (fun d d' => forall t, is_Some (traces d' !! t)
                                             <-> is_Some (traces d !! t)))).
  - intros s1 s2 s3 H12 H23 t. rewrite (H23 t). apply H12.
  - intros e s0 t. reflexivity.
  - apply respects_body_but_start; try exact Hn.
    + intros s0 t. reflexivity.
    + intros s1 s2 s3 H12 H23 t. rewrite (H23 t). apply H12.
    + intros f s0 t. reflexivity.
    + intros f s0 t. reflexivity.
    + intros f s0 t. reflexivity.
    + intros s0 t. reflexivity.
    + apply tables_on_context. intros d t. reflexivity.
    + intros tid e t st msg. apply tables_on_db. intros d.
      apply update_other_tables.
    + intros tid m p r i o tot c sp pr _ _. apply tables_on_db. intros d u.
      rewrite (proj1 (create_llm_call_other_tables tid m p r i o tot c sp pr
                        d)).
      reflexivity.
    + intros tid ty nm t data. apply tables_on_db. intros d u.
      rewrite (proj1 (create_event_other_tables tid ty nm t data d)).
      reflexivity.
Qed.

Lemma only_starts_create_traces_witness :
  let s := Scenario.handler0 Scenario.healthy in
  is_Some (traces (db (deliver (LLMEnd Scenario.answer "run-B" None) s).2)
             !! "trace-0")
  <-> is_Some (traces (db s) !! "trace-0").
Proof.
  intros s. apply only_starts_create_traces. discriminate.
Defined.

Lemma adds_events_only_trans (s1 s2 s3 : ObservabilityCallback) :
  adds_events_only s1 s2 -> adds_events_only s2 s3 -> adds_events_only s1 s3.
Proof.
  intros (a1 & a2 & a3 & a4 & a5) (b1 & b2 & b3 & b4 & b5).
  split; [congruence |]. split; [congruence |].
  split; [etransitivity; eassumption |].
  split; congruence.
Qed.

(** X22.  An agent callback writes nothing but events: whatever it is
    given and whatever fails, the rows of [traces] and of [llm_calls],
    the frames of the stack and the recorded start times are what they
    were, and the events that were there are still the first events. *)
Theorem agent_callbacks_add_events_only :
  forall (n : notification) (s : ObservabilityCallback),
    family_of n = Agent ->
    traces (db (deliver n s).2) = traces (db s)
    /\ llm_calls (db (deliver n s).2) = llm_calls (db s)
    /\ events (db s) `prefix_of` events (db (deliver n s).2)
    /\ frames (context (deliver n s).2) = frames (context s)
    /\ _run_start_times (deliver n s).2 = _run_start_times s.
Proof.
  intros n s Hn. rewrite deliver_body.
  apply (respects_safe_execute adds_events_only).
  - exact adds_events_only_trans.
  - intros e s0. repeat split; reflexivity.
  - apply respects_body_agent; try exact Hn.
    + intros s0. repeat split; reflexivity.
    + exact adds_events_only_trans.
    + intros f s0. repeat split; reflexivity.
    + intros f s0. repeat split; reflexivity.
    + intros s0. repeat split; reflexivity.
    + intros tid ty nm t data s0. unfold on_db.
      pose proof (create_event_other_tables tid ty nm t data (db s0))
        as (H1 & H2 & H3).
      destruct (create_event tid ty nm t data (db s0)) as [r d'].
      split; [exact H1 |]. split; [exact H2 |]. split; [exact H3 |].
      split; reflexivity.
Qed.

Lemma agent_callbacks_add_events_only_witness :
  let s := Scenario.handler0 Scenario.healthy in
  traces
    (db (deliver (AgentFinished
                    {| return_values := PNone; finish_log := "done" |}
                    "run-G" (Some "run-A")) s).2)
  = traces (db s).
Proof.
  intros s.
  refine (proj1 (agent_callbacks_add_events_only _ s _)). reflexivity.
Defined.

Lemma bounded_texts_kept (d d' : Database) :
  llm_calls d' = llm_calls d -> bounded_texts d -> bounded_texts d'.
Proof. intros H Hb row Hrow. rewrite H in Hrow. exact (Hb row Hrow). Qed.

(** X23.  No prompt and no response is stored above the maximum of
    src/config.py: if the LLM calls of the database hold none, they
    hold none after any notifications, whatever texts the results
    carry. *)
Theorem stored_texts_are_bounded :
  forall (ns : list notification) (s : ObservabilityCallback),
    bounded_texts (db s) -> bounded_texts (db (deliver_all ns s)).
Proof.
  intros ns s.
  apply (respects_deliver_all
           (on_tables (fun d d' => bounded_texts d -> bounded_texts d'))).
  - intros s0 H. exact H.
  - intros s1 s2 s3 H12 H23 H. exact (H23 (H12 H)).
  - intros f s0 H. exact H.
  - intros f s0 H. exact H.
  - intros f s0 H. exact H.
  - intros s0 H. exact H.
  - intros s0 H. exact H.
  - intros tid ttype nm t md. apply tables_on_context. auto.
  - apply tables_on_context. auto.
  - intros tid ttype nm t sid parent md. apply tables_on_db. intros d.
    apply bounded_texts_kept. apply create_trace_other_tables.
  - intros tid e t st msg. apply tables_on_db. intros d.
    apply bounded_texts_kept. apply update_other_tables.
  - intros tid m p r i o tot c sp pr Hp Hr. apply tables_on_db.
    intros d Hb. rewrite create_llm_call_db_eq.
    destruct (faults d (executed d)); [exact Hb |].
    destruct (bool_decide _); [exact Hb |].
    destruct (references_trace _ _); [| exact Hb].
    intros row. cbn [snd llm_calls add_llm_call count_statement].
    rewrite elem_of_app, list_elem_of_singleton.
    intros [Hrow | ->]; [exact (Hb row Hrow) |].
    split; [exact Hp | exact Hr].
  - intros tid ty nm t data. apply tables_on_db. intros d.
    apply bounded_texts_kept. apply create_event_other_tables.
  - intros e s0 H. exact H.
Qed.

Lemma stored_texts_are_bounded_witness :
  bounded_texts
    (db (deliver_all Scenario.chain_with_one_call
           (Scenario.handler0 Scenario.healthy))).
Proof.
  apply stored_texts_are_bounded.
  intros row H. cbn in H. apply elem_of_nil in H. destruct H.
Defined.

(** ** Errors and agent steps *)

Lemma cleanup_eq (r tid : string) (s : ObservabilityCallback) :
  _run_id_to_trace_id s !! r = Some tid ->
  cleanup r s
  = (Ok tt,
     with_start_times (fun ts => delete r ts)
       (with_run_ids (fun ids => delete r ids) s)).
Proof.
  intros Hid. unfold cleanup.
  rewrite (bind_ok _ _ _ _ _ (gets_eq _ _)).
  rewrite bool_decide_eq_true_2 by (rewrite Hid; eauto).
  erewrite bind_ok by (apply (del_run_id_eq r tid); exact Hid).
  rewrite (bind_ok _ _ _ _ _ (gets_eq _ _)).
  cbn [_run_start_times with_run_ids].
  destruct (_run_start_times s !! r) as [t0 |] eqn:Hts.
  - rewrite bool_decide_eq_true_2 by eauto.
    erewrite del_start_time_eq by exact Hts. reflexivity.
  - rewrite bool_decide_eq_false_2 by (intros [x Hx]; discriminate).
    unfold pass, mret, ST_ret. f_equal.
    destruct s as [c d g ids ts lp lr w pr]. unfold with_start_times,
      with_run_ids. cbn in *. f_equal.
    symmetry. apply delete_id. exact Hts.
Qed.

(** X24.  An error of a run that was started is recorded: when the
    statement goes through, [on_llm_error] and [on_chain_error] complete
    the row of the run's trace, if there is one, with the status
    [error], the message, the end time read from the clock and the
    duration since the recorded start (zero if none was recorded); they
    pop the stack, forget the run and print nothing. *)
Theorem error_is_recorded :
  forall (err r : string) (p : option string) (s : ObservabilityCallback)
         (tid : string),
    _run_id_to_trace_id s !! r = Some tid ->
    faults (db s) (executed (db s)) = false ->
    exists s',
      on_llm_error err r p s = (Ok tt, s')
      /\ on_chain_error err r p s = (Ok tt, s')
      /\ printed s' = printed s
      /\ traces (db s')
         = alter (complete (now s)
                    (Utils.calculate_duration_ms
                       (default (now s) (_run_start_times s !! r)) (now s))
                    Storage.error (Some err)) tid (traces (db s))
      /\ llm_calls (db s') = llm_calls (db s)
      /\ events (db s') = events (db s)
      /\ frames (context s') = removelast (frames (context s))
      /\ _run_id_to_trace_id s' !! r = None
      /\ _run_start_times s' !! r = None.
Proof.
  intros err r p s tid Hid Hf.
  destruct (run_known _ _ _ Hid) as [Hrun Hrem].
  eassert (H : on_llm_error err r p s = (Ok tt, _)).
  { unfold on_llm_error, _safe_execute, _on_llm_error.
    rewrite (bind_ok _ _ _ _ _ (get_or_create_eq _ _)), Hrun, Hrem.
    rewrite (bind_ok _ _ _ _ _ (timestamp_eq _)).
    rewrite (bind_ok _ _ _ _ _ (gets_eq _ _)).
    rewrite (bind_ok _ _ _ _ _ (on_pop_eq _)).
    cbv zeta. unfold mbind at 1, ST_bind at 1.
    rewrite update_trace_completion_eq.
    cbn [db with_context with_world _run_start_times]. rewrite Hf.
    erewrite cleanup_eq by exact Hid. reflexivity. }
  eexists. split; [exact H |]. split; [exact H |].
  cbn [printed db traces llm_calls events context set_traces count_statement
         _run_id_to_trace_id _run_start_times with_db with_context
         with_world with_run_ids with_start_times].
  change (frames (set_stack ?l ?c)) with l.
  rewrite !lookup_delete_eq. repeat split; reflexivity.
Qed.

Lemma error_is_recorded_witness :
  let s := deliver_all
             [LLMStart Scenario.ChatGroq ["What is observability?"] "run-B"
                None None None]
             (Scenario.handler0 Scenario.healthy) in
  exists s',
    on_llm_error "rate limit" "run-B" None s = (Ok tt, s')
    /\ (t_status <$> traces (db s') !! next_uuid (Scenario.handler0
                                                   Scenario.healthy))
       = Some Storage.error.
Proof.
  intros s.
  destruct (error_is_recorded "rate limit" "run-B" None s
              (next_uuid (Scenario.handler0 Scenario.healthy)))
    as (s' & H1 & _ & _ & H4 & _).
  - vm_compute. reflexivity.
  - reflexivity.
  - exists s'. split; [exact H1 |]. rewrite H4.
    rewrite lookup_alter_eq. vm_compute. reflexivity.
Defined.

(** X25.  An agent step reported outside any trace, without a parent
    run and with nothing on the stack, is dropped in silence: the
    callbacks return, write nothing, print nothing and do not read the
    clock. *)
Theorem agent_step_outside_any_trace :
  forall (a : AgentAction) (fin : AgentFinish) (r : string)
         (s : ObservabilityCallback),
    frames (context s) = [] ->
    exists s',
      on_agent_action a r None s = (Ok tt, s')
      /\ on_agent_finish fin r None s = (Ok tt, s')
      /\ db s' = db s
      /\ printed s' = printed s
      /\ world s' = world s
      /\ _run_id_to_trace_id s' = _run_id_to_trace_id s
      /\ frames (context s') = [].
Proof.
  intros a fin r s Hempty.
  assert (Htop : top_trace_id (context s) = None).
  { unfold top_trace_id. rewrite Hempty. reflexivity. }
  exists (with_context (fun c => set_stack (frames c) c) s).
  split; [| split].
  - unfold on_agent_action, _safe_execute, _on_agent_action.
    rewrite (bind_ok _ _ _ _ _ (resolve_parent_none_eq _)), Htop.
    reflexivity.
  - unfold on_agent_finish, _safe_execute, _on_agent_finish.
    rewrite (bind_ok _ _ _ _ _ (resolve_parent_none_eq _)), Htop.
    reflexivity.
  - cbn [db printed world _run_id_to_trace_id context with_context].
    change (frames (set_stack ?l ?c)) with l.
    repeat split; try reflexivity. exact Hempty.
Qed.

Lemma agent_step_outside_any_trace_witness :
  let s := Scenario.handler0 Scenario.healthy in
  exists s',
    on_agent_action {| tool := "search"; tool_input := PNone;
                       action_log := "" |} "run-G" None s = (Ok tt, s')
    /\ db s' = db s.
Proof.
  intros s.
  destruct (agent_step_outside_any_trace
              {| tool := "search"; tool_input := PNone; action_log := "" |}
              {| return_values := PNone; finish_log := "" |} "run-G" s
              eq_refl) as (s' & H1 & _ & H3 & _).
  exists s'. split; [exact H1 | exact H3].
Defined.

(** X26.  An agent action reported without a parent run inside an open
    trace becomes one event of the trace on top of the stack: when that
    trace has its row and the statement goes through, the event
    ["agent_action"] with the tool's name and the time read from the
    clock is appended to [events], and nothing is printed; the data of
    the event is empty unless prompts are logged. *)
Theorem agent_action_is_attached_to_top :
  forall (a : AgentAction) (r : string) (s : ObservabilityCallback)
         (top : string),
    top_trace_id (context s) = Some top ->
    top <> ""%string ->
    is_Some (traces (db s) !! top) ->
    faults (db s) (executed (db s)) = false ->
    exists s',
      on_agent_action a r None s = (Ok tt, s')
      /\ printed s' = printed s
      /\ events (db s')
         = events (db s)
             ++ [{| e_trace_id := top; e_event_type := "agent_action";
                    e_event_name := tool a; e_timestamp := now s;
                    e_data :=
                      if ENABLE_PROMPT_LOGGING s
                      then Some (PDict [("tool"%string, PStr (tool a));
                                        ("tool_input"%string, tool_input a);
                                        ("log"%string, PStr (action_log a))])
                      else None |}]
      /\ traces (db s') = traces (db s)
      /\ frames (context s') = frames (context s).
Proof.
  intros a r s top Htop Hne Hrow Hf.
  eassert (H : on_agent_action a r None s = (Ok tt, _)).
  { unfold on_agent_action, _safe_execute, _on_agent_action.
    rewrite (bind_ok _ _ _ _ _ (resolve_parent_none_eq _)), Htop.
    cbn [truthy_id]. rewrite bool_decide_eq_false_2 by exact Hne.
    rewrite (bind_ok _ _ _ _ _ (timestamp_eq _)).
    rewrite (bind_ok _ _ _ _ _ (gets_eq _ _)).
    rewrite create_event_eq.
    cbn [db with_context with_world]. rewrite Hf.
    cbn [references_trace]. rewrite bool_decide_eq_true_2 by exact Hrow.
    reflexivity. }
  eexists. split; [exact H |].
  cbn [printed db events traces add_event count_statement context
         with_db with_context with_world ENABLE_PROMPT_LOGGING].
  change (frames (set_stack ?l ?c)) with l.
  split; [reflexivity |]. split; [| split; reflexivity].
  unfold now. cbn [world with_context].
  destruct (ENABLE_PROMPT_LOGGING s); reflexivity.
Qed.

Lemma agent_action_is_attached_to_top_witness :
  let s := deliver_all
             [ChainStart Scenario.RunnableSequence PNone "run-A" None None
                None]
             (Scenario.handler0 Scenario.healthy) in
  exists s',
    on_agent_action {| tool := "search"; tool_input := PNone;
                       action_log := "" |} "run-G" None s = (Ok tt, s')
    /\ length (events (db s')) = S (length (events (db s))).
Proof.
  intros s.
  destruct (agent_action_is_attached_to_top
              {| tool := "search"; tool_input := PNone; action_log := "" |}
              "run-G" s (next_uuid (Scenario.handler0 Scenario.healthy)))
    as (s' & H1 & _ & H3 & _).
  - vm_compute. reflexivity.
  - vm_compute. discriminate.
  - vm_compute. eauto.
  - reflexivity.
  - exists s'. split; [exact H1 |]. rewrite H3, length_app. cbn. lia.
Defined.

(** X27.  An agent action that names a parent run the handler has not
    seen is lost: the handler makes up a trace id for the parent run and
    keeps it, the event for that trace id is refused because no such
    trace was recorded, and the refusal is printed. *)
Theorem agent_action_for_unknown_parent :
  forall (a : AgentAction) (r p : string) (s : ObservabilityCallback),
    _run_id_to_trace_id s !! p = None ->
    next_uuid s <> ""%string ->
    traces (db s) !! next_uuid s = None ->
    faults (db s) (executed (db s)) = false ->
    exists s',
      on_agent_action a r (Some p) s = (Ok tt, s')
      /\ printed s' = printed s ++ [IntegrityError]
      /\ events (db s') = events (db s)
      /\ traces (db s') = traces (db s)
      /\ _run_id_to_trace_id s' !! p = Some (next_uuid s).
Proof.
  intros a r p s Hid Hne Hrow Hf.
  eassert (H : on_agent_action a r (Some p) s = (Ok tt, _)).
  { unfold on_agent_action, _safe_execute, _on_agent_action, resolve_parent.
    rewrite (bind_ok _ _ _ _ _
               (bind_ok _ _ _ _ _ (get_or_create_eq _ _))).
    unfold run_trace_id, remember_run. rewrite Hid. cbn [default truthy_id].
    rewrite bool_decide_eq_false_2 by exact Hne.
    rewrite (bind_ok _ _ _ _ _ (timestamp_eq _)).
    rewrite (bind_ok _ _ _ _ _ (gets_eq _ _)).
    rewrite create_event_eq.
    cbn [db with_context with_world with_run_ids]. rewrite Hf.
    cbn [references_trace].
    rewrite bool_decide_eq_false_2
      by (rewrite Hrow; intros [x Hx]; discriminate).
    reflexivity. }
  eexists. split; [exact H |].
  cbn [printed print db events traces count_statement _run_id_to_trace_id
         with_db with_context with_world with_run_ids].
  rewrite lookup_insert_eq. repeat split; reflexivity.
Qed.

Lemma agent_action_for_unknown_parent_witness :
  let s := Scenario.handler0 Scenario.healthy in
  exists s',
    on_agent_action {| tool := "search"; tool_input := PNone;
                       action_log := "" |} "run-G" (Some "run-A") s
    = (Ok tt, s')
    /\ printed s' = [IntegrityError].
Proof.
  intros s.
  destruct (agent_action_for_unknown_parent
              {| tool := "search"; tool_input := PNone; action_log := "" |}
              "run-G" "run-A" s) as (s' & H1 & H2 & _).
  - reflexivity.
  - vm_compute. discriminate.
  - reflexivity.
  - reflexivity.
  - exists s'. split; [exact H1 | exact H2].
Defined.

(** X28.  A run that is started a second time is refused by the primary
    key of [traces]: [on_llm_start] prints the integrity error, leaves
    the rows and the stack as they were, and has already replaced the
    recorded start time of the run by the time of the second start. *)
Theorem second_start_is_refused :
  forall ser prompts (r : string) tags md (s : ObservabilityCallback)
         (model tid : string),
    name_or_last_id ser = Ok model ->
    _run_id_to_trace_id s !! r = Some tid ->
    is_Some (traces (db s) !! tid) ->
    faults (db s) (executed (db s)) = false ->
    exists s',
      on_llm_start ser prompts r None tags md s = (Ok tt, s')
      /\ printed s' = printed s ++ [IntegrityError]
      /\ traces (db s') = traces (db s)
      /\ frames (context s') = frames (context s)
      /\ _run_start_times s' !! r = Some (now s).
Proof.
  intros ser prompts r tags md s model tid Hm Hid Hrow Hf.
  destruct (run_known _ _ _ Hid) as [Hrun Hrem].
  destruct (started_view r s) as (Vf & Vt & Vd & Vp & Vr & _ & _).
  destruct (started_maps r s) as (Vs & _ & _).
  eassert (H : on_llm_start ser prompts r None tags md s = (Ok tt, _)).
  { unfold on_llm_start, _safe_execute.
    rewrite (llm_start_eq _ _ _ _ _ _ _ Hm). cbv zeta.
    unfold mbind at 1, ST_bind at 1. rewrite create_trace_eq, Vd. cbv zeta.
    rewrite Hf, Hrun. rewrite bool_decide_eq_true_2 by exact Hrow.
    reflexivity. }
  eexists. split; [exact H |].
  cbn [printed print db traces count_statement context _run_start_times
         with_db].
  rewrite Vp, Vd, Vf, Vs. repeat split; reflexivity.
Qed.

Lemma second_start_is_refused_witness :
  let n := LLMStart Scenario.ChatGroq ["What is observability?"] "run-B"
             None None None in
  let s := deliver_all [n] (Scenario.handler0 Scenario.healthy) in
  exists s',
    deliver n s = (Ok tt, s') /\ printed s' = printed s ++ [IntegrityError].
Proof.
  intros n s.
  destruct (second_start_is_refused Scenario.ChatGroq
              ["What is observability?"] "run-B" None None s "ChatGroq"
              (next_uuid (Scenario.handler0 Scenario.healthy)))
    as (s' & H1 & H2 & _).
  - reflexivity.
  - vm_compute. reflexivity.
  - vm_compute. eauto.
  - reflexivity.
  - exists s'. split; [exact H1 | exact H2].
Defined.

(** X29.  A callback is not one transaction.  When [on_chain_start]
    has written the trace and the statement for its start event then
    fails, the trace row stays written and its frame stays on the stack;
    only the event is missing, and the failure is printed. *)
Theorem chain_start_is_not_atomic :
  forall ser inputs (r : string) tags md (s : ObservabilityCallback)
         (chain_name : string),
    name_or_last_id ser = Ok chain_name ->
    traces (db s) !! run_trace_id r s = None ->
    references_trace (db s) (top_trace_id (context s)) = true ->
    faults (db s) (executed (db s)) = false ->
    faults (db s) (S (executed (db s))) = true ->
    exists s',
      on_chain_start ser inputs r None tags md s = (Ok tt, s')
      /\ printed s' = printed s ++ [OperationalError]
      /\ traces (db s') !! run_trace_id r s
         = Some (trace_params (run_trace_id r s) "chain"
                   ("chain_" ++ chain_name) (now s)
                   (current_session (context s)) (top_trace_id (context s))
                   (combine_metadata (global_metadata s) md tags))
      /\ frames (context s')
         = frames (context s)
             ++ [Frame (run_trace_id r s) "chain" ("chain_" ++ chain_name)
                   (now s) (top_trace_id (context s))
                   (combine_metadata (global_metadata s) md tags)]
      /\ events (db s') = events (db s).
Proof.
  intros ser inputs r tags md s chain_name Hm Hnew Hparent Hf1 Hf2.
  destruct (started_view r s) as (Vf & Vt & Vd & Vp & Vr & _ & _).
  eassert (H : on_chain_start ser inputs r None tags md s = (Ok tt, _)).
  { unfold on_chain_start, _safe_execute.
    rewrite (chain_start_eq _ _ _ _ _ _ _ Hm). cbv zeta.
    unfold mbind at 1, ST_bind at 1. rewrite create_trace_eq, Vd. cbv zeta.
    rewrite Hf1.
    rewrite bool_decide_eq_false_2
      by (rewrite Hnew; intros [x Hx]; discriminate).
    rewrite references_trace_insert by exact Hparent.
    unfold mbind at 1, ST_bind at 1. rewrite on_push_eq.
    unfold mbind at 1, ST_bind at 1. rewrite gets_eq, create_event_eq.
    cbn [db with_db with_context faults executed set_traces
           count_statement].
    rewrite Vd, Hf2. reflexivity. }
  eexists. split; [exact H |].
  cbn [printed print db traces events context set_traces count_statement
         with_db with_context].
  change (frames (set_stack ?l ?c)) with l.
  rewrite Vp, Vd, Vf, Vt, lookup_insert_eq. repeat split; reflexivity.
Qed.

Lemma chain_start_is_not_atomic_witness :
  let s := Scenario.handler0 (fun n => Nat.eqb n 1) in
  exists s',
    on_chain_start Scenario.RunnableSequence PNone "run-A" None None None s
    = (Ok tt, s')
    /\ printed s' = [OperationalError]
    /\ length (frames (context s')) = 1%nat.
Proof.
  intros s.
  destruct (chain_start_is_not_atomic Scenario.RunnableSequence PNone
              "run-A" None None s "RunnableSequence")
    as (s' & H1 & H2 & _ & H4 & _).
  - reflexivity.
  - reflexivity.
  - reflexivity.
  - reflexivity.
  - reflexivity.
  - exists s'. split; [exact H1 |]. split; [exact H2 |].
    rewrite H4. reflexivity.
Defined.

(** ** An operation recorded after earlier failures *)

Import Recording.

Lemma remember_run_view (r : string) (s : ObservabilityCallback) :
  context (remember_run r s) = context s
  /\ db (remember_run r s) = db s
  /\ printed (remember_run r s) = printed s
  /\ global_metadata (remember_run r s) = global_metadata s
  /\ _run_start_times (remember_run r s) = _run_start_times s
  /\ ENABLE_PROMPT_LOGGING (remember_run r s) = ENABLE_PROMPT_LOGGING s
  /\ ENABLE_RESPONSE_LOGGING (remember_run r s) = ENABLE_RESPONSE_LOGGING s
  /\ time_time (world (remember_run r s)) = time_time (world s)
  /\ time_calls (world (remember_run r s)) = time_calls (world s)
  /\ _run_id_to_trace_id (remember_run r s) !! r = Some (run_trace_id r s)
  /\ (forall q t, _run_id_to_trace_id s !! q = Some t ->
                  _run_id_to_trace_id (remember_run r s) !! q = Some t).
Proof.
  unfold remember_run, run_trace_id.
  destruct (_run_id_to_trace_id s !! r) as [t |] eqn:H.
  - repeat split; try reflexivity; [exact H | auto].
  - cbn [context db printed global_metadata _run_start_times
           ENABLE_PROMPT_LOGGING ENABLE_RESPONSE_LOGGING world
           _run_id_to_trace_id with_run_ids with_world draw_uuid time_time
           time_calls default].
    repeat split; try reflexivity; [apply lookup_insert_eq |].
    intros q t Hq. rewrite lookup_insert_ne; [exact Hq |].
    intros ->. congruence.
Qed.

Lemma resolve_parent_eq (p : option string) (s : ObservabilityCallback) :
  (forall q, p = Some q -> is_Some (_run_id_to_trace_id s !! q)) ->
  resolve_parent p s = (Ok (parent_of p s), touched p s).
Proof.
  intros Hp. destruct p as [q |]; [| apply resolve_parent_none_eq].
  destruct (Hp q eq_refl) as [t Ht]. unfold resolve_parent.
  rewrite (bind_ok _ _ _ _ _ (get_or_create_known q t s Ht)).
  cbn [parent_of touched]. rewrite Ht. reflexivity.
Qed.

Lemma ready_view (p : option string) (r : string)
    (s : ObservabilityCallback) :
  db (ready p r s) = db s
  /\ printed (ready p r s) = printed s
  /\ frames (context (ready p r s)) = frames (context s)
  /\ top_trace_id (context (ready p r s)) = top_trace_id (context s)
  /\ _run_id_to_trace_id (ready p r s) !! r = Some (run_trace_id r s)
  /\ _run_start_times (ready p r s) !! r = Some (now s)
  /\ time_time (world (ready p r s)) = time_time (world s)
  /\ time_calls (world (ready p r s)) = S (time_calls (world s))
  /\ ENABLE_PROMPT_LOGGING (ready p r s) = ENABLE_PROMPT_LOGGING s
  /\ ENABLE_RESPONSE_LOGGING (ready p r s) = ENABLE_RESPONSE_LOGGING s.
Proof.
  destruct (remember_run_view r s)
    as (Vc & Vd & Vp & Vg & Vs & Vlp & Vlr & Vt & Vn & Vr & _).
  unfold ready, now. cbv zeta. rewrite Vt, Vn.
  destruct p as [q |]; cbn [touched];
    cbn [db printed context world _run_id_to_trace_id _run_start_times
           ENABLE_PROMPT_LOGGING ENABLE_RESPONSE_LOGGING with_context
           with_start_times with_world read_clock time_time time_calls];
    rewrite Vc, Vd, Vp, Vr, Vt, Vn, Vlp, Vlr, lookup_insert_eq;
    destruct (context s) as [[st |] [sid |]]; repeat split; reflexivity.
Qed.

(** What a start callback does before it writes the trace. *)
Lemma ready_eq (p : option string) (r : string) (s : ObservabilityCallback)
    {A} (name : res string)
    (k : string -> float -> option string -> string -> gmap string pyval ->
         option string -> M A) (nm : string) :
  name = Ok nm ->
  parent_recorded p s ->
  (_get_or_create_trace_id r ≫= fun trace_id =>
   get_current_timestamp ≫= fun start_time =>
   modify (with_start_times <[r := start_time]>) ≫= fun _ =>
   resolve_parent p ≫= fun parent_trace_id =>
   lift name ≫= fun model =>
   gets global_metadata ≫= fun g =>
   on_context get_session_id ≫= fun sid =>
   k trace_id start_time parent_trace_id model g sid) s
  = k (run_trace_id r s) (now s) (parent_of p s) nm (global_metadata s)
      (current_session (context s)) (ready p r s).
Proof.
  intros -> Hp.
  destruct (remember_run_view r s)
    as (Vc & Vd & Vp & Vg & Vs & Vlp & Vlr & Vt & Vn & Vr & Vk).
  rewrite (bind_ok _ _ _ _ _ (get_or_create_eq _ _)).
  rewrite (bind_ok _ _ _ _ _ (timestamp_eq _)).
  rewrite (bind_ok _ _ _ _ _ (modify_eq _ _)).
  assert (Hq : forall q, p = Some q ->
                         is_Some
                           (_run_id_to_trace_id
                              (with_start_times
                                 <[r := now (remember_run r s)]>
                                 (with_world read_clock (remember_run r s)))
                              !! q)).
  { intros q ->. destruct Hp as (t & Ht & _).
    cbn [_run_id_to_trace_id with_start_times with_world].
    rewrite (Vk q t Ht). eauto. }
  rewrite (bind_ok _ _ _ _ _ (resolve_parent_eq p _ Hq)).
  rewrite (bind_ok _ _ _ _ _ (lift_ok_eq (Ok nm) _ _ eq_refl)).
  rewrite (bind_ok _ _ _ _ _ (gets_eq _ _)).
  rewrite (bind_ok _ _ _ _ _ (on_session_eq _)).
  assert (Hnow : now (remember_run r s) = now s)
    by (unfold now; rewrite Vt, Vn; reflexivity).
  unfold ready. cbv zeta. rewrite Hnow.
  f_equal.
  - destruct p as [q |]; cbn [parent_of touched].
    + destruct Hp as (t & Ht & _).
      cbn [_run_id_to_trace_id with_start_times with_world].
      rewrite (Vk q t Ht), Ht. reflexivity.
    + unfold top_trace_id.
      cbn [context with_start_times with_world]. rewrite Vc. reflexivity.
  - destruct p; cbn [touched global_metadata with_context with_start_times
                       with_world]; exact Vg.
  - destruct p; cbn [touched context with_context with_start_times
                       with_world]; rewrite Vc;
      destruct (context s) as [[st |] [sid |]]; reflexivity.
Qed.

Lemma llm_start_ready ser prompts r p tags md s nm :
  name_or_last_id ser = Ok nm ->
  parent_recorded p s ->
  _on_llm_start ser prompts r p tags md s
  = (on_db (create_trace (run_trace_id r s) "llm" ("llm_" ++ nm) (now s)
              (current_session (context s)) (parent_of p s)
              (combine_metadata (global_metadata s) md tags)) ≫= fun _ =>
     on_context (push_trace (run_trace_id r s) "llm" ("llm_" ++ nm) (now s)
                   (Some (combine_metadata (global_metadata s) md tags))))
      (ready p r s).
Proof.
  intros Hm Hp.
  exact (ready_eq p r s (name_or_last_id ser)
           (fun trace_id start_time parent_trace_id model g sid =>
              on_db (create_trace trace_id "llm" ("llm_" ++ model) start_time
                       sid parent_trace_id (combine_metadata g md tags))
              ≫= fun _ =>
              on_context (push_trace trace_id "llm" ("llm_" ++ model)
                            start_time (Some (combine_metadata g md tags))))
           nm Hm Hp).
Qed.

Lemma chain_start_ready ser inputs r p tags md s nm :
  name_or_last_id ser = Ok nm ->
  parent_recorded p s ->
  _on_chain_start ser inputs r p tags md s
  = (on_db (create_trace (run_trace_id r s) "chain" ("chain_" ++ nm) (now s)
              (current_session (context s)) (parent_of p s)
              (combine_metadata (global_metadata s) md tags)) ≫= fun _ =>
     on_context (push_trace (run_trace_id r s) "chain" ("chain_" ++ nm)
                   (now s)
                   (Some (combine_metadata (global_metadata s) md tags)))
     ≫= fun _ =>
     gets ENABLE_PROMPT_LOGGING ≫= fun log_prompts =>
     on_db (create_event (run_trace_id r s) "chain_start" nm (now s)
              (event_data (payload log_prompts "inputs" inputs))))
      (ready p r s).
Proof.
  intros Hm Hp.
  exact (ready_eq p r s (name_or_last_id ser)
           (fun trace_id start_time parent_trace_id chain_name g sid =>
              on_db (create_trace trace_id "chain" ("chain_" ++ chain_name)
                       start_time sid parent_trace_id
                       (combine_metadata g md tags)) ≫= fun _ =>
              on_context (push_trace trace_id "chain"
                            ("chain_" ++ chain_name) start_time
                            (Some (combine_metadata g md tags))) ≫= fun _ =>
              gets ENABLE_PROMPT_LOGGING ≫= fun log_prompts =>
              on_db (create_event trace_id "chain_start" chain_name
                       start_time
                       (event_data (payload log_prompts "inputs" inputs))))
           nm Hm Hp).
Qed.

Lemma tool_start_ready ser input_str r p tags md s nm :
  name_or_unknown_tool ser = Ok nm ->
  parent_recorded p s ->
  _on_tool_start ser input_str r p tags md s
  = (on_db (create_trace (run_trace_id r s) "tool" ("tool_" ++ nm) (now s)
              (current_session (context s)) (parent_of p s)
              (combine_metadata (global_metadata s) md tags)) ≫= fun _ =>
     gets ENABLE_PROMPT_LOGGING ≫= fun log_prompts =>
     on_db (create_event (run_trace_id r s) "tool_start" nm (now s)
              (event_data (payload log_prompts "input" (PStr input_str)))))
      (ready p r s).
Proof.
  intros Hm Hp.
  exact (ready_eq p r s (name_or_unknown_tool ser)
           (fun trace_id start_time parent_trace_id tool_name g sid =>
              on_db (create_trace trace_id "tool" ("tool_" ++ tool_name)
                       start_time sid parent_trace_id
                       (combine_metadata g md tags)) ≫= fun _ =>
              gets ENABLE_PROMPT_LOGGING ≫= fun log_prompts =>
              on_db (create_event trace_id "tool_start" tool_name start_time
                       (event_data
                          (payload log_prompts "input" (PStr input_str)))))
           nm Hm Hp).
Qed.

(** The trace of a new run is written when its statement goes through
    and its parent, if any, has its row. *)
Lemma create_trace_ready tid ttype nm t sid parent md p r s :
  faults (db s) (executed (db s)) = false ->
  traces (db s) !! tid = None ->
  references_trace (db s) parent = true ->
  on_db (create_trace tid ttype nm t sid parent md) (ready p r s)
  = (Ok tid,
     with_db (fun d => set_traces
                         <[tid := trace_params tid ttype nm t sid parent md]>
                         (count_statement d)) (ready p r s)).
Proof.
  intros Hf Hnew Href.
  destruct (ready_view p r s) as (Vd & _).
  rewrite create_trace_eq, Vd. cbv zeta. rewrite Hf, Hnew.
  rewrite bool_decide_eq_false_2 by (intros [x Hx]; discriminate).
  rewrite references_trace_insert by exact Href. reflexivity.
Qed.

Lemma begin_recorded a ser r p tags md s nm :
  described a ser = Ok nm ->
  parent_recorded p s ->
  references_trace (db s) (parent_of p s) = true ->
  traces (db s) !! run_trace_id r s = None ->
  (forall i, (i < start_statements a)%nat ->
             faults (db s) (executed (db s) + i) = false) ->
  exists s1,
    deliver (begin a ser r p tags md) s = (Ok tt, s1)
    /\ start_facts a nm r p tags md s s1.
Proof.
  intros Hm Hp Href Hnew Hfaults.
  destruct (ready_view p r s)
    as (Vd & Vp & Vf & Vtop & Vr & Vs & Vt & Vn & Vlp & Vlr).
  assert (Hf0 : faults (db s) (executed (db s)) = false).
  { rewrite <- (Nat.add_0_r (executed (db s))). apply Hfaults.
    destruct a; cbn; lia. }
  destruct a as [prompts response | inputs outputs | input_str output];
    cbn [described begin deliver] in *.
  - eassert (H : on_llm_start ser prompts r p tags md s = (Ok tt, _)).
    { unfold on_llm_start, _safe_execute.
      rewrite (llm_start_ready _ _ _ _ _ _ _ _ Hm Hp).
      unfold mbind at 1, ST_bind at 1.
      rewrite (create_trace_ready _ _ _ _ _ _ _ _ _ _ Hf0 Hnew Href).
      rewrite on_push_eq. reflexivity. }
    eexists. split; [exact H |].
    unfold start_facts, opened, pushed, now, later.
    cbn [printed _run_id_to_trace_id _run_start_times db context world
           traces llm_calls events faults executed set_traces count_statement
           with_context with_db ENABLE_RESPONSE_LOGGING start_statements
           start_events trace_type name_prefix uses_stack].
    change (frames (set_stack ?l ?c)) with l.
    rewrite Vp, Vr, Vs, Vd, Vf, Vtop, Vt, Vn, Vlr, app_nil_r, Nat.add_1_r.
    repeat split; reflexivity.
  - assert (Hf1 : faults (db s) (S (executed (db s))) = false).
    { rewrite <- Nat.add_1_r. apply Hfaults. cbn. lia. }
    eassert (H : on_chain_start ser inputs r p tags md s = (Ok tt, _)).
    { unfold on_chain_start, _safe_execute.
      rewrite (chain_start_ready _ _ _ _ _ _ _ _ Hm Hp).
      unfold mbind at 1, ST_bind at 1.
      rewrite (create_trace_ready _ _ _ _ _ _ _ _ _ _ Hf0 Hnew Href).
      unfold mbind at 1, ST_bind at 1. rewrite on_push_eq.
      unfold mbind at 1, ST_bind at 1. rewrite gets_eq, create_event_eq.
      cbn [db with_db with_context faults executed traces set_traces
             count_statement references_trace].
      rewrite Vd, Hf1, lookup_insert_eq.
      rewrite bool_decide_eq_true_2 by eauto. reflexivity. }
    eexists. split; [exact H |].
    unfold start_facts, opened, pushed, now, later.
    cbn [printed _run_id_to_trace_id _run_start_times db context world
           traces llm_calls events faults executed set_traces add_event
           count_statement with_context with_db ENABLE_RESPONSE_LOGGING
           ENABLE_PROMPT_LOGGING start_statements start_events trace_type
           name_prefix uses_stack].
    change (frames (set_stack ?l ?c)) with l.
    rewrite Vp, Vr, Vs, Vd, Vf, Vtop, Vt, Vn, Vlr, Vlp.
    replace (executed (db s) + 2)%nat with (S (S (executed (db s)))) by lia.
    repeat split; reflexivity.
  - assert (Hf1 : faults (db s) (S (executed (db s))) = false).
    { rewrite <- Nat.add_1_r. apply Hfaults. cbn. lia. }
    eassert (H : on_tool_start ser input_str r p tags md s = (Ok tt, _)).
    { unfold on_tool_start, _safe_execute.
      rewrite (tool_start_ready _ _ _ _ _ _ _ _ Hm Hp).
      unfold mbind at 1, ST_bind at 1.
      rewrite (create_trace_ready _ _ _ _ _ _ _ _ _ _ Hf0 Hnew Href).
      unfold mbind at 1, ST_bind at 1. rewrite gets_eq, create_event_eq.
      cbn [db with_db with_context faults executed traces set_traces
             count_statement references_trace].
      rewrite Vd, Hf1, lookup_insert_eq.
      rewrite bool_decide_eq_true_2 by eauto. reflexivity. }
    eexists. split; [exact H |].
    unfold start_facts, opened, pushed, now, later.
    cbn [printed _run_id_to_trace_id _run_start_times db context world
           traces llm_calls events faults executed set_traces add_event
           count_statement with_context with_db ENABLE_RESPONSE_LOGGING
           ENABLE_PROMPT_LOGGING start_statements start_events trace_type
           name_prefix uses_stack].
    rewrite Vp, Vr, Vs, Vd, Vf, Vt, Vn, Vlr, Vlp, app_nil_r.
    replace (executed (db s) + 2)%nat with (S (S (executed (db s)))) by lia.
    repeat split; reflexivity.
Qed.

(** Run the first statements of an end or error callback of a known
    run. *)
Ltac closing Hid Hts Hrun Hrem :=
  rewrite (bind_ok _ _ _ _ _ (get_or_create_eq _ _)), Hrun, Hrem;
  rewrite (bind_ok _ _ _ _ _ (timestamp_eq _));
  rewrite (bind_ok _ _ _ _ _ (gets_eq _ _));
  cbn [_run_start_times with_world]; rewrite Hts; cbn [default].

Lemma finish_recorded a e r p s1 tid t0 :
  _run_id_to_trace_id s1 !! r = Some tid ->
  _run_start_times s1 !! r = Some t0 ->
  is_Some (traces (db s1) !! tid) ->
  tid ∉ l_trace_id <$> llm_calls (db s1) ->
  priced a e ->
  (forall i, (i < end_statements a e)%nat ->
             faults (db s1) (executed (db s1) + i) = false) ->
  exists s2,
    deliver (finish a e r p) s1 = (Ok tt, s2)
    /\ finish_facts a e r tid t0 s1 s2.
Proof.
  intros Hid Hts Hrow Hcall Hcost Hfaults.
  destruct (run_known _ _ _ Hid) as [Hrun Hrem].
  assert (Hf0 : faults (db s1) (executed (db s1)) = false).
  { rewrite <- (Nat.add_0_r (executed (db s1))). apply Hfaults.
    destruct e; cbn; lia. }
  assert (Hkept : forall st msg,
             is_Some (alter (complete (now s1)
                               (Utils.calculate_duration_ms t0 (now s1))
                               st msg) tid (traces (db s1)) !! tid)).
  { intros st msg. apply lookup_alter_is_Some. exact Hrow. }
  destruct e as [| err].
  - assert (Hf1 : faults (db s1) (S (executed (db s1))) = false).
    { rewrite <- Nat.add_1_r. apply Hfaults. cbn. lia. }
    destruct a as [prompts response | inputs outputs | input_str output];
      cbn [finish deliver priced] in *.
    + destruct Hcost as [cost Hcost].
      eassert (H : on_llm_end response r p s1 = (Ok tt, _)).
      { unfold on_llm_end, _safe_execute, _on_llm_end.
        closing Hid Hts Hrun Hrem.
        rewrite (bind_ok _ _ _ _ _ (on_pop_eq _)).
        cbv zeta.
        unfold llm_model, llm_input_tokens, llm_output_tokens in Hcost.
        rewrite Hcost.
        rewrite (bind_ok _ _ _ _ _ (lift_ok_eq (Ok _) _ _ eq_refl)).
        rewrite !(bind_ok _ _ _ _ _ (gets_eq _ _)).
        unfold mbind at 1, ST_bind at 1. rewrite update_trace_completion_eq.
        cbn [db with_context with_world]. rewrite Hf0.
        unfold mbind at 1, ST_bind at 1. rewrite create_llm_call_eq.
        cbn [db with_db with_context with_world faults executed llm_calls
               traces set_traces count_statement references_trace].
        rewrite Hf1. rewrite bool_decide_eq_false_2 by exact Hcall.
        rewrite bool_decide_eq_true_2 by apply Hkept.
        erewrite bind_ok by (apply (del_run_id_eq r tid); exact Hid).
        erewrite del_start_time_eq by exact Hts. reflexivity. }
      eexists. split; [exact H |].
      unfold finish_facts.
      cbn [printed db traces llm_calls events add_llm_call context
             set_traces count_statement _run_id_to_trace_id
             _run_start_times with_db with_context with_world with_run_ids
             with_start_times uses_stack end_events llm_rows
             ENABLE_RESPONSE_LOGGING].
      change (frames (set_stack ?l ?c)) with l.
      rewrite !lookup_delete_eq, app_nil_r.
      split; [reflexivity |]. split; [reflexivity |].
      split; [| repeat split; reflexivity].
      eexists. split; [reflexivity |]. eexists. split; [reflexivity |].
      cbn [l_trace_id l_model l_provider l_input_tokens l_output_tokens
             l_cost_usd].
      unfold llm_model, llm_input_tokens, llm_output_tokens.
      repeat split; try reflexivity. exact Hcost.
    + eassert (H : on_chain_end outputs r p s1 = (Ok tt, _)).
      { unfold on_chain_end, _safe_execute, _on_chain_end.
        closing Hid Hts Hrun Hrem.
        rewrite (bind_ok _ _ _ _ _ (on_pop_eq _)).
        unfold mbind at 1, ST_bind at 1. rewrite update_trace_completion_eq.
        cbn [db with_context with_world]. rewrite Hf0.
        rewrite (bind_ok _ _ _ _ _ (gets_eq _ _)).
        unfold mbind at 1, ST_bind at 1. rewrite create_event_eq.
        cbn [db with_db with_context with_world faults executed traces
               set_traces count_statement references_trace].
        rewrite Hf1. rewrite bool_decide_eq_true_2 by apply Hkept.
        erewrite cleanup_eq by exact Hid. reflexivity. }
      eexists. split; [exact H |].
      unfold finish_facts.
      cbn [printed db traces llm_calls events add_event context
             set_traces count_statement _run_id_to_trace_id
             _run_start_times with_db with_context with_world with_run_ids
             with_start_times uses_stack end_events llm_rows
             ENABLE_RESPONSE_LOGGING].
      change (frames (set_stack ?l ?c)) with l.
      rewrite !lookup_delete_eq.
      split; [reflexivity |]. split; [reflexivity |].
      split; [| repeat split; reflexivity].
      exists []. rewrite app_nil_r. split; reflexivity.
    + eassert (H : on_tool_end output r p s1 = (Ok tt, _)).
      { unfold on_tool_end, _safe_execute, _on_tool_end.
        closing Hid Hts Hrun Hrem.
        unfold mbind at 1, ST_bind at 1. rewrite update_trace_completion_eq.
        cbn [db with_context with_world]. rewrite Hf0.
        rewrite (bind_ok _ _ _ _ _ (gets_eq _ _)).
        unfold mbind at 1, ST_bind at 1. rewrite create_event_eq.
        cbn [db with_db with_context with_world faults executed traces
               set_traces count_statement references_trace].
        rewrite Hf1. rewrite bool_decide_eq_true_2 by apply Hkept.
        erewrite cleanup_eq by exact Hid. reflexivity. }
      eexists. split; [exact H |].
      unfold finish_facts.
      cbn [printed db traces llm_calls events add_event context
             set_traces count_statement _run_id_to_trace_id
             _run_start_times with_db with_context with_world with_run_ids
             with_start_times uses_stack end_events llm_rows
             ENABLE_RESPONSE_LOGGING].
      rewrite !lookup_delete_eq.
      split; [reflexivity |]. split; [reflexivity |].
      split; [| repeat split; reflexivity].
      exists []. rewrite app_nil_r. split; reflexivity.
  - destruct a as [prompts response | inputs outputs | input_str output];
      cbn [finish deliver] in *.
    + eassert (H : on_llm_error err r p s1 = (Ok tt, _)).
      { unfold on_llm_error, _safe_execute, _on_llm_error.
        closing Hid Hts Hrun Hrem.
        rewrite (bind_ok _ _ _ _ _ (on_pop_eq _)).
        unfold mbind at 1, ST_bind at 1. rewrite update_trace_completion_eq.
        cbn [db with_context with_world]. rewrite Hf0.
        erewrite cleanup_eq by exact Hid. reflexivity. }
      eexists. split; [exact H |].
      unfold finish_facts.
      cbn [printed db traces llm_calls events context set_traces
             count_statement _run_id_to_trace_id _run_start_times with_db
             with_context with_world with_run_ids with_start_times
             uses_stack end_events llm_rows ENABLE_RESPONSE_LOGGING].
      change (frames (set_stack ?l ?c)) with l.
      rewrite !lookup_delete_eq, app_nil_r.
      split; [reflexivity |]. split; [reflexivity |].
      split; [| repeat split; reflexivity].
      exists []. rewrite app_nil_r. split; reflexivity.
    + eassert (H : on_chain_error err r p s1 = (Ok tt, _)).
      { unfold on_chain_error, _safe_execute, _on_chain_error.
        closing Hid Hts Hrun Hrem.
        rewrite (bind_ok _ _ _ _ _ (on_pop_eq _)).
        unfold mbind at 1, ST_bind at 1. rewrite update_trace_completion_eq.
        cbn [db with_context with_world]. rewrite Hf0.
        erewrite cleanup_eq by exact Hid. reflexivity. }
      eexists. split; [exact H |].
      unfold finish_facts.
      cbn [printed db traces llm_calls events context set_traces
             count_statement _run_id_to_trace_id _run_start_times with_db
             with_context with_world with_run_ids with_start_times
             uses_stack end_events llm_rows ENABLE_RESPONSE_LOGGING].
      change (frames (set_stack ?l ?c)) with l.
      rewrite !lookup_delete_eq, app_nil_r.
      split; [reflexivity |]. split; [reflexivity |].
      split; [| repeat split; reflexivity].
      exists []. rewrite app_nil_r. split; reflexivity.
    + eassert (H : on_tool_error err r p s1 = (Ok tt, _)).
      { unfold on_tool_error, _safe_execute, _on_tool_error.
        closing Hid Hts Hrun Hrem.
        unfold mbind at 1, ST_bind at 1. rewrite update_trace_completion_eq.
        cbn [db with_context with_world]. rewrite Hf0.
        erewrite cleanup_eq by exact Hid. reflexivity. }
      eexists. split; [exact H |].
      unfold finish_facts.
      cbn [printed db traces llm_calls events context set_traces
             count_statement _run_id_to_trace_id _run_start_times with_db
             with_context with_world with_run_ids with_start_times
             uses_stack end_events llm_rows ENABLE_RESPONSE_LOGGING].
      rewrite !lookup_delete_eq, app_nil_r.
      split; [reflexivity |]. split; [reflexivity |].
      split; [| repeat split; reflexivity].
      exists []. rewrite app_nil_r. split; reflexivity.
Qed.

Lemma deliver_all_consistent (ns : list notification)
    (s : ObservabilityCallback) :
  consistent (db s) -> consistent (db (deliver_all ns s)).
Proof.
  apply (tables_deliver_all (fun d d' => consistent d -> consistent d')).
  - intros d H. exact H.
  - intros d1 d2 d3 H12 H23 H. exact (H23 (H12 H)).
  - intros w d. apply run_consistent.
Qed.

Lemma parent_has_row (p : option string) (s : ObservabilityCallback) :
  stack_recorded s -> parent_recorded p s ->
  references_trace (db s) (parent_of p s) = true.
Proof.
  intros Hs Hp. destruct p as [q |]; cbn [parent_of].
  - destruct Hp as (t & Ht & Hrow). rewrite Ht.
    apply bool_decide_eq_true_2. exact Hrow.
  - apply top_recorded. exact Hs.
Qed.



